(** * Street-Smart Wealth Tracker: the financial core of
      [src/StreetSmartWealthTracker.jsx]

    A shallow embedding of the calculator's core: FIFO lot accounting,
    buy and sell recording, the financial-year CGT summary, the budget
    planner and the budget allocation, the totals and the rebalancing
    suggestions, the CAGR estimate, the reset, and the backup export and
    import with the loading of the stored copy.

    Numbers.  A JavaScript number is modelled by an exact rational ([Q]):
    "within floating tolerance" in the prose becomes [==] ([Qeq]) here.
    Where the source converts or defends ([Number(x) || 0], [t.gain || 0])
    a value that may fail to be a number is an [option Q], [None] standing
    for [NaN] / [undefined].  Instants are milliseconds since the epoch
    ([Z]); a [Date] that may be invalid is an [option Z].

    Layout.  The embedding of the source comes first, function by function
    and under the source's names; then the notions the specification uses,
    and sample data; then the properties. *)

From Stdlib Require Import QArith Qminmax Qabs Lqa ZArith Lia List Bool.
From Stdlib Require Import String Ascii DecimalString.
From Stdlib Require Import Sorting.Sorted Sorting.Permutation.
Import ListNotations.

Set Warnings "-register-all".

Local Open Scope Q_scope.

(** ** JavaScript arithmetic on exact numbers *)

Definition Qltb (a b : Q) : bool :=
  match a ?= b with Lt => true | _ => false end.

Definition Qleb (a b : Q) : bool :=
  match a ?= b with Gt => false | _ => true end.

(** [!x] on a number: true exactly for zero (and [NaN], which [Q] lacks). *)
Definition falsyQ (x : Q) : bool :=
  match x ?= 0 with Eq => true | _ => false end.

(** [x || 0] on a number. *)
Definition orZero (x : Q) : Q := if falsyQ x then 0 else x.

(** [x || 1] on a number. *)
Definition orOne (x : Q) : Q := if falsyQ x then 1 else x.

Definition Math_max (a b : Q) : Q := Qmax a b.
Definition Math_min (a b : Q) : Q := Qmin a b.
Definition Math_abs (a : Q) : Q := Qabs a.

(** [x || 0] for a value that may be [undefined] / [NaN]. *)
Definition or0 (x : option Q) : Q :=
  match x with Some q => q | None => 0 end.

(** [Math.max(0, Number(x) || 0)], the clamp applied to every typed-in
    amount; the argument is the reading [Number(x)] of the input. *)
Definition clamp0 (x : option Q) : Q := Math_max 0 (or0 x).

(** Sum of a list of numbers. *)
Definition sumQ (l : list Q) : Q := fold_right Qplus 0 l.

(** ** A small option monad, for the date parser *)

Definition obind {A B : Type} (o : option A) (f : A -> option B) : option B :=
  match o with Some a => f a | None => None end.

Notation "x <- e ;; k" := (obind e (fun x => k))
  (at level 61, e at next level, right associativity).
Notation "' p <- e ;; k" := (obind e (fun x => let p := x in k))
  (at level 61, p pattern, e at next level, right associativity).

(** ** Dates

    The time value of a [Date] is a number of milliseconds since
    1970-01-01T00:00:00Z.  The day arithmetic is ECMAScript's
    ([DayFromYear], [MakeDay], [MakeTime], [MakeDate]). *)

Local Open Scope Z_scope.

Definition msPerDay : Z := 86400000.

Definition isLeapYear (y : Z) : bool :=
  ((y mod 4 =? 0) && negb (y mod 100 =? 0)) || (y mod 400 =? 0).

Definition DayFromYear (y : Z) : Z :=
  365 * (y - 1970) + (y - 1969) / 4 - (y - 1901) / 100 + (y - 1601) / 400.

Definition daysInMonth (y m : Z) : Z :=
  if m =? 2 then (if isLeapYear y then 29 else 28)
  else if (m =? 4) || (m =? 6) || (m =? 9) || (m =? 11) then 30
  else 31.

(** Days of the year before the first of month [m] (1..12). *)
Definition daysBeforeMonth (y m : Z) : Z :=
  let common :=
    nth (Z.to_nat (m - 1)) [0; 31; 59; 90; 120; 151; 181; 212; 243; 273; 304; 334] 0 in
  if (2 <? m) && isLeapYear y then common + 1 else common.

Definition MakeDay (y m d : Z) : Z :=
  DayFromYear y + daysBeforeMonth y m + (d - 1).

Definition MakeTime (h mi s ms : Z) : Z :=
  h * 3600000 + mi * 60000 + s * 1000 + ms.

(** The time value of [y-m-dTh:mi:s.msZ]. *)
Definition utc_ms (y m d h mi s ms : Z) : Z :=
  MakeDay y m d * msPerDay + MakeTime h mi s ms.

(** The civil date of a day number (the inverse of [MakeDay]). *)
Definition civil_of_day (day : Z) : Z * Z * Z :=
  let z := day + 719468 in
  let era := z / 146097 in
  let doe := z - era * 146097 in
  let yoe := (doe - doe / 1460 + doe / 36524 - doe / 146096) / 365 in
  let doy := doe - (365 * yoe + yoe / 4 - yoe / 100) in
  let mp := (5 * doy + 2) / 153 in
  let d := doy - (153 * mp + 2) / 5 + 1 in
  let m := if mp <? 10 then mp + 3 else mp - 9 in
  let y := yoe + era * 400 in
  (if m <=? 2 then y + 1 else y, m, d).

(** *** Reading a date string

    [Date.parse] on the ECMAScript date-time string format: a year of four
    digits, or of six digits with a sign; then optionally [-MM] and [-DD];
    then optionally a time, [THH:mm], [THH:mm:ss] or [THH:mm:ss.sss],
    followed by [Z], by an offset [+HH:mm] or [-HH:mm], or by nothing.  A
    date alone is read as UTC midnight; a date with a time and no offset
    is read as local time, [zone] giving the offset of the local zone from
    UTC, in milliseconds, at a local time value.  Hour 24 is the end of
    the day (only as 24:00:00.000), year -000000 is not a year, and a time
    value beyond 8.64e15 milliseconds either side of the epoch is no time
    value.

    Strings that are not in this format, whose reading ECMAScript leaves
    to the engine (other forms, a day past the end of its month, a
    fraction of other than three digits), are read as an invalid date
    ([None], the [NaN] time value). *)

Definition digit_of (c : ascii) : option Z :=
  let n := Z.of_nat (nat_of_ascii c) in
  if (48 <=? n) && (n <=? 57) then Some (n - 48) else None.

(** Reads exactly [n] decimal digits. *)
Fixpoint digits (n : nat) (acc : Z) (s : string) : option (Z * string) :=
  match n with
  | O => Some (acc, s)
  | S n' =>
      match s with
      | String c s' => d <- digit_of c ;; digits n' (10 * acc + d) s'
      | EmptyString => None
      end
  end.

Definition expect (c : ascii) (s : string) : option string :=
  match s with
  | String c' s' => if Ascii.eqb c c' then Some s' else None
  | EmptyString => None
  end.

Definition in_range (lo x hi : Z) : option unit :=
  if (lo <=? x) && (x <=? hi) then Some tt else None.

(** [YYYY], [+YYYYYY] or [-YYYYYY]. *)
Definition parse_year (s : string) : option (Z * string) :=
  match expect "+" s with
  | Some s => digits 6 0 s
  | None =>
      match expect "-" s with
      | Some s =>
          '(y, s) <- digits 6 0 s ;;
          if y =? 0 then None else Some (- y, s)
      | None => digits 4 0 s
      end
  end.

(** [YYYY], [YYYY-MM] or [YYYY-MM-DD]; a missing month or day is 1. *)
Definition parse_date (s : string) : option (Z * Z * Z * string) :=
  '(y, s) <- parse_year s ;;
  match expect "-" s with
  | None => Some (y, 1, 1, s)
  | Some s =>
      '(m, s) <- digits 2 0 s ;;
      _ <- in_range 1 m 12 ;;
      match expect "-" s with
      | None => Some (y, m, 1, s)
      | Some s =>
          '(d, s) <- digits 2 0 s ;;
          _ <- in_range 1 d (daysInMonth y m) ;;
          Some (y, m, d, s)
      end
  end.

(** [:ss] and [.sss], each optional; missing ones are 0. *)
Definition parse_seconds (s : string) : option (Z * Z * string) :=
  match expect ":" s with
  | None => Some (0, 0, s)
  | Some s =>
      '(sec, s) <- digits 2 0 s ;;
      _ <- in_range 0 sec 59 ;;
      match expect "." s with
      | None => Some (sec, 0, s)
      | Some s => '(ms, s) <- digits 3 0 s ;; Some (sec, ms, s)
      end
  end.

(** [HH:mm], [HH:mm:ss] or [HH:mm:ss.sss], as milliseconds into the
    day. *)
Definition parse_time (s : string) : option (Z * string) :=
  '(h, s) <- digits 2 0 s ;;
  s <- expect ":" s ;;
  '(mi, s) <- digits 2 0 s ;;
  _ <- in_range 0 mi 59 ;;
  '(sec, ms, s) <- parse_seconds s ;;
  _ <- (if h =? 24
        then if (mi =? 0) && (sec =? 0) && (ms =? 0) then Some tt else None
        else in_range 0 h 23) ;;
  Some (MakeTime h mi sec ms, s).

(** [HH:mm] after the sign of an offset, in milliseconds. *)
Definition parse_hours_minutes (s : string) : option (Z * string) :=
  '(h, s) <- digits 2 0 s ;;
  s <- expect ":" s ;;
  '(mi, s) <- digits 2 0 s ;;
  _ <- in_range 0 h 23 ;;
  _ <- in_range 0 mi 59 ;;
  Some (h * 3600000 + mi * 60000, s).

(** [Z], [+HH:mm], [-HH:mm] or nothing: the offset of the time written
    from UTC, [None] when the time is local time. *)
Definition parse_offset (s : string) : option (option Z * string) :=
  match expect "Z" s with
  | Some s => Some (Some 0, s)
  | None =>
      match expect "+" s with
      | Some s => '(o, s) <- parse_hours_minutes s ;; Some (Some o, s)
      | None =>
          match expect "-" s with
          | Some s => '(o, s) <- parse_hours_minutes s ;; Some (Some (- o), s)
          | None => Some (None, s)
          end
      end
  end.

(** [TimeClip]: a time value is at most 8.64e15 either side of the
    epoch. *)
Definition TimeClip (t : Z) : option Z :=
  if Z.abs t <=? 8640000000000000 then Some t else None.

(** [Date.parse(s)] on a host whose local zone is [zone]. *)
Definition Date_parse_in (zone : Z -> Z) (s : string) : option Z :=
  '(y, m, d, s) <- parse_date s ;;
  match s with
  | EmptyString => TimeClip (utc_ms y m d 0 0 0 0)
  | _ =>
      s <- expect "T" s ;;
      '(tod, s) <- parse_time s ;;
      '(offset, s) <- parse_offset s ;;
      match s with
      | EmptyString =>
          let written := MakeDay y m d * msPerDay + tod in
          match offset with
          | Some o => TimeClip (written - o)
          | None => TimeClip (written - zone written)
          end
      | _ => None
      end
  end.

(** The local zone of the host, for the one form of date that depends on
    it: UTC.  Every date this program writes ends in [Z] and is read alike
    in every zone. *)
Definition host_zone (local : Z) : Z := 0.

(** [Date.parse(s)] *)
Definition Date_parse (s : string) : option Z := Date_parse_in host_zone s.

(** *** Writing a date string *)

Definition digit_char (d : Z) : ascii := ascii_of_nat (Z.to_nat (48 + d)).

(** [n] written with exactly [w] decimal digits (zero padded). *)
Fixpoint pad (w : nat) (n : Z) (tail : string) : string :=
  match w with
  | O => tail
  | S w' => pad w' (n / 10) (String (digit_char (n mod 10)) tail)
  end.

(** The year of [toISOString]: four digits, or a sign and six digits
    outside 0..9999. *)
Definition year_string (y : Z) (tail : string) : string :=
  if (0 <=? y) && (y <=? 9999) then pad 4 y tail
  else
    let sign : ascii := if y <? 0 then "-"%char else "+"%char in
    String sign (pad 6 (Z.abs y) tail).

(** [new Date(t).toISOString()] *)
Definition toISOString (t : Z) : string :=
  let day := t / msPerDay in
  let tod := t mod msPerDay in
  let '(y, m, d) := civil_of_day day in
  let z := "Z"%string in
  let ms := String "." (pad 3 (tod mod 1000) z) in
  let sec := String ":" (pad 2 (tod / 1000 mod 60) ms) in
  let mi := String ":" (pad 2 (tod / 60000 mod 60) sec) in
  let h := String "T" (pad 2 (tod / 3600000) mi) in
  year_string y (String "-" (pad 2 m (String "-" (pad 2 d h)))).

(** An integer inside a template literal: [`${n}`]. *)
Definition template_int (n : Z) : string := NilZero.string_of_int (Z.to_int n).

Local Close Scope Z_scope.

(** A date-valued property as JavaScript sees it: missing, [null], or a
    string. *)
Inductive jsdate : Type :=
| Undefined
| Null
| Str (s : string).

(** Truthiness: [undefined], [null] and the empty string are falsy. *)
Definition truthy (d : jsdate) : bool :=
  match d with
  | Str s => negb (String.eqb s "")
  | _ => false
  end.

(** [new Date(d).getTime()]; [new Date(null)] is the epoch and
    [new Date(undefined)] is invalid. *)
Definition Date_getTime (d : jsdate) : option Z :=
  match d with
  | Undefined => None
  | Null => Some 0%Z
  | Str s => Date_parse s
  end.

(** Comparisons with a possibly-[NaN] operand are false on [NaN]. *)
Definition ge_time (a b : option Z) : bool :=
  match a, b with Some x, Some y => (y <=? x)%Z | _, _ => false end.

Definition le_time (a b : option Z) : bool :=
  match a, b with Some x, Some y => (x <=? y)%Z | _, _ => false end.

(** [yearsBetween(a, b)]: [ms / (1000 * 60 * 60 * 24 * 365.25)]; [None] when
    either date is invalid. *)
Definition yearsBetween (a b : option Z) : option Q :=
  match a, b with
  | Some ta, Some tb =>
      let ms := inject_Z (tb - ta) in
      Some (ms / (1000 * 60 * 60 * 24 * 365.25))
  | _, _ => None
  end.

(** ** Lots, assets, transactions *)

Module Lot.
(** [{ qty, price, date }]: one acquisition. *)
Record t : Type := mk { qty : Q; price : Q; date : jsdate }.

(** [{ ...lot, qty: q }] *)
Definition with_qty (l : t) (q : Q) : t := mk q (price l) (date l).
End Lot.

Module Asset.
Record t : Type := mk {
  ticker : string;
  name : string;
  targetWeight : Q;
  price : Q;
  units : Q;
  invested : Q;
  lots : list Lot.t;
  firstContribution : jsdate
}.
End Asset.

Module Txn.
(** A log entry.  The four SELL-only properties are absent ([None]) on a
    BUY. *)
Record t : Type := mk {
  id : string;
  kind : string;
  ticker : string;
  amount : Q;
  units : Q;
  price : Q;
  proceeds : option Q;
  costBase : option Q;
  gain : option Q;
  discountGain : option Q;
  date : jsdate
}.
End Txn.

(** The two pieces of React state the core works on; [txn] is kept most
    recent first.  A handler is a function from the state before the event
    to the state after it: the [assets] a handler closes over and the
    [prev] its updater receives are the same list. *)
Record State : Type := mkState { assets : list Asset.t; txn : list Txn.t }.

(** What a handler reads from its environment: the clock, once per
    [new Date()], and [crypto.randomUUID()]. *)
Record Sys : Type := mkSys { now : Z; now_again : Z; randomUUID : string }.

(** Sum of the quantities of a lot list. *)
Definition total_qty (ls : list Lot.t) : Q := sumQ (map Lot.qty ls).

(** ** FIFO lot helper *)

Module Fifo.
(** The three variables of the loop in [consumeLotsFIFO]. *)
Record loop : Type :=
  mkLoop { l_consumed : list Lot.t; l_remaining : Q; l_newLots : list Lot.t }.

(** The value returned: [{ consumed, newLots, unfilled }]. *)
Record result : Type :=
  mk { consumed : list Lot.t; newLots : list Lot.t; unfilled : Q }.
End Fifo.

(** One iteration of [for (const lot of lots)]. *)
Definition consume_step (s : Fifo.loop) (lot : Lot.t) : Fifo.loop :=
  let consumed := Fifo.l_consumed s in
  let remaining := Fifo.l_remaining s in
  let newLots := Fifo.l_newLots s in
  if Qleb remaining 0 then
    Fifo.mkLoop consumed remaining (newLots ++ [lot])
  else
    let take := Math_min remaining (Lot.qty lot) in
    let consumed' :=
      if Qltb 0 take then consumed ++ [Lot.with_qty lot take] else consumed in
    let leftover := Lot.qty lot - take in
    let newLots' :=
      if Qltb 0 leftover then newLots ++ [Lot.with_qty lot leftover]
      else newLots in
    Fifo.mkLoop consumed' (remaining - take) newLots'.

Definition consume_loop (lots : list Lot.t) (s : Fifo.loop) : Fifo.loop :=
  fold_left consume_step lots s.

Definition consumeLotsFIFO (lots : list Lot.t) (sellQty : Q) : Fifo.result :=
  let s := consume_loop lots (Fifo.mkLoop [] sellQty []) in
  Fifo.mk (Fifo.l_consumed s) (Fifo.l_newLots s)
          (Math_max 0 (Fifo.l_remaining s)).

(** ** State updates *)

(** [assets.find(x => x.ticker === ticker)] *)
Definition find_asset (tk : string) (l : list Asset.t) : option Asset.t :=
  find (fun x => String.eqb (Asset.ticker x) tk) l.

(** [updateAsset(ticker, patch)]: every asset carrying the ticker is
    patched; [patch x] is [{ ...x, ...patch }]. *)
Definition updateAsset (tk : string) (patch : Asset.t -> Asset.t)
    (st : State) : State :=
  mkState
    (map (fun a => if String.eqb (Asset.ticker a) tk then patch a else a)
         (assets st))
    (txn st).

(** [addTransaction(t)]: the new entry goes to the front. *)
Definition addTransaction (t : Txn.t) (st : State) : State :=
  mkState (assets st) (t :: txn st).

(** [{ ...x, price: p }] *)
Definition patch_price (p : Q) (x : Asset.t) : Asset.t :=
  Asset.mk (Asset.ticker x) (Asset.name x) (Asset.targetWeight x) p
           (Asset.units x) (Asset.invested x) (Asset.lots x)
           (Asset.firstContribution x).

(** [{ ...x, units, invested, lots, firstContribution }] *)
Definition patch_buy (u inv : Q) (ls : list Lot.t) (fc : jsdate)
    (x : Asset.t) : Asset.t :=
  Asset.mk (Asset.ticker x) (Asset.name x) (Asset.targetWeight x)
           (Asset.price x) u inv ls fc.

(** [{ ...x, units, lots }] *)
Definition patch_sell (u : Q) (ls : list Lot.t) (x : Asset.t) : Asset.t :=
  Asset.mk (Asset.ticker x) (Asset.name x) (Asset.targetWeight x)
           (Asset.price x) u (Asset.invested x) ls
           (Asset.firstContribution x).

Definition handleManualPrice (tk : string) (price : option Q)
    (st : State) : State :=
  let p := clamp0 price in
  updateAsset tk (patch_price p) st.

(** ** Buy *)

Definition handleBuy (sys : Sys) (tk : string) (amount : option Q)
    (st : State) : State :=
  let amt := clamp0 amount in
  match find_asset tk (assets st) with
  | None => st
  | Some a =>
      if falsyQ (Asset.price a) || Qleb amt 0 then st
      else
        let units := amt / Asset.price a in
        let lot := Lot.mk units (Asset.price a) (Str (toISOString (now sys))) in
        let fc :=
          if truthy (Asset.firstContribution a)
          then Asset.firstContribution a else Lot.date lot in
        let st1 :=
          updateAsset tk
            (patch_buy (Asset.units a + units) (Asset.invested a + amt)
                       (Asset.lots a ++ [lot]) fc) st in
        addTransaction
          (Txn.mk (randomUUID sys) "BUY" tk amt units (Asset.price a)
                  None None None None
                  (Str (toISOString (now_again sys))))
          st1
  end.

(** ** Sell *)

(** The accumulator of the second [reduce] in [handleSell]. *)
Record Discounted : Type := mkDiscounted { d_gain : Q; d_discountGain : Q }.

(** [heldYears >= 1], false when [heldYears] is [NaN]. *)
Definition held_a_year (heldYears : option Q) : bool :=
  match heldYears with Some y => Qleb 1 y | None => false end.

(** The part of one consumed lot's gain counted in [discountGain]. *)
Definition eligible (salePrice : Q) (saleDate : Z) (l : Lot.t) : Q :=
  let heldYears := yearsBetween (Date_getTime (Lot.date l)) (Some saleDate) in
  let gain := Lot.qty l * (salePrice - Lot.price l) in
  if held_a_year heldYears then 0.5 * Math_max 0 gain else Math_max 0 gain.

Definition discount_step (salePrice : Q) (saleDate : Z)
    (acc : Discounted) (l : Lot.t) : Discounted :=
  let gain := Lot.qty l * (salePrice - Lot.price l) in
  mkDiscounted (d_gain acc + Math_max 0 gain)
               (d_discountGain acc + eligible salePrice saleDate l).

Definition cost_base (consumed : list Lot.t) : Q :=
  fold_left (fun s l => s + Lot.qty l * Lot.price l) consumed 0.

Definition discounted_of (salePrice : Q) (saleDate : Z)
    (consumed : list Lot.t) : Discounted :=
  fold_left (discount_step salePrice saleDate) consumed (mkDiscounted 0 0).

Definition handleSell (sys : Sys) (tk : string) (amount : option Q)
    (st : State) : State :=
  let amt := clamp0 amount in
  match find_asset tk (assets st) with
  | None => st
  | Some a =>
      if falsyQ (Asset.price a) || Qleb amt 0 then st
      else
        let units := amt / Asset.price a in
        let r := consumeLotsFIFO (Asset.lots a) units in
        if Qltb 1e-9 (Fifo.unfilled r) then st
        else
          let proceeds := units * Asset.price a in
          let costBase := cost_base (Fifo.consumed r) in
          let saleDate := now sys in
          let discounted :=
            discounted_of (Asset.price a) saleDate (Fifo.consumed r) in
          let st1 :=
            updateAsset tk
              (patch_sell (Math_max 0 (Asset.units a - units))
                          (Fifo.newLots r)) st in
          addTransaction
            (Txn.mk (randomUUID sys) "SELL" tk amt units (Asset.price a)
                    (Some proceeds) (Some costBase)
                    (Some (proceeds - costBase))
                    (Some (d_discountGain discounted))
                    (Str (toISOString saleDate)))
            st1
  end.

(** ** Planner *)

(** The planner form; each field holds what the user typed, seen through
    [Number(...)]. *)
Record Planner : Type :=
  mkPlanner { budget : option Q; bufferPct : option Q; fees : option Q }.

Module Split.
(** One row of the plan; [units] is [null] ([None]) without a price. *)
Record t : Type := mk {
  ticker : string;
  name : string;
  weight : Q;
  amount : Q;
  units : option Q;
  price : Q
}.
End Split.

(** [Math.max(0, budget - fees - budget * (bufferPct / 100))] on the
    clamped form values. *)
Definition spendable_of (p : Planner) : Q :=
  let budget := clamp0 (budget p) in
  let fees := clamp0 (fees p) in
  let bufferPct := clamp0 (bufferPct p) in
  Math_max 0 (budget - fees - budget * (bufferPct / 100)).

(** [assets.reduce((s, a) => s + (a.targetWeight || 0), 0) || 1] *)
Definition totalWeights_of (l : list Asset.t) : Q :=
  orOne (fold_left (fun s a => s + orZero (Asset.targetWeight a)) l 0).

Definition plannedSplits (p : Planner) (l : list Asset.t) : list Split.t :=
  let spendable := spendable_of p in
  if Qleb spendable 0 then []
  else
    let totalWeights := totalWeights_of l in
    map (fun a =>
           let amount :=
             spendable * (orZero (Asset.targetWeight a) / totalWeights) in
           let units :=
             if Qltb 0 (Asset.price a) then Some (amount / Asset.price a)
             else None in
           Split.mk (Asset.ticker a) (Asset.name a) (Asset.targetWeight a)
                    amount units (Asset.price a))
        l.

(** ** Totals and rebalancing suggestions *)

Definition market_value (a : Asset.t) : Q :=
  Asset.units a * orZero (Asset.price a).

(** [totals.value] *)
Definition totals_value (l : list Asset.t) : Q :=
  fold_left (fun s a => s + market_value a) l 0.

Record Rebalance : Type := mkRebalance { enabled : bool; thresholdPct : Q }.

Module Delta.
Record t : Type := mk {
  ticker : string;
  name : string;
  diffPct : Q;
  currentWeight : Q
}.
End Delta.

Definition delta_of (value : Q) (a : Asset.t) : Delta.t :=
  let currentWeight := if Qltb 0 value then market_value a / value else 0 in
  let diffPct := (currentWeight - orZero (Asset.targetWeight a)) * 100 in
  Delta.mk (Asset.ticker a) (Asset.name a) diffPct currentWeight.

(** The comparator passed to [sort]:
    [(a, b) => Math.abs(b.diffPct) - Math.abs(a.diffPct)]. *)
Definition by_drift (a b : Delta.t) : Q :=
  Math_abs (Delta.diffPct b) - Math_abs (Delta.diffPct a).

(** [Array.prototype.sort] is a stable sort: with a comparator that orders
    by a key its result is the stable arrangement, built here by insertion
    (an element goes in front of the first one it does not have to follow). *)
Fixpoint sort_insert {A : Type} (cmp : A -> A -> Q) (x : A) (l : list A)
    : list A :=
  match l with
  | [] => [x]
  | y :: ys =>
      if Qleb (cmp x y) 0 then x :: y :: ys else y :: sort_insert cmp x ys
  end.

Definition Array_sort {A : Type} (cmp : A -> A -> Q) (l : list A) : list A :=
  fold_right (sort_insert cmp) [] l.

Definition suggestions (r : Rebalance) (l : list Asset.t) : list Delta.t :=
  let value := totals_value l in
  if negb (enabled r) || Qleb value 0 then []
  else
    let deltas := map (delta_of value) l in
    let out :=
      filter (fun d => Qleb (orZero (thresholdPct r))
                            (Math_abs (Delta.diffPct d))) deltas in
    Array_sort by_drift out.

(** ** CAGR

    [Math.pow] is taken as a parameter; an invalid first-contribution date
    makes [years] a [NaN], which passes both comparisons and makes the power
    a [NaN] ([None]). *)

Definition getCAGR (Math_pow : Q -> Q -> Q) (today : Z) (asset : Asset.t)
    : option Q :=
  if negb (truthy (Asset.firstContribution asset))
     || Qleb (Asset.invested asset) 0
  then Some 0
  else
    let years :=
      yearsBetween (Date_getTime (Asset.firstContribution asset))
                   (Some today) in
    match years with
    | Some y =>
        if Qleb y 0 then Some 0
        else
          let value := orZero (Asset.units asset) * orZero (Asset.price asset) in
          if Qleb value 0 then Some (-1)
          else Some (Math_pow (value / Asset.invested asset) (1 / y) - 1)
    | None =>
        let value := orZero (Asset.units asset) * orZero (Asset.price asset) in
        if Qleb value 0 then Some (-1) else None
    end.

(** ** CGT summary for a financial year *)

Record FYSummary : Type :=
  mkFY { events : nat; grossGain : Q; discountGain : Q }.

Definition fy_start (fyStartYear : Z) : option Z :=
  Date_parse (template_int fyStartYear ++ "-07-01T00:00:00.000Z").

Definition fy_end (fyStartYear : Z) : option Z :=
  Date_parse (template_int (fyStartYear + 1) ++ "-06-30T23:59:59.999Z").

(** The predicate of [txn.filter(...)]. *)
Definition in_fy (fyStartYear : Z) (t : Txn.t) : bool :=
  String.eqb (Txn.kind t) "SELL"
  && truthy (Txn.date t)
  && ge_time (Date_getTime (Txn.date t)) (fy_start fyStartYear)
  && le_time (Date_getTime (Txn.date t)) (fy_end fyStartYear).

Definition CGTSummaryFY (log : list Txn.t) (fyStartYear : Z) : FYSummary :=
  let sells := filter (in_fy fyStartYear) log in
  let grossGain :=
    fold_left (fun s t => s + Math_max 0 (or0 (Txn.gain t))) sells 0 in
  let discountGain :=
    fold_left (fun s t => s + Math_max 0 (or0 (Txn.discountGain t))) sells 0 in
  mkFY (List.length sells) grossGain discountGain.

(** ** Backup import

    For the import the in-memory state is seen as the JSON it is persisted
    as: the assets and the transactions are arrays of JSON values. *)

Inductive json : Type :=
| JNull
| JBool (b : bool)
| JNum (q : Q)
| JStr (s : string)
| JArr (items : list json)
| JObj (fields : list (string * json)).

(** Property access [obj[key]] on a parsed object; [None] is [undefined].
    A later duplicate of a key overrides an earlier one, as in
    [JSON.parse]. *)
Fixpoint get_field (key : string) (fields : list (string * json))
    : option json :=
  match fields with
  | [] => None
  | (k, v) :: rest =>
      match get_field key rest with
      | Some v' => Some v'
      | None => if String.eqb k key then Some v else None
      end
  end.

(** [!v] on a property value. *)
Definition js_falsy (v : option json) : bool :=
  match v with
  | None => true
  | Some JNull => true
  | Some (JBool b) => negb b
  | Some (JNum q) => falsyQ q
  | Some (JStr s) => String.eqb s ""
  | Some (JArr _) => false
  | Some (JObj _) => false
  end.

(** [Array.isArray(v)] *)
Definition Array_isArray (v : option json) : bool :=
  match v with Some (JArr _) => true | _ => false end.

(** The items of a value known to be an array. *)
Definition items_of (v : option json) : list json :=
  match v with Some (JArr items) => items | _ => [] end.

Record Store : Type := mkStore { s_assets : list json; s_txn : list json }.

(** The outcome of one import: the store afterwards and the text passed to
    [alert], if any. *)
Record Imported : Type := mkImported { store : Store; alerted : option string }.

Section BackupImport.
(** [JSON.parse]: the parsed value, or the message of the [SyntaxError]. *)
Variable JSON_parse : string -> json + string.
(** The message of the [TypeError] raised by reading a property of
    [null]. *)
Variable null_property_message : string.

(** [data.assets] and [data.transactions]: a property read throws on
    [null], and is [undefined] on the other non-objects. *)
Definition property (data : json) (key : string)
    : (option json) + string :=
  match data with
  | JNull => inr null_property_message
  | JObj fields => inl (get_field key fields)
  | _ => inl None
  end.

(** [alert("Import failed: " + err.message)], the state untouched. *)
Definition import_failed (st : Store) (message : string) : Imported :=
  mkImported st (Some ("Import failed: " ++ message)%string).

(** The body of [reader.onload], on the text of the chosen file. *)
Definition onImportFile (text : string) (st : Store) : Imported :=
  match JSON_parse text with
  | inr message => import_failed st message
  | inl data =>
      match property data "assets" with
      | inr message => import_failed st message
      | inl a =>
          if js_falsy a || negb (Array_isArray a) then
            import_failed st "Invalid backup – assets missing"
          else
            match property data "transactions" with
            | inr message => import_failed st message
            | inl t =>
                mkImported
                  (mkStore (items_of a)
                           (if Array_isArray t then items_of t else []))
                  None
            end
      end
  end.
End BackupImport.

(** ** Target weights, totals and the holdings cards *)

(** [{ ...x, targetWeight: w }] *)
Definition patch_targetWeight (w : Q) (x : Asset.t) : Asset.t :=
  Asset.mk (Asset.ticker x) (Asset.name x) w (Asset.price x)
           (Asset.units x) (Asset.invested x) (Asset.lots x)
           (Asset.firstContribution x).

(** The [onChange] of the target-weight input:
    [updateAsset(a.ticker, { targetWeight: Math.max(0, Number(v) || 0) / 100 })]. *)
Definition handleTargetWeight (tk : string) (percent : option Q)
    (st : State) : State :=
  updateAsset tk (patch_targetWeight (clamp0 percent / 100)) st.

Module Totals.
(** [{ invested, value, weights }]; a weight is [{ ticker, w }]. *)
Record t : Type := mk {
  invested : Q;
  value : Q;
  weights : list (string * Q)
}.
End Totals.

Definition totals (l : list Asset.t) : Totals.t :=
  let invested := fold_left (fun s a => s + orZero (Asset.invested a)) l 0 in
  let value := fold_left (fun s a => s + market_value a) l 0 in
  let weights :=
    map (fun a => (Asset.ticker a,
                   if Qltb 0 value then market_value a / value else 0)) l in
  Totals.mk invested value weights.

(** The weight shown on an asset's card:
    [totals.value > 0 ? value / totals.value : 0] with
    [value = (a.units || 0) * (a.price || 0)]. *)
Definition card_weight (total : Q) (a : Asset.t) : Q :=
  let value := orZero (Asset.units a) * orZero (Asset.price a) in
  if Qltb 0 total then value / total else 0.

(** Whether the card shows its "Rebalance" badge:
    [rebalance.enabled &&
     Math.abs((weight - a.targetWeight) * 100) >= rebalance.thresholdPct]. *)
Definition card_badge (r : Rebalance) (total : Q) (a : Asset.t) : bool :=
  enabled r
  && Qleb (thresholdPct r)
          (Math_abs ((card_weight total a - Asset.targetWeight a) * 100)).

(** ** Allocating the budget *)

(** [handleBuy] as it runs inside a render: the asset is looked up in the
    assets the render saw ([seen]), the updaters apply to the state as it
    is by then. *)
Definition handleBuy_in (seen : list Asset.t) (sys : Sys) (tk : string)
    (amount : option Q) (st : State) : State :=
  let amt := clamp0 amount in
  match find_asset tk seen with
  | None => st
  | Some a =>
      if falsyQ (Asset.price a) || Qleb amt 0 then st
      else
        let units := amt / Asset.price a in
        let lot := Lot.mk units (Asset.price a) (Str (toISOString (now sys))) in
        let fc :=
          if truthy (Asset.firstContribution a)
          then Asset.firstContribution a else Lot.date lot in
        let st1 :=
          updateAsset tk
            (patch_buy (Asset.units a + units) (Asset.invested a + amt)
                       (Asset.lots a ++ [lot]) fc) st in
        addTransaction
          (Txn.mk (randomUUID sys) "BUY" tk amt units (Asset.price a)
                  None None None None
                  (Str (toISOString (now_again sys))))
          st1
  end.

(** [allocations.forEach(x => handleBuy(x.ticker, x.amount))]; the [i]-th
    call reads the clock and the identifier source as [sys_at i]. *)
Fixpoint buy_each (seen : list Asset.t) (sys_at : nat -> Sys) (i : nat)
    (allocations : list (string * Q)) (st : State) : State :=
  match allocations with
  | [] => st
  | (tk, amount) :: rest =>
      buy_each seen sys_at (S i) rest
               (handleBuy_in seen (sys_at i) tk (Some amount) st)
  end.

(** The allocations of [allocateBudget]: the priced assets, each with its
    share of [spendable]. *)
Definition allocations_of (spendable : Q) (l : list Asset.t)
    : list (string * Q) :=
  let priced := filter (fun a => Qltb 0 (Asset.price a)) l in
  let totalWeights :=
    orOne (fold_left (fun s a => s + orZero (Asset.targetWeight a)) priced 0) in
  map (fun a => (Asset.ticker a,
                 spendable * (Asset.targetWeight a / totalWeights)))
      priced.

Definition allocateBudget (p : Planner) (sys_at : nat -> Sys) (st : State)
    : State :=
  let budget := clamp0 (budget p) in
  if Qleb budget 0 then st
  else
    let fees := clamp0 (fees p) in
    let bufferPct := clamp0 (bufferPct p) in
    let spendable := Math_max 0 (budget - fees - budget * (bufferPct / 100)) in
    buy_each (assets st) sys_at 0 (allocations_of spendable (assets st)) st.

(** ** Reset *)

(** [DEFAULT_ASSETS]: ticker, name and target weight. *)
Definition DEFAULT_ASSETS : list (string * string * Q) :=
  [("VGS", "VGS – Intl Shares", 0.35);
   ("VGE", "VGE – EM Shares", 0.15);
   ("A200", "A200 – Aus Shares", 0.30);
   ("VAF", "VAF – Aus Bonds", 0.10);
   ("GOLD", "GOLD – Physical ETF", 0.10)]%string.

(** [DEFAULT_ASSETS.map(a => ({ ...a, price: 0, units: 0, invested: 0,
    lots: [], firstContribution: null }))], the assets of a fresh start and
    of a reset. *)
Definition default_assets : list Asset.t :=
  map (fun '(ticker, name, targetWeight) =>
         Asset.mk ticker name targetWeight 0 0 0 [] Null)
      DEFAULT_ASSETS.

(** The state [resetAll] works on: the data and the [confirmReset] flag. *)
Record App : Type := mkApp { data : State; confirmReset : bool }.

(** [resetAll]: the first click arms the button, the second one clears
    the data.  (The removal of the stored copy is not part of the model.) *)
Definition resetAll (app : App) : App :=
  if negb (confirmReset app) then mkApp (data app) true
  else mkApp (mkState default_assets []) false.

(** ** Backup export *)

(** The object given to [JSON.stringify] by [exportJSON] and by the
    persistence effect: [{ assets, transactions: txn }]. *)
Definition snapshot (st : Store) : json :=
  JObj [("assets"%string, JArr (s_assets st));
        ("transactions"%string, JArr (s_txn st))].

(** The text of the backup file, [JSON.stringify] being given. *)
Definition exportJSON (JSON_stringify : json -> string) (st : Store)
    : string :=
  JSON_stringify (snapshot st).

(** ** The year the CGT panel opens on *)

(** The financial year a local calendar day belongs to:
    [getMonth() >= 6 ? getFullYear() : getFullYear() - 1], with
    [getMonth()] counted from 0. *)
Definition fy_of_day (day : Z) : Z :=
  let '(y, m, _) := civil_of_day day in
  if (6 <=? m - 1)%Z then y else (y - 1)%Z.

(** The initial value of [fyYear].  [getMonth] and [getFullYear] read the
    local time, [t + LocalTZA] in ECMAScript's terms, [LocalTZA] being the
    offset of the local zone from UTC at that instant, in milliseconds.
    (The initializer reads the clock twice or three times; the model takes
    the readings to be the same instant.) *)
Definition initial_fyYear (LocalTZA : Z) (now : Z) : Z :=
  fy_of_day ((now + LocalTZA) / msPerDay)%Z.

(** ** Loading the stored copy *)

(** What the [useState] initializer of [assets] gives: the defaults, or
    whatever the stored text holds under [assets] ([None] is
    [undefined]). *)
Inductive LoadedAssets : Type :=
| FreshStart
| FromStorage (v : option json).

Section StoredCopy.
Variable JSON_parse : string -> json + string.
Variable null_property_message : string.

(** The initializer of [assets], on the result of
    [localStorage.getItem(STORAGE_KEY)] ([None] is [null]). *)
Definition load_assets (saved : option string) : LoadedAssets :=
  match saved with
  | None => FreshStart
  | Some text =>
      if String.eqb text "" then FreshStart
      else
        match JSON_parse text with
        | inr _ => FreshStart
        | inl data =>
            match property null_property_message data "assets" with
            | inr _ => FreshStart
            | inl v => FromStorage v
            end
        end
  end.

(** The initializer of [txn]: [JSON.parse(saved).transactions || []]. *)
Definition load_txn (saved : option string) : json :=
  match saved with
  | None => JArr []
  | Some text =>
      if String.eqb text "" then JArr []
      else
        match JSON_parse text with
        | inr _ => JArr []
        | inl data =>
            match property null_property_message data "transactions" with
            | inr _ => JArr []
            | inl v =>
                match v with
                | Some x => if js_falsy v then JArr [] else x
                | None => JArr []
                end
            end
        end
  end.
End StoredCopy.

(** * The claims' own notions

    Definitions that follow the wording of the specification, to be
    compared with the code above. *)

(** Every lot holds a non-negative quantity. *)
Definition nonneg_lots (ls : list Lot.t) : Prop :=
  Forall (fun l => 0 <= Lot.qty l) ls.

(** One year of 365.25 days, in milliseconds. *)
Definition msPerYear : Z := 31557600000.

(** The lot was acquired at least one 365.25-day year before the sale. *)
Definition held_at_least_a_year (saleDate : Z) (l : Lot.t) : bool :=
  match Date_getTime (Lot.date l) with
  | Some acquired => (msPerYear <=? saleDate - acquired)%Z
  | None => false
  end.

(** A consumed lot's gain at the sale price. *)
Definition lot_gain (salePrice : Q) (l : Lot.t) : Q :=
  Lot.qty l * (salePrice - Lot.price l).

(** Half of the lot's non-negative gain for a lot held at least a year, the
    full non-negative gain otherwise. *)
Definition spec_discount (salePrice : Q) (saleDate : Z) (l : Lot.t) : Q :=
  if held_at_least_a_year saleDate l
  then Qmax 0 (lot_gain salePrice l) / 2
  else Qmax 0 (lot_gain salePrice l).

(** The amount typed in is no positive number: it is not numeric, or it is
    zero or negative. *)
Definition amount_rejected (amount : option Q) : Prop :=
  match amount with None => True | Some q => q <= 0 end.

(** No asset carries the ticker. *)
Definition asset_missing (tk : string) (st : State) : Prop :=
  find_asset tk (assets st) = None.

(** The asset's price is not positive (the claim's wording). *)
Definition price_not_positive (tk : string) (st : State) : Prop :=
  exists a, find_asset tk (assets st) = Some a /\ ~ 0 < Asset.price a.

(** The asset's price is zero (what the guard [!a.price] tests). *)
Definition price_zero (tk : string) (st : State) : Prop :=
  exists a, find_asset tk (assets st) = Some a /\ Asset.price a == 0.

(** FIFO consumption of the requested units leaves more than 1e-9
    unfilled. *)
Definition insufficient_units (tk : string) (amount : option Q) (st : State)
    : Prop :=
  exists a, find_asset tk (assets st) = Some a
    /\ 1e-9 < Fifo.unfilled
                (consumeLotsFIFO (Asset.lots a)
                                 (clamp0 amount / Asset.price a)).

(** The lot quantities of an asset sum to its [units]. *)
Definition lots_match_units (a : Asset.t) : Prop :=
  total_qty (Asset.lots a) == Asset.units a.

(** An asset of the data model: a non-negative price, non-negative lot
    quantities, and lots that sum to [units]. *)
Definition asset_ok (a : Asset.t) : Prop :=
  0 <= Asset.price a /\ nonneg_lots (Asset.lots a) /\ lots_match_units a.

(** The instant a transaction's date names: a missing, [null] or unreadable
    date names none. *)
Definition date_instant (d : jsdate) : option Z :=
  match d with Str s => Date_parse s | _ => None end.

(** 1 July of [fyStartYear], 00:00:00.000 UTC. *)
Definition window_start (fyStartYear : Z) : Z :=
  utc_ms fyStartYear 7 1 0 0 0 0.

(** 30 June of [fyStartYear + 1], 23:59:59.999 UTC. *)
Definition window_end (fyStartYear : Z) : Z :=
  utc_ms (fyStartYear + 1) 6 30 23 59 59 999.

(** A SELL whose date lies in the financial year's window, both ends
    included. *)
Definition sell_in_window (fyStartYear : Z) (t : Txn.t) : bool :=
  String.eqb (Txn.kind t) "SELL"
  && match date_instant (Txn.date t) with
     | Some ms =>
         (window_start fyStartYear <=? ms)%Z && (ms <=? window_end fyStartYear)%Z
     | None => false
     end.

(** The date is absent, [null] or empty. *)
Definition no_date (d : jsdate) : Prop :=
  d = Undefined \/ d = Null \/ d = Str "".

(** The years whose start and end (the year after) are written with four
    digits by the template literals of [CGTSummaryFY]. *)
Definition four_digit_fy (fyStartYear : Z) : Prop :=
  (1000 <= fyStartYear <= 9998)%Z.

(** Both window bounds of a year are read back from their template strings
    as the instants they name. *)
Definition window_read_back (fyStartYear : Z) : bool :=
  match fy_start fyStartYear, fy_end fyStartYear with
  | Some s, Some e =>
      (s =? window_start fyStartYear)%Z && (e =? window_end fyStartYear)%Z
  | _, _ => false
  end.

(** The years 1000 to 9998. *)
Definition four_digit_years : list Z :=
  map (fun n => 1000 + Z.of_nat n)%Z (seq 0 (Z.to_nat 8999)).

(** The sum of the target weights, or 1 when that sum is zero. *)
Definition total_weight (l : list Asset.t) : Q :=
  let s := sumQ (map Asset.targetWeight l) in
  if Qeq_bool s 0 then 1 else s.

(** The form fields as the planner reads them: a negative or non-numeric
    entry counts as zero. *)
Definition budget_read (p : Planner) : Q := clamp0 (budget p).
Definition fees_read (p : Planner) : Q := clamp0 (fees p).
Definition bufferPct_read (p : Planner) : Q := clamp0 (bufferPct p).

(** [max(0, budget - fees - budget * bufferPct / 100)] *)
Definition spendable_spec (budget fees bufferPct : Q) : Q :=
  Qmax 0 (budget - fees - budget * bufferPct / 100).

(** The [assets] field of the parsed backup when it is an array. *)
Definition assets_array (data : json) : option (list json) :=
  match data with
  | JObj fields =>
      match get_field "assets" fields with
      | Some (JArr items) => Some items
      | _ => None
      end
  | _ => None
  end.

(** The [transactions] field of the parsed backup when it is an array,
    the empty array otherwise. *)
Definition transactions_or_empty (data : json) : list json :=
  match data with
  | JObj fields =>
      match get_field "transactions" fields with
      | Some (JArr items) => items
      | _ => []
      end
  | _ => []
  end.

(** The import reported an error and left the store as it was. *)
Definition import_rejected (st : Store) (out : Imported) : Prop :=
  store out = st
  /\ exists message,
       alerted out = Some ("Import failed: " ++ message)%string.

(** Elapsed milliseconds divided by 365.25 days. *)
Definition years_elapsed (from to : Z) : Q :=
  inject_Z (to - from) / (365.25 * inject_Z msPerDay).

(** The asset's drift in percent of the total market value. *)
Definition drift_pct (value : Q) (a : Asset.t) : Q :=
  (market_value a / value - Asset.targetWeight a) * 100.

(** The asset's drift reaches the threshold. *)
Definition flagged (r : Rebalance) (value : Q) (a : Asset.t) : bool :=
  Qleb (thresholdPct r) (Qabs (drift_pct value a)).

(** Larger absolute drift first. *)
Definition drift_desc (d1 d2 : Delta.t) : Prop :=
  Qabs (Delta.diffPct d2) <= Qabs (Delta.diffPct d1).

(** * Sample data, for the concrete instances below *)

Definition sample_lots : list Lot.t :=
  [Lot.mk 2 100 (Str "2020-01-01T00:00:00.000Z");
   Lot.mk 3 200 (Str "2021-01-01T00:00:00.000Z")].

Definition sample_asset : Asset.t :=
  Asset.mk "VGS" "VGS - Intl Shares" 0.35 200 5 800 sample_lots
           (Str "2020-01-01T00:00:00.000Z").

Definition sample_state : State := mkState [sample_asset] [].

(** A clock reading 2021-06-01T00:00:00.000Z. *)
Definition sample_sys : Sys :=
  mkSys 1622505600000 1622505600000 "00000000-0000-4000-8000-000000000000".

(** An asset with a negative price, as an imported backup may hold. *)
Definition negative_price_state : State :=
  mkState [Asset.mk "X" "X" 1 (-1) 0 0 [] Null] [].

(** An asset whose lots, one of them negative, sum to its units. *)
Definition negative_lot_asset : Asset.t :=
  Asset.mk "X" "X" 1 1 2 2
           [Lot.mk 3 1 (Str "2020-01-01T00:00:00.000Z");
            Lot.mk (-1) 1 (Str "2020-01-02T00:00:00.000Z")]
           (Str "2020-01-01T00:00:00.000Z").

(** Two assets under one ticker: the first holds 5 units without any lot,
    the second holds nothing. *)
Definition twin_state : State :=
  mkState [Asset.mk "X" "first" 1 1 5 5 [] Null;
           Asset.mk "X" "second" 1 1 0 0 [] Null] [].

(** A SELL entry with the given date and gains. *)
Definition sell_on (date : jsdate) (gain discountGain : Q) : Txn.t :=
  Txn.mk "id" "SELL" "VGS" 0 0 0 None None (Some gain) (Some discountGain) date.

(** Three assets whose target weights sum to 1; only the first has a
    price. *)
Definition sample_portfolio : list Asset.t :=
  [Asset.mk "VGS" "VGS" 0.5 100 0 0 [] Null;
   Asset.mk "A200" "A200" 0.3 0 0 0 [] Null;
   Asset.mk "GOLD" "GOLD" 0.2 0 0 0 [] Null].

(** A store holding one asset and one transaction. *)
Definition sample_store : Store :=
  mkStore [JObj [("ticker"%string, JStr "VGS")]]
          [JObj [("kind"%string, JStr "BUY")]].

(** Two 365.25-day years after 2022-01-01T00:00:00.000Z. *)
Definition sample_today : Z := 1640995200000 + 2 * msPerYear.

(** An asset worth 121 on 100 invested, first bought on 2022-01-01. *)
Definition sample_grown : Asset.t :=
  Asset.mk "VGS" "VGS" 0.5 121 1 100 [] (Str "2022-01-01T00:00:00.000Z").

(** A holds 25% of the value and B 75%, both targeted at 50%; C holds
    nothing and has no target. *)
Definition sample_drift : list Asset.t :=
  [Asset.mk "A" "A" 0.5 25 1 0 [] Null;
   Asset.mk "B" "B" 0.5 75 1 0 [] Null;
   Asset.mk "C" "C" 0 0 0 0 [] Null].

(** A SELL dated 1 August 999, inside the window of the financial year
    that starts in 999. *)
Definition sell_in_999 : Txn.t :=
  sell_on (Str "0999-08-01T00:00:00.000Z") 10 5.

(** A zone ten hours east of UTC all year round. *)
Definition zone_east_10 (local : Z) : Z := 36000000%Z.

(** ** Further notions, for the properties beyond the claims *)

(** Every lot holds a positive quantity. *)
Definition positive_lots (ls : list Lot.t) : Prop :=
  Forall (fun l => 0 < Lot.qty l) ls.

(** The same acquisition, up to the quantity taken from it. *)
Definition same_acquisition (l c : Lot.t) : Prop :=
  Lot.price c = Lot.price l /\ Lot.date c = Lot.date l.

(** First in, first out: [fifo_shape lots consumed kept] says that the
    consumed lots are a run of lots from the front taken whole, then at most
    one lot taken in part, and that the lots kept are the rest of that lot
    and every lot behind it, untouched. *)
Inductive fifo_shape : list Lot.t -> list Lot.t -> list Lot.t -> Prop :=
| shape_rest (lots : list Lot.t) :
    fifo_shape lots [] lots
| shape_whole (l c : Lot.t) (lots consumed kept : list Lot.t) :
    same_acquisition l c ->
    Lot.qty c == Lot.qty l ->
    fifo_shape lots consumed kept ->
    fifo_shape (l :: lots) (c :: consumed) kept
| shape_part (l : Lot.t) (take : Q) (lots : list Lot.t) :
    0 < take < Lot.qty l ->
    fifo_shape (l :: lots) [Lot.with_qty l take]
               (Lot.with_qty l (Lot.qty l - take) :: lots).

(** Two asset lists that agree, place by place, on ticker, name and target
    weight, and on everything for the assets that do not carry [tk]. *)
Definition same_listing (tk : string) (before after : list Asset.t) : Prop :=
  Forall2 (fun x x' =>
             Asset.ticker x' = Asset.ticker x
             /\ Asset.name x' = Asset.name x
             /\ Asset.targetWeight x' = Asset.targetWeight x
             /\ (Asset.ticker x <> tk -> x' = x))
          before after.

(** No two assets carry the same ticker. *)
Definition unique_tickers (l : list Asset.t) : Prop :=
  NoDup (map Asset.ticker l).

(** What never goes back on an asset: a first-contribution date that is
    set stays as it is, and [invested] does not go down. *)
Definition history_kept (x x' : Asset.t) : Prop :=
  (truthy (Asset.firstContribution x) = true ->
   Asset.firstContribution x' = Asset.firstContribution x)
  /\ Asset.invested x <= Asset.invested x'.

(** Units and prices are non-negative throughout. *)
Definition nonneg_holdings (l : list Asset.t) : Prop :=
  Forall (fun a => 0 <= Asset.units a /\ 0 <= Asset.price a) l.

(** [allocations.forEach(...)] with each buy looking the asset up in the
    state as it is by then: the buys taken one after the other, each on the
    result of the one before. *)
Fixpoint buy_in_turn (sys_at : nat -> Sys) (i : nat)
    (allocations : list (string * Q)) (st : State) : State :=
  match allocations with
  | [] => st
  | (tk, amount) :: rest =>
      buy_in_turn sys_at (S i) rest (handleBuy (sys_at i) tk (Some amount) st)
  end.

(** The sum of the target weights of the assets that have a price. *)
Definition priced_weight (l : list Asset.t) : Q :=
  sumQ (map Asset.targetWeight
            (filter (fun a => Qltb 0 (Asset.price a)) l)).

(** A clock that always reads the sample instant. *)
Definition sample_clock (i : nat) : Sys := sample_sys.

(** The default assets with VGS priced at 100 and A200 at 50. *)
Definition priced_defaults : State :=
  handleManualPrice "A200" (Some 50)
    (handleManualPrice "VGS" (Some 100) (mkState default_assets [])).

(** Adjacent windows: a year's window starts no later than it ends, and
    the next year's window starts one millisecond after it ends. *)
Definition windows_adjacent (fyStartYear : Z) : bool :=
  ((window_start fyStartYear <=? window_end fyStartYear)
   && (window_end fyStartYear + 1 =? window_start (fyStartYear + 1)))%Z.

(** The entry is a SELL. *)
Definition is_sell (t : Txn.t) : bool := String.eqb (Txn.kind t) "SELL".

(** The first day not covered by the check of the calendar arithmetic
    below: 1 January 2100, as a day number and as an instant. *)
Definition day_2100 : Z := 47482.
Definition ms_2100 : Z := day_2100 * msPerDay.

(** The civil date of a day is a date of the calendar, in a year from
    1970 to 2099, and [MakeDay] takes it back to the day. *)
Definition civil_round_trip (day : Z) : bool :=
  let '(y, m, d) := civil_of_day day in
  ((1970 <=? y) && (y <=? 2099) && (1 <=? m) && (m <=? 12)
   && (1 <=? d) && (d <=? daysInMonth y m) && (MakeDay y m d =? day))%Z.

(** [n] consecutive integers from [from] on. *)
Fixpoint count_up (n : nat) (from : Z) : list Z :=
  match n with
  | O => []
  | S n' => from :: count_up n' (from + 1)%Z
  end.

(** The days from 1 January 1970 to 31 December 2099. *)
Definition days_1970_2099 : list Z := count_up (Z.to_nat day_2100) 0.

(** A clock reading two 365.25-day years after [sample_sys]. *)
Definition sample_sys_later : Sys :=
  mkSys (1622505600000 + 2 * msPerYear) (1622505600000 + 2 * msPerYear)
        "00000000-0000-4000-8000-000000000001".

(** The first of July of a year is a day of that year's financial year,
    its midnight is the start of the window, and the window of the year
    before starts more than a day earlier. *)
Definition july_first_opens (fy : Z) : bool :=
  ((fy_of_day (MakeDay fy 7 1) =? fy)
   && (window_start fy =? MakeDay fy 7 1 * msPerDay)
   && (window_start (fy - 1) + msPerDay <=? window_start fy))%Z.

(** The years 1971 to 2099. *)
Definition years_1971_2099 : list Z := count_up (Z.to_nat 129) 1971.

(** Ten hours east of UTC, in milliseconds. *)
Definition ten_hours_east : Z := 36000000.

(** 30 June 2024, 15:00 UTC: one o'clock in the morning of 1 July ten
    hours east. *)
Definition sample_june_30 : Z := utc_ms 2024 6 30 15 0 0 0.

(** * Properties *)

(** Splits a conjunction into its parts, leaving equations alone. *)
Ltac splits := repeat match goal with |- _ /\ _ => split end.

(** ** Comparisons and clamps *)

Lemma Qltb_lt a b : Qltb a b = true <-> a < b.
Proof.
  unfold Qltb. rewrite Qlt_alt. destruct (a ?= b); split; congruence.
Qed.

Lemma Qltb_ge a b : Qltb a b = false <-> b <= a.
Proof.
  split; intros H.
  - apply Qnot_lt_le. intros L. apply Qltb_lt in L. congruence.
  - destruct (Qltb a b) eqn:E; [| reflexivity].
    apply Qltb_lt in E. exfalso. exact (Qle_not_lt _ _ H E).
Qed.

Lemma Qleb_le a b : Qleb a b = true <-> a <= b.
Proof.
  unfold Qleb. rewrite Qle_alt. destruct (a ?= b); split; congruence.
Qed.

Lemma Qleb_gt a b : Qleb a b = false <-> b < a.
Proof.
  split; intros H.
  - apply Qnot_le_lt. intros L. apply Qleb_le in L. congruence.
  - destruct (Qleb a b) eqn:E; [| reflexivity].
    apply Qleb_le in E. exfalso. exact (Qlt_not_le _ _ H E).
Qed.

Lemma falsyQ_zero x : falsyQ x = true <-> x == 0.
Proof.
  unfold falsyQ. rewrite Qeq_alt. destruct (x ?= 0); split; congruence.
Qed.

Lemma falsyQ_nonzero x : falsyQ x = false <-> ~ x == 0.
Proof.
  rewrite <- falsyQ_zero. destruct (falsyQ x); split; congruence.
Qed.

Lemma orZero_eq x : orZero x == x.
Proof.
  unfold orZero. destruct (falsyQ x) eqn:E; [| reflexivity].
  apply falsyQ_zero in E. symmetry. exact E.
Qed.

Lemma orOne_nonzero x : ~ orOne x == 0.
Proof.
  unfold orOne. destruct (falsyQ x) eqn:E.
  - intros H. discriminate H.
  - apply falsyQ_nonzero. exact E.
Qed.

Lemma orOne_eq x : ~ x == 0 -> orOne x == x.
Proof.
  intros H. unfold orOne. apply falsyQ_nonzero in H. rewrite H. reflexivity.
Qed.

Lemma Math_max_0_id x : 0 <= x -> Math_max 0 x == x.
Proof. intros H. apply Q.max_r. exact H. Qed.

Lemma Math_max_0_neg x : x <= 0 -> Math_max 0 x == 0.
Proof. intros H. apply Q.max_l. exact H. Qed.

Lemma Math_min_cases a b :
  (a < b /\ Math_min a b == a) \/ (b <= a /\ Math_min a b == b).
Proof. apply Q.min_spec. Qed.

(** ** Sums *)

Lemma sumQ_cons x l : sumQ (x :: l) = x + sumQ l.
Proof. reflexivity. Qed.

Lemma sumQ_app l1 l2 : sumQ (l1 ++ l2) == sumQ l1 + sumQ l2.
Proof.
  induction l1 as [| x l1 IH]; simpl.
  - lra.
  - rewrite IH. lra.
Qed.

Lemma total_qty_snoc ls l : total_qty (ls ++ [l]) == total_qty ls + Lot.qty l.
Proof.
  unfold total_qty. rewrite map_app, sumQ_app. simpl. lra.
Qed.

Lemma sumQ_nonneg l : Forall (fun x => 0 <= x) l -> 0 <= sumQ l.
Proof.
  induction 1 as [| x l Hx _ IH]; simpl; lra.
Qed.

Lemma total_qty_nonneg ls :
  Forall (fun l => 0 <= Lot.qty l) ls -> 0 <= total_qty ls.
Proof.
  intros H. apply sumQ_nonneg. rewrite Forall_map. exact H.
Qed.

(** A JavaScript [reduce] that adds [f x] to the accumulator computes the
    sum of the [f x] on top of the initial value. *)
Lemma reduce_sum {A : Type} (f : A -> Q) (l : list A) (init : Q) :
  fold_left (fun s x => s + f x) l init == init + sumQ (map f l).
Proof.
  revert init. induction l as [| x l IH]; intros init; simpl.
  - lra.
  - rewrite IH. lra.
Qed.

(** ** The FIFO loop *)

(** Reduces the projections of the loop state and of a lot. *)
Ltac fifo_simpl :=
  cbn [Fifo.l_remaining Fifo.l_consumed Fifo.l_newLots
       Fifo.consumed Fifo.newLots Fifo.unfilled
       Lot.qty Lot.price Lot.date Lot.with_qty] in *.

(** What one pass of the loop body keeps true. *)
Lemma consume_step_inv (s : Fifo.loop) (lot : Lot.t) :
  0 <= Lot.qty lot ->
  0 <= Fifo.l_remaining s ->
  let s' := consume_step s lot in
  0 <= Fifo.l_remaining s' <= Fifo.l_remaining s
  /\ total_qty (Fifo.l_consumed s') + Fifo.l_remaining s'
     == total_qty (Fifo.l_consumed s) + Fifo.l_remaining s
  /\ total_qty (Fifo.l_newLots s') + total_qty (Fifo.l_consumed s')
     == total_qty (Fifo.l_newLots s) + total_qty (Fifo.l_consumed s)
        + Lot.qty lot
  /\ (nonneg_lots (Fifo.l_newLots s) -> nonneg_lots (Fifo.l_newLots s'))
  /\ (0 < Fifo.l_remaining s' -> Fifo.l_newLots s' = Fifo.l_newLots s).
Proof.
  intros Hq Hr. unfold consume_step.
  destruct (Qleb (Fifo.l_remaining s) 0) eqn:E; fifo_simpl.
  - apply Qleb_le in E.
    split; [lra |]. split; [lra |]. split; [| split].
    + rewrite total_qty_snoc. lra.
    + intros H. apply Forall_app. split; [exact H | constructor; auto].
    + intros H. lra.
  - apply Qleb_gt in E.
    set (take := Math_min (Fifo.l_remaining s) (Lot.qty lot)).
    assert (Htake : 0 <= take /\ take <= Fifo.l_remaining s
                    /\ take <= Lot.qty lot).
    { subst take.
      destruct (Math_min_cases (Fifo.l_remaining s) (Lot.qty lot))
        as [[H1 H2] | [H1 H2]]; rewrite H2; lra. }
    destruct Htake as (H0 & H1 & H2).
    split; [lra |]. split; [| split; [| split]].
    + destruct (Qltb 0 take) eqn:Et; fifo_simpl.
      * rewrite total_qty_snoc. fifo_simpl. lra.
      * apply Qltb_ge in Et. lra.
    + destruct (Qltb 0 take) eqn:Et;
        destruct (Qltb 0 (Lot.qty lot - take)) eqn:El; fifo_simpl;
        rewrite ?total_qty_snoc; fifo_simpl;
        try apply Qltb_ge in Et; try apply Qltb_ge in El; lra.
    + intros H. destruct (Qltb 0 (Lot.qty lot - take)) eqn:El; [| exact H].
      apply Qltb_lt in El. apply Forall_app. split; [exact H |].
      constructor; [fifo_simpl; lra | constructor].
    + intros H. destruct (Qltb 0 (Lot.qty lot - take)) eqn:El; [| reflexivity].
      apply Qltb_lt in El. exfalso. subst take.
      destruct (Math_min_cases (Fifo.l_remaining s) (Lot.qty lot))
        as [[H3 H4] | [H3 H4]]; rewrite H4 in *; lra.
Qed.

(** The same facts for the whole loop, by induction on the lots. *)
Lemma consume_loop_inv (lots : list Lot.t) :
  forall s : Fifo.loop,
  nonneg_lots lots ->
  0 <= Fifo.l_remaining s ->
  let s' := consume_loop lots s in
  0 <= Fifo.l_remaining s' <= Fifo.l_remaining s
  /\ total_qty (Fifo.l_consumed s') + Fifo.l_remaining s'
     == total_qty (Fifo.l_consumed s) + Fifo.l_remaining s
  /\ total_qty (Fifo.l_newLots s') + total_qty (Fifo.l_consumed s')
     == total_qty (Fifo.l_newLots s) + total_qty (Fifo.l_consumed s)
        + total_qty lots
  /\ (nonneg_lots (Fifo.l_newLots s) -> nonneg_lots (Fifo.l_newLots s'))
  /\ (0 < Fifo.l_remaining s' -> Fifo.l_newLots s' = Fifo.l_newLots s).
Proof.
  induction lots as [| lot lots IH]; intros s Hl Hr;
    unfold consume_loop; cbn [fold_left]; cbv zeta.
  - change (total_qty []) with 0.
    split; [lra |]. split; [lra |]. split; [lra |]. split; auto.
  - inversion Hl as [| ? ? Hq Hl']; subst.
    destruct (consume_step_inv s lot Hq Hr) as (A1 & A2 & A3 & A4 & A5).
    destruct (IH (consume_step s lot) Hl' (proj1 A1))
      as (B1 & B2 & B3 & B4 & B5).
    unfold consume_loop in B1, B2, B3, B4, B5.
    split; [lra |]. split; [lra |]. split; [| split].
    + rewrite B3, A3.
      change (total_qty (lot :: lots)) with (Lot.qty lot + total_qty lots).
      lra.
    + auto.
    + intros H. rewrite (B5 H). apply A5. lra.
Qed.

(** C1.  For lots with non-negative quantities and a non-negative sell
    quantity, [consumeLotsFIFO] returns consumed lots, residual lots and
    [unfilled] such that the consumed quantity plus [unfilled] equals the
    sell quantity, the residual quantity plus the consumed quantity equals
    the original quantity, and no residual lot has a negative quantity. *)
Theorem consumeLotsFIFO_conservation (lots : list Lot.t) (sellQty : Q) :
  nonneg_lots lots ->
  0 <= sellQty ->
  let r := consumeLotsFIFO lots sellQty in
  total_qty (Fifo.consumed r) + Fifo.unfilled r == sellQty
  /\ total_qty (Fifo.newLots r) + total_qty (Fifo.consumed r)
     == total_qty lots
  /\ nonneg_lots (Fifo.newLots r).
Proof.
  intros Hl Hs. unfold consumeLotsFIFO.
  destruct (consume_loop_inv lots (Fifo.mkLoop [] sellQty []) Hl Hs)
    as (B1 & B2 & B3 & B4 & _).
  cbv zeta in *. fifo_simpl. change (total_qty []) with 0 in *.
  split; [| split].
  - rewrite Math_max_0_id by lra. rewrite B2. lra.
  - rewrite B3. lra.
  - apply B4. constructor.
Qed.

Lemma consumeLotsFIFO_conservation_witness :
  let lots := [Lot.mk 2 100 (Str "2020-01-01"); Lot.mk 3 200 (Str "2021-01-01")] in
  let r := consumeLotsFIFO lots 4 in
  total_qty (Fifo.consumed r) + Fifo.unfilled r == 4
  /\ total_qty (Fifo.newLots r) + total_qty (Fifo.consumed r)
     == total_qty lots
  /\ nonneg_lots (Fifo.newLots r).
Proof.
  apply consumeLotsFIFO_conservation.
  - repeat constructor; discriminate.
  - discriminate.
Defined.

(** The source's own smoke test ([fifoSmokeTest]). *)
Example fifoSmokeTest :
  consumeLotsFIFO
    [Lot.mk 2 100 (Str "2020-01-01"); Lot.mk 3 200 (Str "2021-01-01")] 4
  = Fifo.mk [Lot.mk 2 100 (Str "2020-01-01"); Lot.mk 2 200 (Str "2021-01-01")]
            [Lot.mk 1 200 (Str "2021-01-01")] 0.
Proof. reflexivity. Qed.

(** Selling more than is held: every lot is consumed and the rest is
    reported unfilled. *)
Example consumeLotsFIFO_short :
  consumeLotsFIFO
    [Lot.mk 2 100 (Str "2020-01-01"); Lot.mk 3 200 (Str "2021-01-01")] 7
  = Fifo.mk [Lot.mk 2 100 (Str "2020-01-01"); Lot.mk 3 200 (Str "2021-01-01")]
            [] 2.
Proof. reflexivity. Qed.

(** What the residual lots of a call hold: they are non-negative, they
    hold the original quantity less what was filled, and they are all gone
    when something is left unfilled. *)
Lemma consumeLotsFIFO_residual (lots : list Lot.t) (sellQty : Q) :
  nonneg_lots lots ->
  0 <= sellQty ->
  let r := consumeLotsFIFO lots sellQty in
  nonneg_lots (Fifo.newLots r)
  /\ 0 <= Fifo.unfilled r
  /\ total_qty (Fifo.newLots r) == total_qty lots - sellQty + Fifo.unfilled r
  /\ (0 < Fifo.unfilled r -> Fifo.newLots r = []).
Proof.
  intros Hl Hs. unfold consumeLotsFIFO.
  destruct (consume_loop_inv lots (Fifo.mkLoop [] sellQty []) Hl Hs)
    as (B1 & B2 & B3 & B4 & B5).
  cbv zeta in *. fifo_simpl. change (total_qty []) with 0 in *.
  rewrite Math_max_0_id by lra.
  split; [apply B4; constructor |]. split; [lra |]. split; [lra |].
  exact B5.
Qed.

(** ** State updates *)

Lemma find_asset_In tk l a : find_asset tk l = Some a -> In a l.
Proof.
  unfold find_asset. intros H. apply find_some in H. tauto.
Qed.

(** After an update every asset either carries the ticker and is the patch
    of an old asset, or is an old asset left alone. *)
Lemma updateAsset_In tk patch st x' :
  In x' (assets (updateAsset tk patch st)) ->
  exists x, In x (assets st)
    /\ ((Asset.ticker x = tk /\ x' = patch x)
        \/ (Asset.ticker x <> tk /\ x' = x)).
Proof.
  unfold updateAsset. cbn [assets]. rewrite in_map_iff.
  intros (x & Hx & Hin). exists x. split; [exact Hin |].
  destruct (String.eqb (Asset.ticker x) tk) eqn:E.
  - left. apply String.eqb_eq in E. auto.
  - right. apply String.eqb_neq in E. auto.
Qed.

Lemma updateAsset_map {B : Type} (f : Asset.t -> B) tk patch st :
  (forall x, f (patch x) = f x) ->
  map f (assets (updateAsset tk patch st)) = map f (assets st).
Proof.
  intros H. unfold updateAsset. cbn [assets]. rewrite map_map.
  apply map_ext. intros a.
  destruct (String.eqb (Asset.ticker a) tk); [apply H | reflexivity].
Qed.

Lemma find_asset_update tk patch st a :
  (forall x, Asset.ticker (patch x) = Asset.ticker x) ->
  find_asset tk (assets st) = Some a ->
  find_asset tk (assets (updateAsset tk patch st)) = Some (patch a).
Proof.
  intros Hp. unfold find_asset, updateAsset. cbn [assets].
  induction (assets st) as [| x l IH]; cbn [find map]; [discriminate |].
  destruct (String.eqb (Asset.ticker x) tk) eqn:E.
  - rewrite Hp, E. congruence.
  - rewrite E. exact IH.
Qed.

(** ** Sell *)

Lemma Math_max_0_pos q : 0 < q -> Math_max 0 q = q.
Proof.
  intros H. unfold Math_max, Qmax, GenericMinMax.gmax.
  destruct (Qcompare 0 q) eqn:C; [| reflexivity |].
  - apply Qeq_alt in C. lra.
  - apply Qgt_alt in C. lra.
Qed.

Lemma clamp0_pos q : 0 < q -> clamp0 (Some q) = q.
Proof. apply Math_max_0_pos. Qed.

Lemma held_a_year_spec (saleDate : Z) (l : Lot.t) :
  held_a_year (yearsBetween (Date_getTime (Lot.date l)) (Some saleDate))
  = held_at_least_a_year saleDate l.
Proof.
  unfold held_at_least_a_year, yearsBetween, held_a_year.
  destruct (Date_getTime (Lot.date l)) as [t |]; [| reflexivity].
  assert (E : 1000 * 60 * 60 * 24 * 365.25 == inject_Z msPerYear)
    by reflexivity.
  destruct (msPerYear <=? saleDate - t)%Z eqn:C.
  - apply Z.leb_le in C. apply Qleb_le. rewrite E.
    apply Qle_shift_div_l; [reflexivity |].
    rewrite Qmult_1_l. rewrite <- Zle_Qle. exact C.
  - apply Z.leb_gt in C. apply Qleb_gt. rewrite E.
    apply Qlt_shift_div_r; [reflexivity |].
    rewrite Qmult_1_l. rewrite <- Zlt_Qlt. exact C.
Qed.

Lemma eligible_spec salePrice saleDate l :
  eligible salePrice saleDate l == spec_discount salePrice saleDate l.
Proof.
  unfold eligible, spec_discount, lot_gain, Math_max.
  rewrite held_a_year_spec.
  destruct (held_at_least_a_year saleDate l); [| reflexivity].
  field.
Qed.

Lemma sumQ_map_ext {A : Type} (f g : A -> Q) (l : list A) :
  (forall x, f x == g x) -> sumQ (map f l) == sumQ (map g l).
Proof.
  intros H. induction l as [| x l IH]; cbn [map]; rewrite ?sumQ_cons.
  - reflexivity.
  - rewrite IH, H. reflexivity.
Qed.

(** The one-year boundary: a lot bought at 100 and sold at 150 exactly one
    365.25-day year later counts for half its gain, one millisecond earlier
    for all of it; a loss counts for nothing. *)
Example eligible_boundary :
  let bought := Lot.mk 1 100 (Str "2020-01-01T00:00:00.000Z") in
  let acquired := 1577836800000%Z in
  Date_getTime (Lot.date bought) = Some acquired
  /\ eligible 150 (acquired + msPerYear) bought == 25
  /\ eligible 150 (acquired + msPerYear - 1) bought == 50
  /\ eligible 80 (acquired + msPerYear) bought == 0.
Proof. repeat split. Qed.

(** The second [reduce] of [handleSell] adds up the eligible parts. *)
Lemma discounted_of_sum salePrice saleDate consumed :
  d_discountGain (discounted_of salePrice saleDate consumed)
  == sumQ (map (spec_discount salePrice saleDate) consumed).
Proof.
  unfold discounted_of.
  assert (G : forall acc,
    d_discountGain (fold_left (discount_step salePrice saleDate) consumed acc)
    == d_discountGain acc
       + sumQ (map (spec_discount salePrice saleDate) consumed)).
  { induction consumed as [| l ls IH]; intros acc;
      cbn [fold_left map]; rewrite ?sumQ_cons.
    - change (sumQ []) with 0. lra.
    - rewrite IH. unfold discount_step. cbn [d_discountGain].
      rewrite eligible_spec. lra. }
  rewrite G. cbn [d_discountGain]. lra.
Qed.

Lemma cost_base_sum consumed :
  cost_base consumed
  == sumQ (map (fun l => Lot.qty l * Lot.price l) consumed).
Proof.
  unfold cost_base. rewrite reduce_sum. lra.
Qed.

(** What [handleSell] does once its three guards are passed. *)
Lemma handleSell_accepted sys tk q st a :
  find_asset tk (assets st) = Some a ->
  0 < Asset.price a ->
  0 < q ->
  Fifo.unfilled (consumeLotsFIFO (Asset.lots a) (q / Asset.price a)) <= 1e-9 ->
  let units := q / Asset.price a in
  let r := consumeLotsFIFO (Asset.lots a) units in
  let proceeds := units * Asset.price a in
  handleSell sys tk (Some q) st
  = addTransaction
      (Txn.mk (randomUUID sys) "SELL" tk q units (Asset.price a)
              (Some proceeds) (Some (cost_base (Fifo.consumed r)))
              (Some (proceeds - cost_base (Fifo.consumed r)))
              (Some (d_discountGain
                       (discounted_of (Asset.price a) (now sys)
                                      (Fifo.consumed r))))
              (Str (toISOString (now sys))))
      (updateAsset tk
         (patch_sell (Math_max 0 (Asset.units a - units)) (Fifo.newLots r))
         st).
Proof.
  intros Hf Hp Hq Hu. cbv zeta. unfold handleSell.
  rewrite Hf, (clamp0_pos q Hq).
  assert (E1 : falsyQ (Asset.price a) = false)
    by (apply falsyQ_nonzero; lra).
  assert (E2 : Qleb q 0 = false) by (apply Qleb_gt; exact Hq).
  rewrite E1, E2. cbn [orb].
  assert (E3 : Qltb 1e-9
                 (Fifo.unfilled
                    (consumeLotsFIFO (Asset.lots a) (q / Asset.price a)))
               = false) by (apply Qltb_ge; exact Hu).
  rewrite E3. reflexivity.
Qed.

(** C2.  A sell that passes its preconditions (asset found, positive price,
    positive amount, FIFO [unfilled] within 1e-9) puts a SELL entry at the
    front of the log whose [gain] is [proceeds - costBase] and whose
    [discountGain] is the sum over the consumed lots of half the lot's
    non-negative gain when it was held at least one 365.25-day year and of
    the full non-negative gain otherwise; every asset carrying the ticker
    gets [units = max(0, units - sold)] and the FIFO residual as its lots,
    and no asset's [invested] changes. *)
Theorem handleSell_records sys tk q st a :
  find_asset tk (assets st) = Some a ->
  0 < Asset.price a ->
  0 < q ->
  Fifo.unfilled (consumeLotsFIFO (Asset.lots a) (q / Asset.price a)) <= 1e-9 ->
  let sold := q / Asset.price a in
  let r := consumeLotsFIFO (Asset.lots a) sold in
  let st' := handleSell sys tk (Some q) st in
  (exists t proceeds costBase discountGain,
     txn st' = t :: txn st
     /\ Txn.kind t = "SELL"%string /\ Txn.ticker t = tk
     /\ Txn.units t = sold /\ Txn.price t = Asset.price a
     /\ Txn.proceeds t = Some proceeds /\ proceeds = sold * Asset.price a
     /\ Txn.costBase t = Some costBase
     /\ costBase == sumQ (map (fun l => Lot.qty l * Lot.price l)
                              (Fifo.consumed r))
     /\ Txn.gain t = Some (proceeds - costBase)
     /\ Txn.discountGain t = Some discountGain
     /\ discountGain
        == sumQ (map (spec_discount (Asset.price a) (now sys))
                     (Fifo.consumed r)))
  /\ find_asset tk (assets st')
     = Some (patch_sell (Math_max 0 (Asset.units a - sold)) (Fifo.newLots r) a)
  /\ (forall x', In x' (assets st') -> Asset.ticker x' = tk ->
        Asset.units x' = Math_max 0 (Asset.units a - sold)
        /\ Asset.lots x' = Fifo.newLots r)
  /\ map Asset.invested (assets st') = map Asset.invested (assets st).
Proof.
  intros Hf Hp Hq Hu. cbv zeta.
  rewrite (handleSell_accepted sys tk q st a Hf Hp Hq Hu). cbv zeta.
  unfold addTransaction. cbn [txn assets].
  split; [| split; [| split]].
  - eexists _, _, _, _. cbn [Txn.kind Txn.ticker Txn.units Txn.price
      Txn.proceeds Txn.costBase Txn.gain Txn.discountGain].
    splits; try reflexivity.
    + apply cost_base_sum.
    + apply discounted_of_sum.
  - apply find_asset_update; [reflexivity | exact Hf].
  - intros x' Hin Ht.
    apply updateAsset_In in Hin. destruct Hin as (x & _ & [[_ E] | [N E]]).
    + subst x'. split; reflexivity.
    + subst x'. contradiction.
  - apply updateAsset_map. reflexivity.
Qed.

Lemma handleSell_records_witness :
  let sold := 800 / 200 in
  let r := consumeLotsFIFO sample_lots sold in
  let st' := handleSell sample_sys "VGS" (Some 800) sample_state in
  (exists t proceeds costBase discountGain,
     txn st' = t :: txn sample_state
     /\ Txn.kind t = "SELL"%string /\ Txn.ticker t = "VGS"%string
     /\ Txn.units t = sold /\ Txn.price t = 200
     /\ Txn.proceeds t = Some proceeds /\ proceeds = sold * 200
     /\ Txn.costBase t = Some costBase
     /\ costBase == sumQ (map (fun l => Lot.qty l * Lot.price l)
                              (Fifo.consumed r))
     /\ Txn.gain t = Some (proceeds - costBase)
     /\ Txn.discountGain t = Some discountGain
     /\ discountGain
        == sumQ (map (spec_discount 200 (now sample_sys)) (Fifo.consumed r)))
  /\ find_asset "VGS" (assets st')
     = Some (patch_sell (Math_max 0 (5 - sold)) (Fifo.newLots r) sample_asset)
  /\ (forall x', In x' (assets st') -> Asset.ticker x' = "VGS"%string ->
        Asset.units x' = Math_max 0 (5 - sold)
        /\ Asset.lots x' = Fifo.newLots r)
  /\ map Asset.invested (assets st') = map Asset.invested (assets sample_state).
Proof.
  apply (handleSell_records sample_sys "VGS" 800 sample_state sample_asset).
  - reflexivity.
  - reflexivity.
  - reflexivity.
  - vm_compute. discriminate.
Defined.

(** The sample sale: 800 at a price of 200, that is 4 units, against lots
    of 2 bought at 100 (held over a year) and 3 bought at 200 (held under a
    year): cost base 600, gain 200, of which half counts after the discount.
    Numbers are written the way the code computes them. *)
Example handleSell_sample :
  let sold := 800 / 200 in
  let second := sold - 2 in
  handleSell sample_sys "VGS" (Some 800) sample_state
  = mkState
      [Asset.mk "VGS" "VGS - Intl Shares" 0.35 200 (5 - sold) 800
                [Lot.mk (3 - second) 200 (Str "2021-01-01T00:00:00.000Z")]
                (Str "2020-01-01T00:00:00.000Z")]
      [Txn.mk "00000000-0000-4000-8000-000000000000" "SELL" "VGS" 800
              sold 200 (Some (sold * 200))
              (Some (0 + 2 * 100 + second * 200))
              (Some (sold * 200 - (0 + 2 * 100 + second * 200)))
              (Some (0 + 0.5 * (2 * (200 - 100)) + 0))
              (Str "2021-06-01T00:00:00.000Z")].
Proof. vm_compute. reflexivity. Qed.

(** ** The guards of buy and sell *)

Lemma clamp0_rejected amount :
  amount_rejected amount -> Qleb (clamp0 amount) 0 = true.
Proof.
  intros H. apply Qleb_le. unfold clamp0.
  destruct amount as [q |]; cbn [or0 amount_rejected] in *.
  - rewrite Math_max_0_neg by exact H. lra.
  - rewrite Math_max_0_neg by lra. lra.
Qed.

(** [handleBuy] either returns the state it got or records the buy. *)
Lemma handleBuy_cases sys tk amount st :
  handleBuy sys tk amount st = st
  \/ exists a,
       find_asset tk (assets st) = Some a
       /\ ~ Asset.price a == 0
       /\ 0 < clamp0 amount
       /\ let amt := clamp0 amount in
          let units := amt / Asset.price a in
          let lot :=
            Lot.mk units (Asset.price a) (Str (toISOString (now sys))) in
          let fc :=
            if truthy (Asset.firstContribution a)
            then Asset.firstContribution a else Lot.date lot in
          handleBuy sys tk amount st
          = addTransaction
              (Txn.mk (randomUUID sys) "BUY" tk amt units (Asset.price a)
                      None None None None
                      (Str (toISOString (now_again sys))))
              (updateAsset tk
                 (patch_buy (Asset.units a + units) (Asset.invested a + amt)
                            (Asset.lots a ++ [lot]) fc) st).
Proof.
  unfold handleBuy.
  destruct (find_asset tk (assets st)) as [a |]; [| left; reflexivity].
  destruct (falsyQ (Asset.price a)) eqn:E1; [left; reflexivity |].
  destruct (Qleb (clamp0 amount) 0) eqn:E2; [left; reflexivity |].
  right. exists a. cbn [orb].
  apply falsyQ_nonzero in E1. apply Qleb_gt in E2. auto.
Qed.

(** [handleSell] either returns the state it got or records the sale. *)
Lemma handleSell_cases sys tk amount st :
  handleSell sys tk amount st = st
  \/ exists a,
       find_asset tk (assets st) = Some a
       /\ ~ Asset.price a == 0
       /\ 0 < clamp0 amount
       /\ let amt := clamp0 amount in
          let units := amt / Asset.price a in
          let r := consumeLotsFIFO (Asset.lots a) units in
          Fifo.unfilled r <= 1e-9
          /\ exists t,
               handleSell sys tk amount st
               = addTransaction t
                   (updateAsset tk
                      (patch_sell (Math_max 0 (Asset.units a - units))
                                  (Fifo.newLots r)) st).
Proof.
  unfold handleSell.
  destruct (find_asset tk (assets st)) as [a |]; [| left; reflexivity].
  destruct (falsyQ (Asset.price a)) eqn:E1; [left; reflexivity |].
  destruct (Qleb (clamp0 amount) 0) eqn:E2; [left; reflexivity |].
  cbn [orb].
  destruct (Qltb 1e-9
              (Fifo.unfilled
                 (consumeLotsFIFO (Asset.lots a)
                                  (clamp0 amount / Asset.price a)))) eqn:E3;
    [left; reflexivity |].
  right. exists a.
  apply falsyQ_nonzero in E1. apply Qleb_gt in E2. apply Qltb_ge in E3.
  cbv zeta. splits; auto. eexists. reflexivity.
Qed.

(** C3, as amended.  A buy or sell whose guard fails is a no-op: when no
    asset carries the ticker, when the amount is non-numeric or not
    positive, when the asset's price is zero, or, for a sell, when FIFO
    consumption leaves more than 1e-9 unfilled, the state returned is the
    state given, assets and log alike. *)
Theorem rejected_is_noop sys tk amount st :
  (asset_missing tk st \/ amount_rejected amount \/ price_zero tk st ->
   handleBuy sys tk amount st = st)
  /\ (asset_missing tk st \/ amount_rejected amount \/ price_zero tk st
      \/ insufficient_units tk amount st ->
      handleSell sys tk amount st = st).
Proof.
  split.
  - unfold handleBuy, asset_missing, price_zero.
    intros [H | [H | (a & Hf & Hp)]].
    + rewrite H. reflexivity.
    + destruct (find_asset tk (assets st)); [| reflexivity].
      rewrite (clamp0_rejected amount H), orb_true_r. reflexivity.
    + rewrite Hf. apply falsyQ_zero in Hp. rewrite Hp. reflexivity.
  - unfold handleSell, asset_missing, price_zero, insufficient_units.
    intros [H | [H | [(a & Hf & Hp) | (a & Hf & Hu)]]].
    + rewrite H. reflexivity.
    + destruct (find_asset tk (assets st)); [| reflexivity].
      rewrite (clamp0_rejected amount H), orb_true_r. reflexivity.
    + rewrite Hf. apply falsyQ_zero in Hp. rewrite Hp. reflexivity.
    + rewrite Hf. apply Qltb_lt in Hu. rewrite Hu.
      destruct (falsyQ (Asset.price a) || Qleb (clamp0 amount) 0);
        reflexivity.
Qed.

Lemma rejected_is_noop_witness :
  handleBuy sample_sys "VGS" None sample_state = sample_state
  /\ handleSell sample_sys "VGS" (Some 5000) sample_state = sample_state.
Proof.
  destruct (rejected_is_noop sample_sys "VGS" None sample_state) as [B _].
  destruct (rejected_is_noop sample_sys "VGS" (Some 5000) sample_state)
    as [_ S].
  split.
  - apply B. right. left. exact I.
  - apply S. right. right. right. exists sample_asset.
    split; [reflexivity | vm_compute; reflexivity].
Defined.

(** C3, as stated, fails for a price that is not positive because it is
    negative: [!a.price] is false there, and the buy is recorded. *)
Lemma negative_price_buy_is_recorded :
  price_not_positive "X" negative_price_state
  /\ handleBuy sample_sys "X" (Some 10) negative_price_state
     <> negative_price_state.
Proof.
  split.
  - eexists. split; [reflexivity |]. cbn. intros H. discriminate H.
  - vm_compute. intros H. discriminate H.
Qed.

(** ** Lots and units *)

Lemma Qdiv_pos a b : 0 < a -> 0 < b -> 0 < a / b.
Proof.
  intros Ha Hb. apply Qlt_shift_div_l; [exact Hb |]. lra.
Qed.

(** After FIFO consumption the residual lots hold what the asset is left
    with: its units less the units sold, floored at zero. *)
Lemma residual_matches_units (lots : list Lot.t) (held sold : Q) :
  nonneg_lots lots ->
  0 <= sold ->
  total_qty lots == held ->
  total_qty (Fifo.newLots (consumeLotsFIFO lots sold))
  == Math_max 0 (held - sold).
Proof.
  intros Hl Hs Hm.
  destruct (consumeLotsFIFO_residual lots sold Hl Hs) as (R1 & R2 & R3 & R4).
  cbv zeta in *.
  destruct (Qlt_le_dec 0 (Fifo.unfilled (consumeLotsFIFO lots sold)))
    as [Hpos | Hzero].
  - rewrite (R4 Hpos) in *. change (total_qty []) with 0 in *.
    rewrite Math_max_0_neg by lra. reflexivity.
  - pose proof (total_qty_nonneg _ R1).
    rewrite Math_max_0_id by lra. lra.
Qed.

Lemma asset_ok_buy (a x : Asset.t) (amt : Q) (date fc : jsdate) :
  asset_ok a -> asset_ok x ->
  ~ Asset.price a == 0 -> 0 < amt ->
  asset_ok
    (patch_buy (Asset.units a + amt / Asset.price a) (Asset.invested a + amt)
               (Asset.lots a ++ [Lot.mk (amt / Asset.price a) (Asset.price a) date])
               fc x).
Proof.
  intros (Pa & La & Ma) (Px & _ & _) Hp Hamt.
  assert (Hu : 0 < amt / Asset.price a) by (apply Qdiv_pos; lra).
  unfold asset_ok, lots_match_units, patch_buy in *.
  cbn [Asset.price Asset.lots Asset.units].
  split; [exact Px |]. split.
  - apply Forall_app. split; [exact La |].
    constructor; [cbn [Lot.qty]; lra | constructor].
  - rewrite total_qty_snoc. cbn [Lot.qty]. rewrite Ma. reflexivity.
Qed.

Lemma asset_ok_sell (a x : Asset.t) (amt : Q) :
  asset_ok a -> asset_ok x ->
  ~ Asset.price a == 0 -> 0 < amt ->
  asset_ok
    (patch_sell (Math_max 0 (Asset.units a - amt / Asset.price a))
                (Fifo.newLots
                   (consumeLotsFIFO (Asset.lots a) (amt / Asset.price a)))
                x).
Proof.
  intros (Pa & La & Ma) (Px & _ & _) Hp Hamt.
  assert (Hu : 0 < amt / Asset.price a) by (apply Qdiv_pos; lra).
  unfold asset_ok, lots_match_units, patch_sell in *.
  cbn [Asset.price Asset.lots Asset.units].
  split; [exact Px |]. split.
  - apply consumeLotsFIFO_residual; [exact La | lra].
  - apply residual_matches_units; [exact La | lra | exact Ma].
Qed.

Lemma updateAsset_Forall (P : Asset.t -> Prop) tk patch st :
  Forall P (assets st) ->
  (forall x, In x (assets st) -> P (patch x)) ->
  Forall P (assets (updateAsset tk patch st)).
Proof.
  intros HP Hpatch. apply Forall_forall. intros x' Hin.
  apply updateAsset_In in Hin.
  destruct Hin as (x & Hx & [[_ E] | [_ E]]); subst x'.
  - apply Hpatch. exact Hx.
  - rewrite Forall_forall in HP. apply HP. exact Hx.
Qed.

(** C4, as amended.  In a state where every asset has a non-negative price
    and non-negative lot quantities that sum to its units, a buy and a sell
    each leave a state with the same properties; in particular every
    asset's lot quantities still sum to its units. *)
Theorem lots_match_units_preserved sys tk amount st :
  Forall asset_ok (assets st) ->
  Forall asset_ok (assets (handleBuy sys tk amount st))
  /\ Forall asset_ok (assets (handleSell sys tk amount st)).
Proof.
  intros Hok. pose proof Hok as Hall. rewrite Forall_forall in Hall.
  split.
  - destruct (handleBuy_cases sys tk amount st)
      as [E | (a & Hf & Hp & Hamt & E)].
    + rewrite E. exact Hok.
    + cbv zeta in E. rewrite E. unfold addTransaction. cbn [assets].
      apply updateAsset_Forall; [exact Hok |].
      intros x Hx. apply asset_ok_buy; auto.
      apply Hall. eapply find_asset_In. exact Hf.
  - destruct (handleSell_cases sys tk amount st)
      as [E | (a & Hf & Hp & Hamt & E)].
    + rewrite E. exact Hok.
    + cbv zeta in E. destruct E as (_ & t & E).
      rewrite E. unfold addTransaction. cbn [assets].
      apply updateAsset_Forall; [exact Hok |].
      intros x Hx. apply asset_ok_sell; auto.
      apply Hall. eapply find_asset_In. exact Hf.
Qed.

Lemma sample_state_ok : Forall asset_ok (assets sample_state).
Proof.
  constructor; [| constructor].
  split; [discriminate |]. split.
  - repeat constructor; discriminate.
  - reflexivity.
Defined.

Lemma lots_match_units_preserved_witness :
  Forall asset_ok
    (assets (handleBuy sample_sys "VGS" (Some 1000) sample_state))
  /\ Forall asset_ok
       (assets (handleSell sample_sys "VGS" (Some 800) sample_state)).
Proof.
  split.
  - apply (lots_match_units_preserved sample_sys "VGS" (Some 1000)
             sample_state sample_state_ok).
  - apply (lots_match_units_preserved sample_sys "VGS" (Some 800)
             sample_state sample_state_ok).
Defined.

(** A price typed in is clamped at zero, so setting a price keeps every
    asset within the data model too. *)
Lemma handleManualPrice_ok (tk : string) (price : option Q) (st : State) :
  Forall asset_ok (assets st) ->
  Forall asset_ok (assets (handleManualPrice tk price st)).
Proof.
  intros Hok. unfold handleManualPrice.
  apply updateAsset_Forall; [exact Hok |].
  intros x Hx. rewrite Forall_forall in Hok.
  destruct (Hok x Hx) as (_ & Hl & Hm).
  split; [| split; assumption].
  cbn [patch_price Asset.price]. unfold clamp0, Math_max. apply Q.le_max_l.
Qed.

(** The sample buy: 1000 at a price of 200 adds a lot of 5 units. *)
Example handleBuy_sample :
  let bought := 1000 / 200 in
  handleBuy sample_sys "VGS" (Some 1000) sample_state
  = mkState
      [Asset.mk "VGS" "VGS - Intl Shares" 0.35 200 (5 + bought) (800 + 1000)
                (sample_lots
                 ++ [Lot.mk bought 200 (Str "2021-06-01T00:00:00.000Z")])
                (Str "2020-01-01T00:00:00.000Z")]
      [Txn.mk "00000000-0000-4000-8000-000000000000" "BUY" "VGS" 1000
              bought 200 None None None None
              (Str "2021-06-01T00:00:00.000Z")].
Proof. vm_compute. reflexivity. Qed.

(** C4, as stated, fails when a lot quantity is negative: the lots of
    [negative_lot_asset] (3 and -1) sum to its 2 units; selling 3 units
    uses up the first lot and keeps the second, so the lots then sum to -1
    while [units] is floored at 0. *)
Lemma negative_lot_breaks_lots_match_units :
  lots_match_units negative_lot_asset
  /\ exists a',
       find_asset "X"
         (assets (handleSell sample_sys "X" (Some 3)
                             (mkState [negative_lot_asset] [])))
       = Some a'
       /\ ~ lots_match_units a'.
Proof.
  split; [reflexivity |].
  eexists. split; [vm_compute; reflexivity |].
  vm_compute. intros H. discriminate H.
Qed.

(** The other two conditions of the amended C4 are needed as well.  At a
    negative price a sale adds units and leaves the lots alone. *)
Example negative_price_breaks_lots_match_units :
  Forall lots_match_units (assets negative_price_state)
  /\ ~ Forall lots_match_units
        (assets (handleSell sample_sys "X" (Some 10) negative_price_state)).
Proof.
  split; [repeat constructor |].
  vm_compute. intros H. inversion H as [| ? ? H1 _]. discriminate H1.
Qed.

(** And the buy is computed from the first asset carrying the ticker but
    applied to every asset carrying it: the second twin, whose own lots
    matched its units, takes over the first one's mismatch. *)
Example twin_takes_over_mismatch :
  (exists a, nth_error (assets twin_state) 1 = Some a /\ lots_match_units a)
  /\ (exists a',
        nth_error (assets (handleBuy sample_sys "X" (Some 10) twin_state)) 1
        = Some a'
        /\ ~ lots_match_units a').
Proof.
  split.
  - eexists. split; [reflexivity | reflexivity].
  - eexists. split; [vm_compute; reflexivity |].
    vm_compute. intros H. discriminate H.
Qed.

(** ** The financial-year window *)

(** Known instants, and a string written by [toISOString] read back. *)
Example Date_known_instants :
  Date_parse "1970-01-01T00:00:00.000Z" = Some 0%Z
  /\ Date_parse "2000-03-01" = Some 951868800000%Z
  /\ window_start 2024 = 1719792000000%Z
  /\ window_end 2023 = 1719791999999%Z
  /\ toISOString 1719791999999 = "2024-06-30T23:59:59.999Z"%string
  /\ Date_parse (toISOString 1622505600000) = Some 1622505600000%Z
  /\ Date_parse "2023-02-29" = None
  /\ Date_parse "1 July 2024" = None.
Proof. repeat split. Qed.

(** The other forms of the format: 1 August 2024, 00:00 UTC, written
    without milliseconds, without seconds, with an offset, with an
    expanded year, as the end of the day before, and as local time read in
    a zone ten hours east; a month and a year alone; and strings that are
    not dates. *)
Example Date_other_forms :
  Date_parse "2024-08-01T00:00:00.000Z" = Some 1722470400000%Z
  /\ Date_parse "2024-08-01T00:00:00Z" = Some 1722470400000%Z
  /\ Date_parse "2024-08-01T00:00Z" = Some 1722470400000%Z
  /\ Date_parse "2024-08-01T10:00:00.000+10:00" = Some 1722470400000%Z
  /\ Date_parse "2024-07-31T19:30-04:30" = Some 1722470400000%Z
  /\ Date_parse "+002024-08-01T00:00:00.000Z" = Some 1722470400000%Z
  /\ Date_parse "2024-07-31T24:00:00.000Z" = Some 1722470400000%Z
  /\ Date_parse "2024-08-01" = Some 1722470400000%Z
  /\ Date_parse "2024-08" = Some 1722470400000%Z
  /\ Date_parse "2024" = Some 1704067200000%Z
  /\ Date_parse "2024-08-01T00:00:00" = Some 1722470400000%Z
  /\ Date_parse_in zone_east_10 "2024-08-01T10:00:00" = Some 1722470400000%Z
  /\ Date_parse_in zone_east_10 "2024-08-01" = Some 1722470400000%Z
  /\ Date_parse "-000001-01-01T00:00:00.000Z" = Some (-62198755200000)%Z
  /\ Date_parse "-000000-01-01T00:00:00.000Z" = None
  /\ Date_parse "+275760-09-13T00:00:00.001Z" = None
  /\ Date_parse "2024-08-01T24:00:00.001Z" = None
  /\ Date_parse "2024-08-01T00:60Z" = None
  /\ Date_parse "2024-13-01" = None
  /\ Date_parse "2024-08-01T00:00:00.000Zx" = None
  /\ Date_parse "999-07-01T00:00:00.000Z" = None
  /\ Date_parse "10000-06-30T23:59:59.999Z" = None.
Proof. repeat split. Qed.

(** The four-digit years, checked one by one. *)
Lemma window_read_back_all :
  forallb window_read_back four_digit_years = true.
Proof. vm_cast_no_check (eq_refl true). Qed.

Lemma window_bounds (fy : Z) :
  four_digit_fy fy ->
  fy_start fy = Some (window_start fy) /\ fy_end fy = Some (window_end fy).
Proof.
  intros [Hlo Hhi].
  pose proof window_read_back_all as A. rewrite forallb_forall in A.
  assert (R : window_read_back fy = true).
  { apply A. unfold four_digit_years. apply in_map_iff.
    exists (Z.to_nat (fy - 1000)). split; [lia |].
    apply in_seq. lia. }
  unfold window_read_back in R.
  destruct (fy_start fy) as [s |]; [| discriminate].
  destruct (fy_end fy) as [e |]; [| discriminate].
  apply andb_true_iff in R. destruct R as [R1 R2].
  apply Z.eqb_eq in R1. apply Z.eqb_eq in R2. subst. auto.
Qed.

(** On a truthy date [new Date(d).getTime()] is the instant the date
    names. *)
Lemma truthy_getTime (d : jsdate) :
  (if truthy d then Date_getTime d else None) = date_instant d.
Proof.
  destruct d as [| | s]; cbn [truthy Date_getTime date_instant];
    try reflexivity.
  destruct (String.eqb s "") eqn:E; cbn [negb]; [| reflexivity].
  apply String.eqb_eq in E. subst s. reflexivity.
Qed.

(** The filter of [CGTSummaryFY] keeps exactly the SELLs dated inside the
    window. *)
Lemma in_fy_window (fy : Z) (t : Txn.t) :
  four_digit_fy fy -> in_fy fy t = sell_in_window fy t.
Proof.
  intros H. destruct (window_bounds fy H) as [Es Ee].
  unfold in_fy, sell_in_window. rewrite Es, Ee.
  rewrite <- truthy_getTime.
  destruct (String.eqb (Txn.kind t) "SELL"); cbn [andb]; [| reflexivity].
  destruct (truthy (Txn.date t)); cbn [andb]; [| reflexivity].
  destruct (Date_getTime (Txn.date t)); reflexivity.
Qed.

Lemma no_date_falsy (d : jsdate) : no_date d -> truthy d = false.
Proof. intros [H | [H | H]]; subst d; reflexivity. Qed.

(** C5.  For a financial year written with four digits, [CGTSummaryFY]
    matches exactly the SELL entries whose date lies between 1 July of the
    start year 00:00:00.000 UTC and 30 June of the next year 23:59:59.999
    UTC, both included, and returns their number, the sum of their
    [max(0, gain)] and the sum of their [max(0, discountGain)]; a SELL
    dated 2024-06-30T23:59:59.999Z is matched for 2023 and not for 2024,
    one dated 2024-07-01T00:00:00.000Z for 2024 and not for 2023. *)
Theorem CGTSummaryFY_window (log : list Txn.t) (fy : Z) :
  four_digit_fy fy ->
  let matched := filter (sell_in_window fy) log in
  filter (in_fy fy) log = matched
  /\ events (CGTSummaryFY log fy) = List.length matched
  /\ grossGain (CGTSummaryFY log fy)
     == sumQ (map (fun t => Qmax 0 (or0 (Txn.gain t))) matched)
  /\ discountGain (CGTSummaryFY log fy)
     == sumQ (map (fun t => Qmax 0 (or0 (Txn.discountGain t))) matched)
  /\ (forall t, Txn.kind t = "SELL"%string ->
        Txn.date t = Str "2024-06-30T23:59:59.999Z" ->
        in_fy 2023 t = true /\ in_fy 2024 t = false)
  /\ (forall t, Txn.kind t = "SELL"%string ->
        Txn.date t = Str "2024-07-01T00:00:00.000Z" ->
        in_fy 2024 t = true /\ in_fy 2023 t = false).
Proof.
  intros H. cbv zeta.
  assert (F : filter (in_fy fy) log = filter (sell_in_window fy) log).
  { apply filter_ext. intros t. apply in_fy_window. exact H. }
  unfold CGTSummaryFY. cbn [events grossGain discountGain].
  rewrite F. split; [reflexivity |]. split; [reflexivity |].
  split; [| split; [| split]].
  - rewrite reduce_sum. unfold Math_max. lra.
  - rewrite reduce_sum. unfold Math_max. lra.
  - intros t Hk Hd. unfold in_fy. rewrite Hk, Hd. split; reflexivity.
  - intros t Hk Hd. unfold in_fy. rewrite Hk, Hd. split; reflexivity.
Qed.

Lemma CGTSummaryFY_window_witness :
  let log :=
    [sell_on (Str "2024-07-01T00:00:00.000Z") 50 25;
     sell_on (Str "2024-06-30T23:59:59.999Z") 200 100;
     sell_on (Str "2023-07-01T00:00:00.000Z") (-30) 0;
     sell_on (Str "2023-06-30T23:59:59.999Z") 70 70] in
  CGTSummaryFY log 2023 = mkFY 2 (0 + 200 + 0) (0 + 100 + 0)
  /\ events (CGTSummaryFY log 2023)
     = List.length (filter (sell_in_window 2023) log).
Proof.
  split; [reflexivity |].
  apply (CGTSummaryFY_window
           [sell_on (Str "2024-07-01T00:00:00.000Z") 50 25;
            sell_on (Str "2024-06-30T23:59:59.999Z") 200 100;
            sell_on (Str "2023-07-01T00:00:00.000Z") (-30) 0;
            sell_on (Str "2023-06-30T23:59:59.999Z") 70 70] 2023).
  unfold four_digit_fy. lia.
Defined.

(** C5, as stated for every start year, fails for a year that is not
    written with four digits.  For 999 the template literal gives
    [999-07-01T00:00:00.000Z], which is not a date string: the bounds are
    [NaN], no comparison holds, and the summary is empty, although the
    SELL is dated inside the window. *)
Lemma three_digit_year_matches_nothing :
  fy_start 999 = None
  /\ sell_in_window 999 sell_in_999 = true
  /\ in_fy 999 sell_in_999 = false
  /\ CGTSummaryFY [sell_in_999] 999 = mkFY 0 0 0.
Proof. repeat split. Qed.

(** C10.  A SELL whose date is absent, [null] or empty is left out of the
    summary of every financial year: the summary of a log is the summary
    of the log without that entry, whatever its other fields. *)
Theorem CGTSummaryFY_skips_undated (before after : list Txn.t)
    (t : Txn.t) (fy : Z) :
  no_date (Txn.date t) ->
  in_fy fy t = false
  /\ CGTSummaryFY (before ++ t :: after) fy
     = CGTSummaryFY (before ++ after) fy.
Proof.
  intros H.
  assert (E : in_fy fy t = false).
  { unfold in_fy. rewrite (no_date_falsy _ H).
    rewrite andb_false_r. reflexivity. }
  split; [exact E |].
  unfold CGTSummaryFY. rewrite !filter_app. cbn [filter]. rewrite E.
  reflexivity.
Qed.

Lemma CGTSummaryFY_skips_undated_witness :
  CGTSummaryFY
    [sell_on (Str "2024-01-15T00:00:00.000Z") 10 5; sell_on Null 1000 500] 1969
  = CGTSummaryFY [sell_on (Str "2024-01-15T00:00:00.000Z") 10 5] 1969.
Proof.
  apply (CGTSummaryFY_skips_undated
           [sell_on (Str "2024-01-15T00:00:00.000Z") 10 5] []
           (sell_on Null 1000 500) 1969).
  right. left. reflexivity.
Defined.

(** ** The planner *)

Lemma sumQ_scale {A : Type} (c : Q) (f : A -> Q) (l : list A) :
  sumQ (map (fun x => c * f x) l) == c * sumQ (map f l).
Proof.
  induction l as [| x l IH]; cbn [map]; rewrite ?sumQ_cons.
  - change (sumQ []) with 0. lra.
  - rewrite IH. lra.
Qed.

Lemma spendable_of_spec (p : Planner) :
  spendable_of p
  == spendable_spec (budget_read p) (fees_read p) (bufferPct_read p).
Proof.
  unfold spendable_of, spendable_spec, budget_read, fees_read,
    bufferPct_read, Math_max.
  apply Q.max_compat; [reflexivity |]. field.
Qed.

Lemma clamp0_nonneg (q : Q) : 0 <= q -> clamp0 (Some q) == q.
Proof. intros H. unfold clamp0. cbn [or0]. apply Math_max_0_id. exact H. Qed.

Lemma totalWeights_of_spec (l : list Asset.t) :
  totalWeights_of l == total_weight l.
Proof.
  unfold totalWeights_of, total_weight.
  assert (E : fold_left (fun s a => s + orZero (Asset.targetWeight a)) l 0
              == sumQ (map Asset.targetWeight l)).
  { rewrite reduce_sum. rewrite Qplus_0_l.
    apply sumQ_map_ext. intros a. apply orZero_eq. }
  destruct (Qeq_bool (sumQ (map Asset.targetWeight l)) 0) eqn:C.
  - apply Qeq_bool_iff in C. unfold orOne.
    assert (F : falsyQ
                  (fold_left (fun s a => s + orZero (Asset.targetWeight a)) l 0)
                = true) by (apply falsyQ_zero; rewrite E; exact C).
    rewrite F. reflexivity.
  - apply Qeq_bool_neq in C. rewrite orOne_eq; [exact E |].
    rewrite E. exact C.
Qed.

Lemma total_weight_nonzero (l : list Asset.t) : ~ total_weight l == 0.
Proof.
  rewrite <- totalWeights_of_spec. apply orOne_nonzero.
Qed.

(** The amounts of a non-empty plan, row by row. *)
Lemma plannedSplits_amounts (p : Planner) (l : list Asset.t) :
  0 < spendable_of p ->
  map Split.amount (plannedSplits p l)
  = map (fun a => spendable_of p
                  * (orZero (Asset.targetWeight a) / totalWeights_of l)) l.
Proof.
  intros H. unfold plannedSplits.
  apply Qleb_gt in H. rewrite H. rewrite map_map. reflexivity.
Qed.

(** C6.  With [budget], [fees] and [bufferPct] the planner's readings of
    the three form fields, [spendable] is
    [max(0, budget - fees - budget * bufferPct / 100)]; the plan is empty
    when [spendable <= 0]; otherwise the plan has one row per asset, whose
    amount is [spendable * (targetWeight / totalWeight)] with [totalWeight]
    the sum of the target weights, or 1 when that sum is zero; so when the
    weights sum to a positive total the amounts sum to [spendable], and a
    budget of 1000 with no fees, no buffer and weights summing to 1 gives
    amounts that sum to 1000.  For non-negative numbers typed in, the
    readings are the numbers themselves. *)
Theorem plannedSplits_proportional (p : Planner) (l : list Asset.t) :
  let spendable :=
    spendable_spec (budget_read p) (fees_read p) (bufferPct_read p) in
  spendable_of p == spendable
  /\ (spendable <= 0 -> plannedSplits p l = [])
  /\ (0 < spendable ->
      Forall2 (fun a row =>
                 Split.ticker row = Asset.ticker a
                 /\ Split.amount row
                    == spendable * (Asset.targetWeight a / total_weight l))
              l (plannedSplits p l))
  /\ (0 < spendable -> 0 < sumQ (map Asset.targetWeight l) ->
      sumQ (map Split.amount (plannedSplits p l)) == spendable)
  /\ (p = mkPlanner (Some 1000) (Some 0) (Some 0) ->
      sumQ (map Asset.targetWeight l) == 1 ->
      sumQ (map Split.amount (plannedSplits p l)) == 1000)
  /\ (forall b f pct,
        p = mkPlanner (Some b) (Some pct) (Some f) ->
        0 <= b -> 0 <= f -> 0 <= pct ->
        spendable_of p == spendable_spec b f pct).
Proof.
  cbv zeta. pose proof (spendable_of_spec p) as S.
  assert (AMT : forall a,
    spendable_of p * (orZero (Asset.targetWeight a) / totalWeights_of l)
    == spendable_spec (budget_read p) (fees_read p) (bufferPct_read p)
       * (Asset.targetWeight a / total_weight l)).
  { intros a. rewrite S, orZero_eq, totalWeights_of_spec. reflexivity. }
  assert (SUM : 0 < spendable_of p -> 0 < sumQ (map Asset.targetWeight l) ->
    sumQ (map Split.amount (plannedSplits p l)) == spendable_of p).
  { intros Hs Hw. rewrite (plannedSplits_amounts p l Hs).
    rewrite (sumQ_map_ext _
               (fun a => spendable_of p / totalWeights_of l
                         * Asset.targetWeight a)).
    - rewrite sumQ_scale. rewrite totalWeights_of_spec.
      unfold total_weight.
      destruct (Qeq_bool (sumQ (map Asset.targetWeight l)) 0) eqn:C.
      + apply Qeq_bool_iff in C. lra.
      + field. lra.
    - intros a. rewrite orZero_eq. field.
      rewrite totalWeights_of_spec. apply total_weight_nonzero. }
  split; [exact S |]. split; [| split; [| split; [| split]]].
  - intros H. unfold plannedSplits.
    assert (E : Qleb (spendable_of p) 0 = true)
      by (apply Qleb_le; rewrite S; exact H).
    rewrite E. reflexivity.
  - intros H. unfold plannedSplits.
    assert (E : Qleb (spendable_of p) 0 = false)
      by (apply Qleb_gt; rewrite S; exact H).
    rewrite E. induction l as [| a l' _]; [constructor |].
    generalize (totalWeights_of (a :: l')) (total_weight (a :: l')) AMT.
    clear AMT SUM. intros W W' AMT.
    induction (a :: l') as [| x xs IH]; cbn [map]; constructor; auto.
    split; [reflexivity |]. cbn [Split.amount]. apply AMT.
  - intros Hs Hw. rewrite SUM; [exact S | rewrite S; exact Hs | exact Hw].
  - intros Hp Hw.
    assert (V : spendable_of p == 1000) by (subst p; reflexivity).
    rewrite SUM; [exact V | rewrite V; reflexivity | rewrite Hw; reflexivity].
  - intros b f pct Hp Hb Hf Hpct. rewrite S. subst p.
    unfold budget_read, fees_read, bufferPct_read, spendable_spec.
    cbn [budget fees bufferPct].
    rewrite !clamp0_nonneg by assumption. reflexivity.
Qed.

Lemma plannedSplits_proportional_witness :
  let p := mkPlanner (Some 1000) (Some 0) (Some 0) in
  sumQ (map Split.amount (plannedSplits p sample_portfolio)) == 1000.
Proof.
  apply (plannedSplits_proportional
           (mkPlanner (Some 1000) (Some 0) (Some 0)) sample_portfolio).
  - reflexivity.
  - reflexivity.
Defined.

(** The sample plan: 1000 split 50/30/20; units only where a price is set. *)
Example plannedSplits_sample :
  map (fun r => (Split.ticker r, Qred (Split.amount r),
                 option_map Qred (Split.units r)))
      (plannedSplits (mkPlanner (Some 1000) (Some 0) (Some 0))
                     sample_portfolio)
  = [("VGS"%string, 500, Some 5);
     ("A200"%string, 300, None);
     ("GOLD"%string, 200, None)].
Proof. vm_compute. reflexivity. Qed.

(** A negative fee is read as no fee: the form field is clamped before
    [spendable] is computed. *)
Example negative_fee_is_clamped :
  spendable_of (mkPlanner (Some 100) (Some 0) (Some (-10))) == 100.
Proof. reflexivity. Qed.

(** ** Backup import *)

Section ImportContract.
Variable JSON_parse : string -> json + string.
Variable null_property_message : string.

Lemma import_failed_rejected (st : Store) (message : string) :
  import_rejected st (import_failed st message).
Proof.
  split; [reflexivity |]. exists message. reflexivity.
Qed.

(** C7.  An import whose text does not parse, or whose parsed value has no
    [assets] field that is an array (the empty object for one), reports an
    error and leaves the assets and transactions in memory as they were;
    when [assets] is an array the import succeeds without a report, the
    assets become that array and the transactions become the
    [transactions] field when it is an array and the empty array
    otherwise. *)
Theorem onImportFile_contract (text : string) (st : Store) :
  match JSON_parse text with
  | inr _ => import_rejected st (onImportFile JSON_parse null_property_message text st)
  | inl data =>
      match assets_array data with
      | None => import_rejected st (onImportFile JSON_parse null_property_message text st)
      | Some items =>
          onImportFile JSON_parse null_property_message text st
          = mkImported (mkStore items (transactions_or_empty data)) None
      end
  end
  /\ (JSON_parse text = inl (JObj []) ->
      onImportFile JSON_parse null_property_message text st
      = mkImported st (Some "Import failed: Invalid backup – assets missing"%string)).
Proof.
  unfold onImportFile. split.
  - destruct (JSON_parse text) as [data | message];
      [| apply import_failed_rejected].
    destruct data as [| ? | ? | ? | ? | fields];
      cbn [property assets_array js_falsy orb];
      try apply import_failed_rejected.
    destruct (get_field "assets" fields) as [[| [|] | ? | ? | items | ?] |];
      cbn [js_falsy Array_isArray negb orb]; rewrite ?orb_true_r;
      try apply import_failed_rejected.
    unfold transactions_or_empty.
    destruct (get_field "transactions" fields) as [[| ? | ? | ? | ? | ?] |];
      reflexivity.
  - intros E. rewrite E. reflexivity.
Qed.
End ImportContract.

Lemma onImportFile_contract_witness :
  onImportFile (fun _ => inl (JObj [])) "null has no properties" "{}"
               sample_store
  = mkImported sample_store
      (Some "Import failed: Invalid backup – assets missing"%string).
Proof.
  apply (onImportFile_contract (fun _ => inl (JObj []))
           "null has no properties" "{}" sample_store).
  reflexivity.
Defined.

(** A backup with assets and no transactions replaces both. *)
Example import_without_transactions :
  onImportFile
    (fun _ => inl (JObj [("assets"%string, JArr [JObj []])]))
    "null has no properties" "{ assets: [{}] }" sample_store
  = mkImported (mkStore [JObj []] []) None.
Proof. reflexivity. Qed.

(** ** CAGR *)

Lemma yearsBetween_elapsed (t0 today : Z) :
  exists y, yearsBetween (Some t0) (Some today) = Some y
            /\ y == years_elapsed t0 today.
Proof.
  eexists. split; [reflexivity |]. unfold years_elapsed.
  assert (E : 1000 * 60 * 60 * 24 * 365.25 == 365.25 * inject_Z msPerDay)
    by reflexivity.
  rewrite E. reflexivity.
Qed.

Lemma years_elapsed_sign (t0 today : Z) :
  (years_elapsed t0 today <= 0 <-> (today - t0 <= 0)%Z)
  /\ (0 < years_elapsed t0 today <-> (0 < today - t0)%Z).
Proof.
  unfold years_elapsed.
  assert (P : 0 < 365.25 * inject_Z msPerDay) by reflexivity.
  split; split; intros H.
  - apply Z.le_ngt. intros C. rewrite Zlt_Qlt in C. change (inject_Z 0) with 0 in C.
    assert (0 < inject_Z (today - t0) / (365.25 * inject_Z msPerDay))
      by (apply Qdiv_pos; [exact C | exact P]).
    lra.
  - rewrite Zle_Qle in H. change (inject_Z 0) with 0 in H. apply Qle_shift_div_r; [exact P |].
    rewrite Qmult_0_l. exact H.
  - apply Z.lt_nge. intros C. rewrite Zle_Qle in C. change (inject_Z 0) with 0 in C.
    assert (inject_Z (today - t0) / (365.25 * inject_Z msPerDay) <= 0).
    { apply Qle_shift_div_r; [exact P |]. rewrite Qmult_0_l. exact C. }
    lra.
  - rewrite Zlt_Qlt in H. change (inject_Z 0) with 0 in H. apply Qdiv_pos; [exact H | exact P].
Qed.

(** C8.  [getCAGR] is 0 when the asset has no first-contribution date or
    nothing invested; with a first contribution at [t0] it is 0 when no
    time has elapsed, -1 when time has elapsed and the market value
    [units * price] is not positive, and otherwise
    [(value / invested) ^ (1 / years) - 1], [years] being the elapsed
    milliseconds divided by 365.25 days. *)
Theorem getCAGR_cases (Math_pow : Q -> Q -> Q) (today : Z) (asset : Asset.t) :
  (no_date (Asset.firstContribution asset) \/ Asset.invested asset <= 0 ->
   getCAGR Math_pow today asset = Some 0)
  /\ (forall t0,
        truthy (Asset.firstContribution asset) = true ->
        0 < Asset.invested asset ->
        Date_getTime (Asset.firstContribution asset) = Some t0 ->
        (years_elapsed t0 today <= 0 ->
         getCAGR Math_pow today asset = Some 0)
        /\ (0 < years_elapsed t0 today ->
            Asset.units asset * Asset.price asset <= 0 ->
            getCAGR Math_pow today asset = Some (-1))
        /\ (0 < years_elapsed t0 today ->
            0 < Asset.units asset * Asset.price asset ->
            exists value years,
              getCAGR Math_pow today asset
              = Some (Math_pow (value / Asset.invested asset) (1 / years) - 1)
              /\ value == Asset.units asset * Asset.price asset
              /\ years == years_elapsed t0 today)).
Proof.
  unfold getCAGR. split.
  - intros [H | H].
    + rewrite (no_date_falsy _ H). reflexivity.
    + apply Qleb_le in H. rewrite H, orb_true_r. reflexivity.
  - intros t0 Ht Hinv Hd. rewrite Ht, Hd.
    assert (E : Qleb (Asset.invested asset) 0 = false)
      by (apply Qleb_gt; exact Hinv).
    rewrite E. cbn [negb orb].
    destruct (yearsBetween_elapsed t0 today) as (y & Hy & Ey).
    rewrite Hy.
    assert (V : orZero (Asset.units asset) * orZero (Asset.price asset)
                == Asset.units asset * Asset.price asset)
      by (rewrite !orZero_eq; reflexivity).
    split; [| split].
    + intros Hle. rewrite <- Ey in Hle. apply Qleb_le in Hle.
      rewrite Hle. reflexivity.
    + intros Hpos Hv. rewrite <- Ey in Hpos. apply Qleb_gt in Hpos.
      rewrite Hpos. rewrite <- V in Hv. apply Qleb_le in Hv.
      rewrite Hv. reflexivity.
    + intros Hpos Hv. rewrite <- Ey in Hpos. apply Qleb_gt in Hpos.
      rewrite Hpos. rewrite <- V in Hv. apply Qleb_gt in Hv.
      rewrite Hv. eexists _, _. split; [reflexivity |]. split; assumption.
Qed.

Lemma getCAGR_cases_witness :
  exists value years,
    getCAGR (fun x _ => x) sample_today sample_grown
    = Some ((fun x _ => x) (value / 100) (1 / years) - 1)
    /\ value == 1 * 121
    /\ years == 2.
Proof.
  destruct (getCAGR_cases (fun x _ => x) sample_today sample_grown)
    as [_ H].
  destruct (H 1640995200000%Z) as (_ & _ & G);
    [reflexivity | reflexivity | reflexivity |].
  destruct G as (value & years & G1 & G2 & G3);
    [reflexivity | reflexivity |].
  exists value, years. split; [exact G1 |]. split; [exact G2 |].
  rewrite G3. reflexivity.
Defined.

(** With an unreadable first-contribution date [years] is a [NaN]: both
    comparisons on it fail, so a worthless holding still gives -1 and any
    other gives a [NaN]. *)
Lemma getCAGR_unreadable_date (Math_pow : Q -> Q -> Q) (today : Z)
    (asset : Asset.t) :
  truthy (Asset.firstContribution asset) = true ->
  0 < Asset.invested asset ->
  Date_getTime (Asset.firstContribution asset) = None ->
  getCAGR Math_pow today asset
  = if Qleb (orZero (Asset.units asset) * orZero (Asset.price asset)) 0
    then Some (-1) else None.
Proof.
  intros Ht Hinv Hd. unfold getCAGR. rewrite Ht, Hd.
  apply Qleb_gt in Hinv. rewrite Hinv. reflexivity.
Qed.

(** ** Rebalancing suggestions *)

Lemma Qleb_compat a b x y : a == b -> x == y -> Qleb a x = Qleb b y.
Proof.
  intros E1 E2. destruct (Qleb b y) eqn:C.
  - apply Qleb_le in C. apply Qleb_le. rewrite E1, E2. exact C.
  - apply Qleb_gt in C. apply Qleb_gt. rewrite E1, E2. exact C.
Qed.

Lemma by_drift_le (x y : Delta.t) :
  Qleb (by_drift x y) 0 = true <-> drift_desc x y.
Proof.
  unfold by_drift, drift_desc, Math_abs. rewrite Qleb_le. split; lra.
Qed.

Lemma by_drift_gt (x y : Delta.t) :
  Qleb (by_drift x y) 0 = false -> drift_desc y x.
Proof.
  unfold by_drift, drift_desc, Math_abs. rewrite Qleb_gt. lra.
Qed.

Lemma drift_desc_trans (x y z : Delta.t) :
  drift_desc x y -> drift_desc y z -> drift_desc x z.
Proof. unfold drift_desc. lra. Qed.

Lemma sort_insert_perm {A : Type} (cmp : A -> A -> Q) (x : A) (l : list A) :
  Permutation (sort_insert cmp x l) (x :: l).
Proof.
  induction l as [| y ys IH]; cbn [sort_insert]; [reflexivity |].
  destruct (Qleb (cmp x y) 0); [reflexivity |].
  rewrite IH. apply perm_swap.
Qed.

Lemma Array_sort_perm {A : Type} (cmp : A -> A -> Q) (l : list A) :
  Permutation (Array_sort cmp l) l.
Proof.
  induction l as [| x l IH]; cbn [Array_sort fold_right]; [reflexivity |].
  fold (Array_sort cmp l). rewrite sort_insert_perm. constructor. exact IH.
Qed.

Lemma sort_insert_sorted (x : Delta.t) (l : list Delta.t) :
  StronglySorted drift_desc l ->
  StronglySorted drift_desc (sort_insert by_drift x l).
Proof.
  induction 1 as [| y ys Hs IH Hall]; cbn [sort_insert].
  - repeat constructor.
  - destruct (Qleb (by_drift x y) 0) eqn:C.
    + apply by_drift_le in C. constructor.
      * constructor; assumption.
      * constructor; [exact C |].
        eapply Forall_impl; [| exact Hall].
        intros z Hz. eapply drift_desc_trans; eassumption.
    + apply by_drift_gt in C. constructor; [exact IH |].
      rewrite (sort_insert_perm by_drift x ys).
      constructor; assumption.
Qed.

Lemma Array_sort_sorted (l : list Delta.t) :
  StronglySorted drift_desc (Array_sort by_drift l).
Proof.
  induction l as [| x l IH]; cbn [Array_sort fold_right]; [constructor |].
  apply sort_insert_sorted. exact IH.
Qed.

Lemma totals_value_sum (l : list Asset.t) :
  totals_value l == sumQ (map (fun a => Asset.units a * Asset.price a) l).
Proof.
  unfold totals_value. rewrite reduce_sum, Qplus_0_l.
  apply sumQ_map_ext. intros a. unfold market_value.
  rewrite orZero_eq. reflexivity.
Qed.

Lemma delta_of_drift (value : Q) (a : Asset.t) :
  0 < value -> Delta.diffPct (delta_of value a) == drift_pct value a.
Proof.
  intros H. unfold delta_of, drift_pct. cbn [Delta.diffPct].
  apply Qltb_lt in H. rewrite H. rewrite orZero_eq. reflexivity.
Qed.

Lemma filter_map_comm {A B : Type} (g : A -> B) (p : B -> bool) (l : list A) :
  filter p (map g l) = map g (filter (fun a => p (g a)) l).
Proof.
  induction l as [| a l IH]; cbn [map filter]; [reflexivity |].
  destruct (p (g a)); cbn [map]; rewrite IH; reflexivity.
Qed.

(** C9.  [suggestions] is empty when rebalancing is disabled or the total
    market value is not positive; otherwise it holds exactly the assets
    whose absolute drift [|(currentWeight - targetWeight) * 100|] reaches
    the threshold, arranged by descending absolute drift; being a function
    of the assets and the settings, it gives the same list in the same
    order whenever these are the same. *)
Theorem suggestions_flagged_sorted (r : Rebalance) (l : list Asset.t) :
  let value := totals_value l in
  (enabled r = false \/ value <= 0 -> suggestions r l = [])
  /\ (enabled r = true -> 0 < value ->
      Permutation (suggestions r l)
                  (map (delta_of value) (filter (flagged r value) l))
      /\ Forall (fun a =>
                   Delta.diffPct (delta_of value a) == drift_pct value a)
                l
      /\ StronglySorted drift_desc (suggestions r l))
  /\ (forall r' l', r' = r -> l' = l -> suggestions r' l' = suggestions r l).
Proof.
  cbv zeta. unfold suggestions. split; [| split].
  - intros [H | H].
    + rewrite H. reflexivity.
    + apply Qleb_le in H. rewrite H, orb_true_r. reflexivity.
  - intros He Hv. rewrite He. pose proof Hv as Hv'.
    apply Qleb_gt in Hv'. rewrite Hv'. cbn [negb orb].
    split; [| split].
    + rewrite Array_sort_perm. rewrite filter_map_comm.
      erewrite filter_ext; [reflexivity |].
      intros a. unfold flagged, Math_abs. apply Qleb_compat.
      * apply orZero_eq.
      * rewrite (delta_of_drift _ a Hv). reflexivity.
    + apply Forall_forall. intros a _. apply delta_of_drift. exact Hv.
    + apply Array_sort_sorted.
  - intros r' l' -> ->. reflexivity.
Qed.

Lemma suggestions_flagged_sorted_witness :
  let r := mkRebalance true 5 in
  Permutation (suggestions r sample_drift)
    (map (delta_of (totals_value sample_drift))
         (filter (flagged r (totals_value sample_drift)) sample_drift))
  /\ StronglySorted drift_desc (suggestions r sample_drift).
Proof.
  destruct (suggestions_flagged_sorted (mkRebalance true 5) sample_drift)
    as (_ & H & _).
  destruct H as (P & _ & S); [reflexivity | reflexivity |].
  split; [exact P | exact S].
Defined.

(** The sample: A holds 25% and B 75% against targets of 50% each, C holds
    nothing against a target of 0; A and B are flagged, in the order they
    come in since their drifts are equal in size. *)
Example suggestions_sample :
  map (fun d => (Delta.ticker d, Qred (Delta.diffPct d)))
      (suggestions (mkRebalance true 5) sample_drift)
  = [("A"%string, -25); ("B"%string, 25)].
Proof. vm_compute. reflexivity. Qed.

(** * Further properties of the source *)

(** ** More on the FIFO helper *)

Lemma Math_max_0_nonpos q : q <= 0 -> Math_max 0 q = 0.
Proof.
  intros H. unfold Math_max, Qmax, GenericMinMax.gmax.
  destruct (Qcompare 0 q) eqn:C; [reflexivity | | reflexivity].
  apply Qlt_alt in C. lra.
Qed.

(** Once nothing remains to be sold the loop only copies lots. *)
Lemma consume_loop_idle (lots : list Lot.t) (s : Fifo.loop) :
  Fifo.l_remaining s <= 0 ->
  consume_loop lots s
  = Fifo.mkLoop (Fifo.l_consumed s) (Fifo.l_remaining s)
                (Fifo.l_newLots s ++ lots).
Proof.
  revert s. induction lots as [| lot lots IH]; intros s H;
    unfold consume_loop; cbn [fold_left].
  - rewrite app_nil_r. destruct s; reflexivity.
  - fold (consume_loop lots (consume_step s lot)).
    assert (E : consume_step s lot
                = Fifo.mkLoop (Fifo.l_consumed s) (Fifo.l_remaining s)
                              (Fifo.l_newLots s ++ [lot])).
    { unfold consume_step. apply Qleb_le in H. rewrite H. reflexivity. }
    rewrite E, IH by exact H. fifo_simpl. rewrite <- app_assoc. reflexivity.
Qed.

(** Selling nothing (or a negative quantity) consumes nothing and returns
    the lots as they are, whatever they hold; with no lots at all the whole
    quantity is unfilled. *)
Theorem consumeLotsFIFO_nothing_to_do (lots : list Lot.t) (sellQty : Q) :
  (sellQty <= 0 -> consumeLotsFIFO lots sellQty = Fifo.mk [] lots 0)
  /\ consumeLotsFIFO [] sellQty = Fifo.mk [] [] (Math_max 0 sellQty).
Proof.
  split; [| reflexivity].
  intros H. unfold consumeLotsFIFO.
  rewrite consume_loop_idle by exact H. fifo_simpl.
  rewrite (Math_max_0_nonpos _ H). reflexivity.
Qed.

Lemma consumeLotsFIFO_nothing_to_do_witness :
  consumeLotsFIFO sample_lots (-1) = Fifo.mk [] sample_lots 0.
Proof.
  apply (consumeLotsFIFO_nothing_to_do sample_lots (-1)). discriminate.
Defined.

(** How much is filled: the consumed quantity is the smaller of the sell
    quantity and the quantity held, [unfilled] is what the sell quantity
    exceeds the holding by, and the residual is what the holding exceeds
    the sell quantity by. *)
Theorem consumeLotsFIFO_fills_the_minimum (lots : list Lot.t) (sellQty : Q) :
  nonneg_lots lots ->
  0 <= sellQty ->
  let r := consumeLotsFIFO lots sellQty in
  total_qty (Fifo.consumed r) == Qmin sellQty (total_qty lots)
  /\ Fifo.unfilled r == Qmax 0 (sellQty - total_qty lots)
  /\ total_qty (Fifo.newLots r) == Qmax 0 (total_qty lots - sellQty).
Proof.
  intros Hl Hs. cbv zeta.
  destruct (consumeLotsFIFO_residual lots sellQty Hl Hs) as (R1 & R2 & R3 & R4).
  cbv zeta in *.
  destruct (consume_loop_inv lots (Fifo.mkLoop [] sellQty []) Hl Hs)
    as (_ & B2 & _).
  cbv zeta in B2. fifo_simpl. change (total_qty []) with 0 in B2.
  assert (C : total_qty (Fifo.consumed (consumeLotsFIFO lots sellQty))
              + Fifo.unfilled (consumeLotsFIFO lots sellQty) == sellQty).
  { unfold consumeLotsFIFO. fifo_simpl.
    destruct (consume_loop_inv lots (Fifo.mkLoop [] sellQty []) Hl Hs)
      as (B1 & _). cbv zeta in B1. fifo_simpl.
    rewrite Math_max_0_id by lra. rewrite B2. lra. }
  pose proof (total_qty_nonneg _ R1) as N.
  destruct (Qlt_le_dec 0 (Fifo.unfilled (consumeLotsFIFO lots sellQty)))
    as [Hpos | Hzero].
  - rewrite (R4 Hpos) in *. change (total_qty []) with 0 in *.
    rewrite Q.min_r by lra. rewrite Q.max_r by lra. rewrite Q.max_l by lra.
    split; [lra |]. split; [lra | reflexivity].
  - rewrite Q.min_l by lra. rewrite Q.max_l by lra. rewrite Q.max_r by lra.
    split; [lra |]. split; lra.
Qed.

Lemma consumeLotsFIFO_fills_the_minimum_witness :
  let r := consumeLotsFIFO sample_lots 7 in
  total_qty (Fifo.consumed r) == Qmin 7 (total_qty sample_lots)
  /\ Fifo.unfilled r == Qmax 0 (7 - total_qty sample_lots)
  /\ total_qty (Fifo.newLots r) == Qmax 0 (total_qty sample_lots - 7).
Proof.
  apply (consumeLotsFIFO_fills_the_minimum sample_lots 7).
  - repeat constructor; discriminate.
  - discriminate.
Defined.

Lemma with_qty_same (l : Lot.t) (q : Q) : same_acquisition l (Lot.with_qty l q).
Proof. split; reflexivity. Qed.

(** The loop, started anywhere, adds to what was consumed and to what was
    kept two lists of the FIFO shape. *)
Lemma consume_loop_shape (lots : list Lot.t) :
  positive_lots lots ->
  forall s : Fifo.loop,
  exists consumed kept,
    Fifo.l_consumed (consume_loop lots s) = Fifo.l_consumed s ++ consumed
    /\ Fifo.l_newLots (consume_loop lots s) = Fifo.l_newLots s ++ kept
    /\ fifo_shape lots consumed kept.
Proof.
  induction 1 as [| lot lots Hq Hl IH]; intros s.
  - exists [], []. unfold consume_loop. cbn [fold_left].
    rewrite !app_nil_r. splits; auto. constructor.
  - destruct (Qlt_le_dec 0 (Fifo.l_remaining s)) as [Hr | Hr].
    + unfold consume_loop. cbn [fold_left].
      fold (consume_loop lots (consume_step s lot)).
      unfold consume_step.
      assert (E : Qleb (Fifo.l_remaining s) 0 = false)
        by (apply Qleb_gt; exact Hr).
      rewrite E.
      set (take := Math_min (Fifo.l_remaining s) (Lot.qty lot)).
      destruct (Math_min_cases (Fifo.l_remaining s) (Lot.qty lot))
        as [[H1 H2] | [H1 H2]]; fold take in H2.
      * (* the lot covers what remains: it is split *)
        assert (T : Qltb 0 take = true) by (apply Qltb_lt; lra).
        assert (L : Qltb 0 (Lot.qty lot - take) = true)
          by (apply Qltb_lt; lra).
        rewrite T, L. rewrite consume_loop_idle by (fifo_simpl; lra).
        fifo_simpl.
        exists [Lot.with_qty lot take],
               (Lot.with_qty lot (Lot.qty lot - take) :: lots).
        splits; [reflexivity | rewrite <- app_assoc; reflexivity |].
        apply shape_part. lra.
      * (* the lot is taken whole *)
        assert (T : Qltb 0 take = true) by (apply Qltb_lt; lra).
        assert (L : Qltb 0 (Lot.qty lot - take) = false)
          by (apply Qltb_ge; lra).
        rewrite T, L.
        destruct (IH (Fifo.mkLoop (Fifo.l_consumed s ++ [Lot.with_qty lot take])
                                  (Fifo.l_remaining s - take)
                                  (Fifo.l_newLots s)))
          as (cs & ks & E1 & E2 & Sh).
        fifo_simpl.
        exists (Lot.with_qty lot take :: cs), ks.
        splits.
        -- rewrite E1, <- app_assoc. reflexivity.
        -- exact E2.
        -- apply shape_whole; [apply with_qty_same | exact H2 | exact Sh].
    + rewrite consume_loop_idle by exact Hr. fifo_simpl.
      exists [], (lot :: lots). rewrite app_nil_r.
      splits; auto. constructor.
Qed.

(** First in, first out.  On lots of positive quantity the consumed lots
    are the oldest lots, in order and with their price and date: a run of
    lots taken whole, then at most one taken in part; the lots kept are the
    rest of that one and all the newer lots, untouched and in order. *)
Theorem consumeLotsFIFO_oldest_first (lots : list Lot.t) (sellQty : Q) :
  positive_lots lots ->
  let r := consumeLotsFIFO lots sellQty in
  fifo_shape lots (Fifo.consumed r) (Fifo.newLots r).
Proof.
  intros Hl. cbv zeta. unfold consumeLotsFIFO. fifo_simpl.
  destruct (consume_loop_shape lots Hl (Fifo.mkLoop [] sellQty []))
    as (cs & ks & E1 & E2 & Sh).
  fifo_simpl. rewrite E1, E2. exact Sh.
Qed.

Lemma consumeLotsFIFO_oldest_first_witness :
  let r := consumeLotsFIFO sample_lots 4 in
  fifo_shape sample_lots (Fifo.consumed r) (Fifo.newLots r).
Proof.
  apply (consumeLotsFIFO_oldest_first sample_lots 4).
  repeat constructor.
Defined.

(** ** What the handlers keep *)

Lemma updateAsset_Forall2 (R : Asset.t -> Asset.t -> Prop) tk patch st :
  (forall x, In x (assets st) -> Asset.ticker x = tk -> R x (patch x)) ->
  (forall x, In x (assets st) -> Asset.ticker x <> tk -> R x x) ->
  Forall2 R (assets st) (assets (updateAsset tk patch st)).
Proof.
  unfold updateAsset. cbn [assets].
  induction (assets st) as [| x l IH]; intros Hp Hk; cbn [map];
    constructor.
  - destruct (String.eqb (Asset.ticker x) tk) eqn:E.
    + apply Hp; [left; reflexivity | apply String.eqb_eq; exact E].
    + apply Hk; [left; reflexivity | apply String.eqb_neq; exact E].
  - apply IH; intros y Hy; [apply Hp | apply Hk]; right; exact Hy.
Qed.

Lemma Forall2_same {A : Type} (R : A -> A -> Prop) (l : list A) :
  (forall x, In x l -> R x x) -> Forall2 R l l.
Proof.
  induction l as [| x l IH]; intros H; constructor.
  - apply H. left. reflexivity.
  - apply IH. intros y Hy. apply H. right. exact Hy.
Qed.

Lemma same_listing_refl tk l : same_listing tk l l.
Proof. apply Forall2_same. intros x _. auto. Qed.

Lemma same_listing_update tk patch st :
  (forall x, Asset.ticker (patch x) = Asset.ticker x
             /\ Asset.name (patch x) = Asset.name x
             /\ Asset.targetWeight (patch x) = Asset.targetWeight x) ->
  same_listing tk (assets st) (assets (updateAsset tk patch st)).
Proof.
  intros H. apply updateAsset_Forall2.
  - intros x _ E. destruct (H x) as (H1 & H2 & H3).
    splits; auto. intros N. contradiction.
  - intros x _ _. auto.
Qed.

(** Buying, selling and setting a price never add, drop or reorder assets
    and never change a ticker, a name or a target weight; an asset that
    does not carry the ticker acted on is left exactly as it was. *)
Theorem handlers_keep_the_listing sys tk (amount : option Q) st :
  same_listing tk (assets st) (assets (handleBuy sys tk amount st))
  /\ same_listing tk (assets st) (assets (handleSell sys tk amount st))
  /\ same_listing tk (assets st) (assets (handleManualPrice tk amount st)).
Proof.
  split; [| split].
  - destruct (handleBuy_cases sys tk amount st) as [E | (a & _ & _ & _ & E)].
    + rewrite E. apply same_listing_refl.
    + cbv zeta in E. rewrite E. unfold addTransaction. cbn [assets].
      apply same_listing_update. intros x. auto.
  - destruct (handleSell_cases sys tk amount st) as [E | (a & _ & _ & _ & E)].
    + rewrite E. apply same_listing_refl.
    + cbv zeta in E. destruct E as (_ & t & E). rewrite E.
      unfold addTransaction. cbn [assets].
      apply same_listing_update. intros x. auto.
  - unfold handleManualPrice. apply same_listing_update. intros x. auto.
Qed.

(** The log only grows at the front, one entry at a time: a buy adds a BUY
    or nothing, a sell adds a SELL or nothing, both for the ticker acted on
    and at the asset's current price; setting a price or a target weight
    adds nothing.  No handler edits or drops an earlier entry. *)
Theorem log_is_append_only sys tk (amount : option Q) st :
  (txn (handleBuy sys tk amount st) = txn st
   \/ exists t a,
        txn (handleBuy sys tk amount st) = t :: txn st
        /\ find_asset tk (assets st) = Some a
        /\ Txn.kind t = "BUY"%string /\ Txn.ticker t = tk
        /\ Txn.price t = Asset.price a)
  /\ (txn (handleSell sys tk amount st) = txn st
      \/ exists t a,
           txn (handleSell sys tk amount st) = t :: txn st
           /\ find_asset tk (assets st) = Some a
           /\ Txn.kind t = "SELL"%string /\ Txn.ticker t = tk
           /\ Txn.price t = Asset.price a)
  /\ txn (handleManualPrice tk amount st) = txn st
  /\ txn (handleTargetWeight tk amount st) = txn st.
Proof.
  split; [| split; [| split; reflexivity]].
  - destruct (handleBuy_cases sys tk amount st) as [E | (a & Hf & _ & _ & E)].
    + left. rewrite E. reflexivity.
    + right. cbv zeta in E. rewrite E. eexists _, a.
      unfold addTransaction. cbn [txn]. splits; try reflexivity. exact Hf.
  - unfold handleSell.
    destruct (find_asset tk (assets st)) as [a |]; [| left; reflexivity].
    destruct (falsyQ (Asset.price a) || Qleb (clamp0 amount) 0);
      [left; reflexivity |].
    destruct (Qltb 1e-9 _); [left; reflexivity |].
    right. eexists _, a. unfold addTransaction. cbn [txn].
    splits; reflexivity.
Qed.

Lemma unique_ticker_found tk l a x :
  unique_tickers l ->
  find_asset tk l = Some a ->
  In x l -> Asset.ticker x = tk -> x = a.
Proof.
  unfold unique_tickers, find_asset.
  induction l as [| y l IH]; intros Hn Hf Hin Ht; [contradiction |].
  cbn [map] in Hn. inversion Hn as [| ? ? Hnot Hn']; subst.
  cbn [find] in Hf.
  destruct (String.eqb (Asset.ticker y) (Asset.ticker x)) eqn:E.
  - injection Hf as <-. destruct Hin as [-> | Hin]; [reflexivity |].
    exfalso. apply Hnot. apply String.eqb_eq in E. rewrite E.
    apply in_map. exact Hin.
  - destruct Hin as [-> | Hin].
    + rewrite String.eqb_refl in E. discriminate.
    + apply IH; auto.
Qed.

Lemma history_kept_refl x : history_kept x x.
Proof. split; [auto | apply Qle_refl]. Qed.

Lemma history_kept_same x x' :
  Asset.firstContribution x' = Asset.firstContribution x ->
  Asset.invested x' = Asset.invested x ->
  history_kept x x'.
Proof. intros E1 E2. split; [auto | rewrite E2; apply Qle_refl]. Qed.

(** With one asset per ticker, what is recorded about an asset's past
    stays: through a buy, a sell or a price entry a first-contribution date
    that is set never changes, and [invested] never goes down. *)
Theorem history_is_kept sys tk (amount : option Q) st :
  unique_tickers (assets st) ->
  Forall2 history_kept (assets st) (assets (handleBuy sys tk amount st))
  /\ Forall2 history_kept (assets st) (assets (handleSell sys tk amount st))
  /\ Forall2 history_kept (assets st)
             (assets (handleManualPrice tk amount st)).
Proof.
  intros Hu. split; [| split].
  - destruct (handleBuy_cases sys tk amount st)
      as [E | (a & Hf & _ & Hamt & E)].
    + rewrite E. apply Forall2_same. intros. apply history_kept_refl.
    + cbv zeta in E. rewrite E. unfold addTransaction. cbn [assets].
      apply updateAsset_Forall2.
      * intros x Hx Ht.
        rewrite (unique_ticker_found tk _ a x Hu Hf Hx Ht).
        unfold history_kept, patch_buy.
        cbn [Asset.firstContribution Asset.invested].
        split; [intros T; rewrite T; reflexivity | lra].
      * intros. apply history_kept_refl.
  - destruct (handleSell_cases sys tk amount st) as [E | (a & _ & _ & _ & E)].
    + rewrite E. apply Forall2_same. intros. apply history_kept_refl.
    + cbv zeta in E. destruct E as (_ & t & E). rewrite E.
      unfold addTransaction. cbn [assets].
      apply updateAsset_Forall2; intros;
        [apply history_kept_same; reflexivity | apply history_kept_refl].
  - unfold handleManualPrice.
    apply updateAsset_Forall2; intros;
      [apply history_kept_same; reflexivity | apply history_kept_refl].
Qed.

Lemma history_is_kept_witness :
  Forall2 history_kept (assets sample_state)
          (assets (handleBuy sample_sys "VGS" (Some 1000) sample_state)).
Proof.
  apply (history_is_kept sample_sys "VGS" (Some 1000) sample_state).
  repeat constructor. intros [].
Defined.

(** ** Buys and sells that go through *)

Lemma Qdiv_mult_cancel (q p : Q) : ~ p == 0 -> q / p * p == q.
Proof. intros H. field. exact H. Qed.

(** A buy that passes the guards: the log gets the BUY entry, and the asset
    gets the units the amount buys at its price, the amount added to
    [invested], a new lot behind all the older ones, and its
    first-contribution date if it had none; its market value rises by
    exactly the amount. *)
Theorem handleBuy_records sys tk q st a :
  find_asset tk (assets st) = Some a ->
  ~ Asset.price a == 0 ->
  0 < q ->
  let bought := q / Asset.price a in
  let lot := Lot.mk bought (Asset.price a) (Str (toISOString (now sys))) in
  let st' := handleBuy sys tk (Some q) st in
  txn st'
  = Txn.mk (randomUUID sys) "BUY" tk q bought (Asset.price a)
           None None None None (Str (toISOString (now_again sys)))
    :: txn st
  /\ (exists a',
        find_asset tk (assets st') = Some a'
        /\ Asset.price a' = Asset.price a
        /\ Asset.units a' = Asset.units a + bought
        /\ Asset.invested a' = Asset.invested a + q
        /\ Asset.lots a' = Asset.lots a ++ [lot]
        /\ Asset.firstContribution a'
           = (if truthy (Asset.firstContribution a)
              then Asset.firstContribution a else Lot.date lot)
        /\ market_value a' == market_value a + q).
Proof.
  intros Hf Hp Hq. cbv zeta.
  destruct (handleBuy_cases sys tk (Some q) st)
    as [E | (a0 & Hf0 & _ & _ & E)].
  - exfalso. unfold handleBuy in E. rewrite Hf, (clamp0_pos q Hq) in E.
    apply falsyQ_nonzero in Hp. apply Qleb_gt in Hq. rewrite Hp, Hq in E.
    cbn [orb] in E. apply (f_equal txn) in E.
    unfold addTransaction in E. cbn [txn updateAsset] in E.
    apply (f_equal (@List.length Txn.t)) in E. cbn [List.length] in E. lia.
  - rewrite Hf in Hf0. injection Hf0 as <-.
    cbv zeta in E. rewrite (clamp0_pos q Hq) in E. rewrite E.
    unfold addTransaction. cbn [txn assets]. split; [reflexivity |].
    eexists. split; [apply find_asset_update; [reflexivity | exact Hf] |].
    cbn [patch_buy Asset.price Asset.units Asset.invested Asset.lots
         Asset.firstContribution].
    splits; try reflexivity.
    unfold market_value. cbn [patch_buy Asset.units Asset.price].
    rewrite !orZero_eq. field. exact Hp.
Qed.

Lemma handleBuy_records_witness :
  exists a',
    find_asset "VGS" (assets (handleBuy sample_sys "VGS" (Some 1000)
                                        sample_state))
    = Some a'
    /\ Asset.invested a' = 800 + 1000
    /\ market_value a' == market_value sample_asset + 1000.
Proof.
  destruct (handleBuy_records sample_sys "VGS" 1000 sample_state sample_asset)
    as (_ & a' & F & _ & _ & I & _ & _ & M);
    [reflexivity | discriminate | reflexivity |].
  exists a'. splits; assumption.
Defined.

(** What is left unfilled is what the sell quantity exceeds the lots by. *)
Lemma unfilled_is_the_excess (lots : list Lot.t) (sellQty : Q) :
  nonneg_lots lots ->
  0 <= sellQty ->
  Fifo.unfilled (consumeLotsFIFO lots sellQty)
  == Qmax 0 (sellQty - total_qty lots).
Proof.
  intros Hl Hs.
  destruct (consumeLotsFIFO_residual lots sellQty Hl Hs) as (R1 & R2 & R3 & R4).
  cbv zeta in *. pose proof (total_qty_nonneg _ R1) as N.
  destruct (Qlt_le_dec 0 (Fifo.unfilled (consumeLotsFIFO lots sellQty)))
    as [Hpos | Hzero].
  - rewrite (R4 Hpos) in *. change (total_qty []) with 0 in *.
    rewrite Q.max_r by lra. lra.
  - rewrite Q.max_l by lra. lra.
Qed.

(** The tolerance of [handleSell], as a fraction. *)
Lemma tolerance_value : 1e-9 == 1 # 1000000000.
Proof. reflexivity. Qed.

(** No partial sells and no overselling.  For an asset of the data model
    with a positive price, a sell of a positive amount is recorded exactly
    when the units it asks for are held, up to 1e-9 of a unit; otherwise
    the state is returned as it was. *)
Theorem handleSell_recorded_iff_covered sys tk q st a :
  find_asset tk (assets st) = Some a ->
  asset_ok a ->
  0 < Asset.price a ->
  0 < q ->
  let asked := q / Asset.price a in
  (asked <= Asset.units a + 1e-9 ->
   exists t, txn (handleSell sys tk (Some q) st) = t :: txn st
             /\ Txn.kind t = "SELL"%string /\ Txn.units t = asked)
  /\ (Asset.units a + 1e-9 < asked -> handleSell sys tk (Some q) st = st).
Proof.
  intros Hf (_ & Hl & Hm) Hp Hq. cbv zeta.
  assert (Ha : 0 <= q / Asset.price a)
    by (apply Qlt_le_weak, Qdiv_pos; assumption).
  pose proof (unfilled_is_the_excess (Asset.lots a) (q / Asset.price a) Hl Ha)
    as U.
  unfold lots_match_units in Hm. rewrite Hm in U.
  split.
  - intros Hc.
    assert (Hu : Fifo.unfilled
                   (consumeLotsFIFO (Asset.lots a) (q / Asset.price a))
                 <= 1e-9).
    { rewrite U. rewrite tolerance_value in *. apply Q.max_lub; lra. }
    rewrite (handleSell_accepted sys tk q st a Hf Hp Hq Hu). cbv zeta.
    eexists. unfold addTransaction. cbn [txn]. splits; reflexivity.
  - intros Hc. unfold handleSell. rewrite Hf, (clamp0_pos q Hq).
    destruct (falsyQ (Asset.price a) || Qleb q 0); [reflexivity |].
    assert (Hu : Qltb 1e-9
                   (Fifo.unfilled
                      (consumeLotsFIFO (Asset.lots a) (q / Asset.price a)))
                 = true).
    { apply Qltb_lt. rewrite U.
      eapply Qlt_le_trans; [| apply Q.le_max_r]. lra. }
    rewrite Hu. reflexivity.
Qed.

Lemma handleSell_recorded_iff_covered_witness :
  (exists t, txn (handleSell sample_sys "VGS" (Some 800) sample_state)
             = t :: txn sample_state
             /\ Txn.kind t = "SELL"%string /\ Txn.units t = 800 / 200)
  /\ handleSell sample_sys "VGS" (Some 5000) sample_state = sample_state.
Proof.
  split.
  - apply (handleSell_recorded_iff_covered sample_sys "VGS" 800 sample_state
             sample_asset);
      [reflexivity | | reflexivity | reflexivity | discriminate].
    split; [discriminate |]. split; [| reflexivity].
    repeat constructor; discriminate.
  - apply (handleSell_recorded_iff_covered sample_sys "VGS" 5000 sample_state
             sample_asset);
      [reflexivity | | reflexivity | reflexivity | reflexivity].
    split; [discriminate |]. split; [| reflexivity].
    repeat constructor; discriminate.
Defined.

(** What is consumed and what is unfilled make up the sell quantity. *)
Lemma consumeLotsFIFO_filled (lots : list Lot.t) (sellQty : Q) :
  nonneg_lots lots ->
  0 <= sellQty ->
  total_qty (Fifo.consumed (consumeLotsFIFO lots sellQty))
  + Fifo.unfilled (consumeLotsFIFO lots sellQty) == sellQty.
Proof.
  intros Hl Hs. unfold consumeLotsFIFO.
  destruct (consume_loop_inv lots (Fifo.mkLoop [] sellQty []) Hl Hs)
    as (B1 & B2 & _).
  cbv zeta in *. fifo_simpl. change (total_qty []) with 0 in *.
  rewrite Math_max_0_id by lra. rewrite B2. lra.
Qed.

Lemma sumQ_map_le {A : Type} (f g : A -> Q) (l : list A) :
  (forall x, f x <= g x) -> sumQ (map f l) <= sumQ (map g l).
Proof.
  intros H. induction l as [| x l IH]; cbn [map]; rewrite ?sumQ_cons.
  - apply Qle_refl.
  - pose proof (H x). lra.
Qed.

Lemma lot_gains_sum (p : Q) (ls : list Lot.t) :
  sumQ (map (lot_gain p) ls)
  == p * total_qty ls - sumQ (map (fun l => Lot.qty l * Lot.price l) ls).
Proof.
  unfold total_qty.
  induction ls as [| l ls IH]; cbn [map]; rewrite ?sumQ_cons.
  - change (sumQ []) with 0. lra.
  - rewrite IH. unfold lot_gain. lra.
Qed.

Lemma spec_discount_bounds (p : Q) (saleDate : Z) (l : Lot.t) :
  Qmax 0 (lot_gain p l) / 2 <= spec_discount p saleDate l
  /\ spec_discount p saleDate l <= Qmax 0 (lot_gain p l).
Proof.
  pose proof (Q.le_max_l 0 (lot_gain p l)) as N.
  assert (H : Qmax 0 (lot_gain p l) / 2 <= Qmax 0 (lot_gain p l)).
  { apply Qle_shift_div_r; [reflexivity | lra]. }
  unfold spec_discount. destruct (held_at_least_a_year saleDate l); split;
    try apply Qle_refl; exact H.
Qed.

(** The figures of a recorded sale.  The proceeds are the amount asked for;
    the gain is the sum of the consumed lots' gains, plus the price of the
    fraction of a unit (at most 1e-9) that was sold without being held;
    the discounted gain lies between half and the whole of the sum of the
    lots' non-negative gains, so it is never negative and a loss on one lot
    never reduces it. *)
Theorem handleSell_figures sys tk q st a :
  find_asset tk (assets st) = Some a ->
  asset_ok a ->
  0 < Asset.price a ->
  0 < q ->
  q / Asset.price a <= Asset.units a + 1e-9 ->
  let r := consumeLotsFIFO (Asset.lots a) (q / Asset.price a) in
  let gross :=
    sumQ (map (fun l => Qmax 0 (lot_gain (Asset.price a) l))
              (Fifo.consumed r)) in
  exists t proceeds gain discountGain,
    txn (handleSell sys tk (Some q) st) = t :: txn st
    /\ Txn.proceeds t = Some proceeds
    /\ Txn.gain t = Some gain
    /\ Txn.discountGain t = Some discountGain
    /\ proceeds == q
    /\ gain == sumQ (map (lot_gain (Asset.price a)) (Fifo.consumed r))
               + Asset.price a * Fifo.unfilled r
    /\ gross / 2 <= discountGain <= gross.
Proof.
  intros Hf (_ & Hl & Hm) Hp Hq Hc. cbv zeta.
  assert (Ha : 0 <= q / Asset.price a)
    by (apply Qlt_le_weak, Qdiv_pos; assumption).
  pose proof (unfilled_is_the_excess (Asset.lots a) (q / Asset.price a) Hl Ha)
    as U.
  unfold lots_match_units in Hm. rewrite Hm in U.
  assert (Hu : Fifo.unfilled
                 (consumeLotsFIFO (Asset.lots a) (q / Asset.price a))
               <= 1e-9).
  { rewrite U. rewrite tolerance_value in *. apply Q.max_lub; lra. }
  rewrite (handleSell_accepted sys tk q st a Hf Hp Hq Hu). cbv zeta.
  unfold addTransaction. cbn [txn].
  eexists _, _, _, _.
  cbn [Txn.proceeds Txn.gain Txn.discountGain].
  split; [reflexivity |]. split; [reflexivity |]. split; [reflexivity |].
  split; [reflexivity |].
  pose proof (consumeLotsFIFO_filled (Asset.lots a) (q / Asset.price a) Hl Ha)
    as F.
  assert (P : q / Asset.price a * Asset.price a == q)
    by (apply Qdiv_mult_cancel; lra).
  split; [exact P |]. split.
  - rewrite lot_gains_sum, cost_base_sum, P.
    rewrite <- P at 1. rewrite <- F at 1. lra.
  - rewrite discounted_of_sum. split.
    + unfold Qdiv. rewrite Qmult_comm, <- sumQ_scale.
      apply sumQ_map_le. intros l.
      destruct (spec_discount_bounds (Asset.price a) (now sys) l) as [B _].
      unfold Qdiv in B. lra.
    + apply sumQ_map_le. intros l.
      apply (spec_discount_bounds (Asset.price a) (now sys) l).
Qed.

Lemma handleSell_figures_witness :
  exists t proceeds gain discountGain,
    txn (handleSell sample_sys "VGS" (Some 800) sample_state)
    = t :: txn sample_state
    /\ Txn.proceeds t = Some proceeds
    /\ Txn.gain t = Some gain
    /\ Txn.discountGain t = Some discountGain
    /\ proceeds == 800.
Proof.
  destruct (handleSell_figures sample_sys "VGS" 800 sample_state sample_asset)
    as (t & p & g & d & H1 & H2 & H3 & H4 & H5 & _);
    [reflexivity | | reflexivity | reflexivity | discriminate |].
  - split; [discriminate |]. split; [| reflexivity].
    repeat constructor; discriminate.
  - exists t, p, g, d. splits; assumption.
Defined.

(** ** Totals, weights and the rebalancing views *)

Lemma sumQ_div {A : Type} (f : A -> Q) (c : Q) (l : list A) :
  sumQ (map (fun x => f x / c) l) == sumQ (map f l) / c.
Proof.
  unfold Qdiv. rewrite (Qmult_comm (sumQ (map f l))), <- sumQ_scale.
  apply sumQ_map_ext. intros x. apply Qmult_comm.
Qed.

Lemma market_value_nonneg (a : Asset.t) :
  0 <= Asset.units a -> 0 <= Asset.price a -> 0 <= market_value a.
Proof.
  intros Hu Hp. unfold market_value. rewrite orZero_eq.
  apply Qmult_le_0_compat; assumption.
Qed.

(** [totals]: [invested] and [value] are the sums over the assets; when
    the value is positive the weights, one per asset and in order, sum to
    1, and with non-negative units and prices each lies between 0 and 1;
    when the value is not positive every weight is 0. *)
Theorem totals_weights (l : list Asset.t) :
  let t := totals l in
  Totals.invested t == sumQ (map Asset.invested l)
  /\ Totals.value t == sumQ (map market_value l)
  /\ map fst (Totals.weights t) = map Asset.ticker l
  /\ (0 < Totals.value t ->
      sumQ (map snd (Totals.weights t)) == 1
      /\ (nonneg_holdings l ->
          Forall (fun w => 0 <= snd w <= 1) (Totals.weights t)))
  /\ (Totals.value t <= 0 ->
      Forall (fun w => snd w = 0) (Totals.weights t)).
Proof.
  cbv zeta. unfold totals.
  cbn [Totals.invested Totals.value Totals.weights].
  set (value := fold_left (fun s a => s + market_value a) l 0).
  assert (V : value == sumQ (map market_value l)).
  { unfold value. rewrite reduce_sum. lra. }
  split; [| split; [exact V | split; [| split]]].
  - rewrite reduce_sum, Qplus_0_l. apply sumQ_map_ext.
    intros a. apply orZero_eq.
  - rewrite map_map. reflexivity.
  - intros Hv. pose proof Hv as Hv'. apply Qltb_lt in Hv'.
    rewrite Hv'. split.
    + rewrite map_map. cbn [snd]. rewrite sumQ_div, <- V. field. lra.
    + intros Hn. apply Forall_forall. intros w Hw.
      apply in_map_iff in Hw. destruct Hw as (a & <- & Ha). cbn [snd].
      unfold nonneg_holdings in Hn. rewrite Forall_forall in Hn.
      assert (M : forall x, In x l -> 0 <= market_value x)
        by (intros x Hx; destruct (Hn x Hx); apply market_value_nonneg; auto).
      assert (Le : market_value a <= value).
      { rewrite V. clear - Ha M.
        induction l as [| x l IH]; [contradiction |].
        cbn [map]. rewrite sumQ_cons.
        assert (R : 0 <= sumQ (map market_value l)).
        { apply sumQ_nonneg. rewrite Forall_map. apply Forall_forall.
          intros y Hy. apply M. right. exact Hy. }
        destruct Ha as [-> | Ha].
        - lra.
        - pose proof (M x (or_introl eq_refl)).
          assert (market_value a <= sumQ (map market_value l))
            by (apply IH; [exact Ha | intros y Hy; apply M; right; exact Hy]).
          lra. }
      split.
      * apply Qle_shift_div_l; [exact Hv |]. rewrite Qmult_0_l.
        apply M. exact Ha.
      * apply Qle_shift_div_r; [exact Hv |]. lra.
  - intros Hv. apply Qltb_ge in Hv. rewrite Hv.
    apply Forall_forall. intros w Hw.
    apply in_map_iff in Hw. destruct Hw as (a & <- & _). reflexivity.
Qed.

Lemma totals_weights_witness :
  sumQ (map snd (Totals.weights (totals sample_drift))) == 1
  /\ Forall (fun w => 0 <= snd w <= 1) (Totals.weights (totals sample_drift)).
Proof.
  destruct (totals_weights sample_drift) as (_ & _ & _ & H & _).
  destruct H as [S B]; [reflexivity |].
  split; [exact S |]. apply B.
  repeat constructor; discriminate.
Defined.

Lemma suggestions_perm (r : Rebalance) (l : list Asset.t) :
  enabled r = true ->
  0 < totals_value l ->
  Permutation (suggestions r l)
    (map (delta_of (totals_value l))
         (filter (flagged r (totals_value l)) l)).
Proof.
  intros He Hv. unfold suggestions. rewrite He.
  pose proof Hv as Hv'. apply Qleb_gt in Hv'. rewrite Hv'. cbn [negb orb].
  rewrite Array_sort_perm, filter_map_comm.
  erewrite filter_ext; [reflexivity |].
  intros a. unfold flagged, Math_abs. apply Qleb_compat.
  - apply orZero_eq.
  - rewrite (delta_of_drift _ a Hv). reflexivity.
Qed.

Lemma card_weight_drift (v : Q) (a : Asset.t) :
  0 < v ->
  (card_weight v a - Asset.targetWeight a) * 100 == drift_pct v a.
Proof.
  intros Hv. unfold card_weight, drift_pct, market_value.
  apply Qltb_lt in Hv. rewrite Hv. rewrite !orZero_eq. reflexivity.
Qed.

Lemma flagged_compat (r : Rebalance) (v : Q) (a a' : Asset.t) :
  drift_pct v a == drift_pct v a' -> flagged r v a = flagged r v a'.
Proof.
  intros E. unfold flagged. apply Qleb_compat; [reflexivity |].
  rewrite E. reflexivity.
Qed.

(** The "Rebalance" badge on an asset's card and the list of suggestions
    agree while the portfolio has a positive value: the badge shows exactly
    when the asset is in the list.  With no value the list is empty
    whatever the targets are, while the badge is still computed, against a
    current weight of 0: it shows for every asset whose target weight
    reaches the threshold. *)
Theorem badge_and_suggestions (r : Rebalance) (l : list Asset.t)
    (a : Asset.t) :
  In a l ->
  let v := totals_value l in
  (0 < v ->
   (card_badge r v a = true <-> In (delta_of v a) (suggestions r l)))
  /\ (v <= 0 ->
      suggestions r l = []
      /\ card_badge r v a
         = enabled r
           && Qleb (thresholdPct r) (Qabs (Asset.targetWeight a * 100))).
Proof.
  intros Ha. cbv zeta. split.
  - intros Hv.
    assert (B : card_badge r (totals_value l) a
                = enabled r && flagged r (totals_value l) a).
    { unfold card_badge, flagged, Math_abs. f_equal.
      apply Qleb_compat; [reflexivity |].
      rewrite (card_weight_drift _ a Hv). reflexivity. }
    rewrite B. destruct (enabled r) eqn:He; cbn [andb].
    + pose proof (suggestions_perm r l He Hv) as P. split.
      * intros F. eapply Permutation_in; [symmetry; exact P |].
        apply in_map. apply filter_In. auto.
      * intros I. apply (Permutation_in _ P) in I.
        apply in_map_iff in I. destruct I as (a' & E & I).
        apply filter_In in I. destruct I as [_ F].
        rewrite <- F. apply flagged_compat.
        rewrite <- !(delta_of_drift _ _ Hv), E. reflexivity.
    + unfold suggestions. rewrite He. cbn [negb orb].
      split; [discriminate | contradiction].
  - intros Hv. split.
    + unfold suggestions. apply Qleb_le in Hv. rewrite Hv, orb_true_r.
      reflexivity.
    + unfold card_badge, card_weight, Math_abs.
      apply Qltb_ge in Hv. rewrite Hv. f_equal.
      apply Qleb_compat; [reflexivity |].
      assert (E : (0 - Asset.targetWeight a) * 100
                  == - (Asset.targetWeight a * 100)) by lra.
      rewrite E. apply Qabs_opp.
Qed.

Lemma badge_and_suggestions_witness :
  suggestions (mkRebalance true 5) default_assets = []
  /\ Forall (fun a => card_badge (mkRebalance true 5)
                                 (totals_value default_assets) a = true)
            default_assets.
Proof.
  split.
  - apply (badge_and_suggestions (mkRebalance true 5) default_assets
             (hd sample_asset default_assets));
      [left; reflexivity | discriminate].
  - repeat constructor.
Defined.

Lemma sumQ_perm (l1 l2 : list Q) :
  Permutation l1 l2 -> sumQ l1 == sumQ l2.
Proof.
  induction 1; rewrite ?sumQ_cons; lra.
Qed.

Lemma filter_all {A : Type} (f : A -> bool) (l : list A) :
  (forall x, f x = true) -> filter f l = l.
Proof.
  intros H. induction l as [| x l IH]; cbn [filter]; [reflexivity |].
  rewrite H, IH. reflexivity.
Qed.

(** With a threshold of zero (or below) every asset is suggested, and the
    drifts add up to 100 times what the target weights fall short of 1: when
    the targets sum to 1, overweight and underweight cancel out. *)
Theorem drifts_balance (r : Rebalance) (l : list Asset.t) :
  enabled r = true ->
  0 < totals_value l ->
  thresholdPct r <= 0 ->
  Permutation (suggestions r l) (map (delta_of (totals_value l)) l)
  /\ sumQ (map Delta.diffPct (suggestions r l))
     == 100 * (1 - sumQ (map Asset.targetWeight l)).
Proof.
  intros He Hv Ht.
  assert (P : Permutation (suggestions r l)
                          (map (delta_of (totals_value l)) l)).
  { rewrite (suggestions_perm r l He Hv). rewrite filter_all; [reflexivity |].
    intros a. unfold flagged. apply Qleb_le.
    pose proof (Qabs_nonneg (drift_pct (totals_value l) a)). lra. }
  split; [exact P |].
  rewrite (sumQ_perm _ _ (Permutation_map Delta.diffPct P)).
  rewrite map_map.
  rewrite (sumQ_map_ext _ (fun a => 100 * (market_value a / totals_value l)
                                    - 100 * Asset.targetWeight a)).
  - assert (S : forall (f g : Asset.t -> Q) (k : list Asset.t),
               sumQ (map (fun a => f a - g a) k)
               == sumQ (map f k) - sumQ (map g k)).
    { intros f g k. induction k as [| x k IH]; cbn [map];
        rewrite ?sumQ_cons; [change (sumQ []) with 0; lra |].
      rewrite IH. lra. }
    rewrite S, !sumQ_scale, sumQ_div.
    assert (V : totals_value l == sumQ (map market_value l))
      by (unfold totals_value; rewrite reduce_sum; lra).
    rewrite <- V. field. lra.
  - intros a. rewrite (delta_of_drift _ a Hv). unfold drift_pct. lra.
Qed.

Lemma drifts_balance_witness :
  sumQ (map Delta.diffPct (suggestions (mkRebalance true 0) sample_drift))
  == 100 * (1 - sumQ (map Asset.targetWeight sample_drift)).
Proof.
  apply (drifts_balance (mkRebalance true 0) sample_drift);
    [reflexivity | reflexivity | discriminate].
Defined.

(** ** Prices, and what a fresh start allows *)

Lemma updateAsset_twice tk f g st :
  (forall x, Asset.ticker (g x) = Asset.ticker x) ->
  updateAsset tk f (updateAsset tk g st)
  = updateAsset tk (fun x => f (g x)) st.
Proof.
  intros Hg. unfold updateAsset. cbn [assets txn]. f_equal.
  rewrite map_map. apply map_ext. intros a.
  destruct (String.eqb (Asset.ticker a) tk) eqn:E.
  - rewrite Hg, E. reflexivity.
  - rewrite E. reflexivity.
Qed.

Lemma find_asset_carries tk l a :
  find_asset tk l = Some a -> Asset.ticker a = tk.
Proof.
  unfold find_asset. intros H. apply find_some in H.
  destruct H as [_ H]. apply String.eqb_eq. exact H.
Qed.

Lemma clamp0_nonneg_value (x : option Q) : 0 <= clamp0 x.
Proof. unfold clamp0, Math_max. apply Q.le_max_l. Qed.

(** With a price of zero nothing is bought and nothing is sold. *)
Lemma unpriced_is_idle sys tk amount st :
  (forall a, find_asset tk (assets st) = Some a -> Asset.price a == 0) ->
  handleBuy sys tk amount st = st /\ handleSell sys tk amount st = st.
Proof.
  intros H. unfold handleBuy, handleSell.
  destruct (find_asset tk (assets st)) as [a |]; [| split; reflexivity].
  assert (E : falsyQ (Asset.price a) = true)
    by (apply falsyQ_zero, H; reflexivity).
  rewrite E. split; reflexivity.
Qed.

(** Entering a price.  Every asset carrying the ticker gets the price typed
    in, or 0 when that is negative or not a number, so a stored price is
    never negative; the last entry wins.  The price gates trading: after an
    entry that is not a positive number every buy and sell of the ticker is
    a no-op, and after a positive one a buy of a positive amount is
    recorded, for the units the amount buys at that price. *)
Theorem price_entry_gates_trading tk (price : option Q) st :
  (forall x', In x' (assets (handleManualPrice tk price st)) ->
     Asset.ticker x' = tk ->
     Asset.price x' = clamp0 price /\ 0 <= Asset.price x')
  /\ (forall earlier,
        handleManualPrice tk price (handleManualPrice tk earlier st)
        = handleManualPrice tk price st)
  /\ (amount_rejected price ->
      forall sys amount,
        handleBuy sys tk amount (handleManualPrice tk price st)
        = handleManualPrice tk price st
        /\ handleSell sys tk amount (handleManualPrice tk price st)
           = handleManualPrice tk price st)
  /\ (forall sys p q a,
        price = Some p -> 0 < p -> 0 < q ->
        find_asset tk (assets st) = Some a ->
        exists t,
          txn (handleBuy sys tk (Some q) (handleManualPrice tk price st))
          = t :: txn st
          /\ Txn.kind t = "BUY"%string
          /\ Txn.price t = p /\ Txn.units t = q / p).
Proof.
  split; [| split; [| split]].
  - intros x' Hin Ht. unfold handleManualPrice in Hin.
    apply updateAsset_In in Hin.
    destruct Hin as (x & _ & [[_ ->] | [N ->]]); [| contradiction].
    cbn [patch_price Asset.price]. split; [reflexivity |].
    apply clamp0_nonneg_value.
  - intros earlier. unfold handleManualPrice.
    rewrite updateAsset_twice by reflexivity. reflexivity.
  - intros Hr sys amount. apply unpriced_is_idle.
    intros a Hf. pose proof (find_asset_carries _ _ _ Hf) as Ht.
    apply find_asset_In in Hf.
    unfold handleManualPrice in Hf. apply updateAsset_In in Hf.
    destruct Hf as (x & _ & [[_ ->] | [N ->]]); [| contradiction].
    cbn [patch_price Asset.price].
    pose proof (clamp0_rejected price Hr) as C. apply Qleb_le in C.
    pose proof (clamp0_nonneg_value price). lra.
  - intros sys p q a -> Hp Hq Hf.
    assert (F : find_asset tk (assets (handleManualPrice tk (Some p) st))
                = Some (patch_price (clamp0 (Some p)) a))
      by (apply find_asset_update; [reflexivity | exact Hf]).
    unfold handleBuy. rewrite F, (clamp0_pos q Hq), (clamp0_pos p Hp).
    cbn [patch_price Asset.price].
    assert (E1 : falsyQ p = false) by (apply falsyQ_nonzero; lra).
    assert (E2 : Qleb q 0 = false) by (apply Qleb_gt; exact Hq).
    rewrite E1, E2. cbn [orb]. eexists.
    unfold addTransaction. cbn [txn updateAsset handleManualPrice].
    splits; reflexivity.
Qed.

Lemma price_entry_gates_trading_witness :
  exists t,
    txn (handleBuy sample_sys "VGS" (Some 1000)
                   (handleManualPrice "VGS" (Some 100)
                                      (mkState default_assets [])))
    = [t]
    /\ Txn.kind t = "BUY"%string /\ Txn.price t = 100
    /\ Txn.units t = 1000 / 100.
Proof.
  destruct (price_entry_gates_trading "VGS" (Some 100)
              (mkState default_assets [])) as (_ & _ & _ & H).
  destruct (H sample_sys 100 1000 (hd sample_asset default_assets))
    as (t & H1 & H2 & H3 & H4);
    [reflexivity | reflexivity | reflexivity | reflexivity |].
  exists t. splits; assumption.
Defined.

Lemma default_assets_unpriced (a : Asset.t) :
  In a default_assets -> Asset.price a = 0.
Proof.
  intros H. cbn in H.
  repeat (destruct H as [<- | H]; [reflexivity |]). contradiction.
Qed.

(** Resetting takes two clicks: the first only arms the button and leaves
    the data alone, the second puts the five default assets back, with an
    empty log, and disarms it.  The state after a reset is within the data
    model, has one asset per ticker and target weights that sum to 1, and
    holds nothing to trade with: until a price is entered every buy, every
    sell and the budget allocation leave it as it is. *)
Theorem reset_takes_two_clicks (app : App) :
  confirmReset app = false ->
  let fresh := mkState default_assets [] in
  resetAll app = mkApp (data app) true
  /\ resetAll (resetAll app) = mkApp fresh false
  /\ Forall asset_ok (assets fresh)
  /\ unique_tickers (assets fresh)
  /\ sumQ (map Asset.targetWeight (assets fresh)) == 1
  /\ (forall sys tk amount,
        handleBuy sys tk amount fresh = fresh
        /\ handleSell sys tk amount fresh = fresh)
  /\ (forall p sys_at, allocateBudget p sys_at fresh = fresh).
Proof.
  intros H. cbv zeta. unfold resetAll. rewrite H. cbn [negb confirmReset].
  split; [reflexivity |]. split; [reflexivity |].
  split; [| split; [| split; [| split]]].
  - repeat constructor; discriminate.
  - unfold unique_tickers. cbn.
    repeat (constructor; [cbn; intuition discriminate |]). constructor.
  - reflexivity.
  - intros sys tk amount. apply unpriced_is_idle.
    intros a Hf. apply find_asset_In in Hf. cbn [assets] in Hf.
    rewrite (default_assets_unpriced a Hf). reflexivity.
  - intros p sys_at. unfold allocateBudget.
    destruct (Qleb (clamp0 (budget p)) 0); reflexivity.
Qed.

Lemma reset_takes_two_clicks_witness :
  resetAll (resetAll (mkApp sample_state false))
  = mkApp (mkState default_assets []) false.
Proof.
  apply (reset_takes_two_clicks (mkApp sample_state false)). reflexivity.
Defined.

(** ** Allocating the budget *)

Lemma handleBuy_in_agree seen sys tk amount st :
  find_asset tk seen = find_asset tk (assets st) ->
  handleBuy_in seen sys tk amount st = handleBuy sys tk amount st.
Proof.
  intros H. unfold handleBuy_in, handleBuy. rewrite H. reflexivity.
Qed.

(** A buy made inside a render either returns the state or patches it with
    values computed from the asset the render saw. *)
Lemma handleBuy_in_cases seen sys tk amount st :
  handleBuy_in seen sys tk amount st = st
  \/ exists a t units date fc,
       find_asset tk seen = Some a
       /\ ~ Asset.price a == 0
       /\ 0 < clamp0 amount
       /\ units = clamp0 amount / Asset.price a
       /\ handleBuy_in seen sys tk amount st
          = addTransaction t
              (updateAsset tk
                 (patch_buy (Asset.units a + units)
                            (Asset.invested a + clamp0 amount)
                            (Asset.lots a
                             ++ [Lot.mk units (Asset.price a) date]) fc) st).
Proof.
  unfold handleBuy_in.
  destruct (find_asset tk seen) as [a |]; [| left; reflexivity].
  destruct (falsyQ (Asset.price a)) eqn:E1; [left; reflexivity |].
  destruct (Qleb (clamp0 amount) 0) eqn:E2; [left; reflexivity |].
  right. cbn [orb]. apply falsyQ_nonzero in E1. apply Qleb_gt in E2.
  eexists a, _, _, _, _. splits; try reflexivity; assumption.
Qed.

Lemma buy_each_ok seen sys_at (allocations : list (string * Q)) :
  Forall asset_ok seen ->
  forall i st,
    Forall asset_ok (assets st) ->
    Forall asset_ok (assets (buy_each seen sys_at i allocations st)).
Proof.
  intros Hseen. rewrite Forall_forall in Hseen.
  induction allocations as [| [tk amount] rest IH]; intros i st Hok;
    cbn [buy_each]; [exact Hok |].
  apply IH.
  destruct (handleBuy_in_cases seen (sys_at i) tk (Some amount) st)
    as [E | (a & t & units & date & fc & Hf & Hp & Hamt & -> & E)].
  - rewrite E. exact Hok.
  - rewrite E. unfold addTransaction. cbn [assets].
    apply updateAsset_Forall; [exact Hok |].
    intros x Hx. apply asset_ok_buy; auto.
    + apply Hseen. eapply find_asset_In. exact Hf.
    + rewrite Forall_forall in Hok. apply Hok. exact Hx.
Qed.

(** Allocating the budget keeps every asset within the data model:
    non-negative price, non-negative lots, lots summing to units. *)
Theorem allocateBudget_ok (p : Planner) (sys_at : nat -> Sys) (st : State) :
  Forall asset_ok (assets st) ->
  Forall asset_ok (assets (allocateBudget p sys_at st)).
Proof.
  intros Hok. unfold allocateBudget.
  destruct (Qleb (clamp0 (budget p)) 0); [exact Hok |].
  apply buy_each_ok; exact Hok.
Qed.

Lemma priced_defaults_ok : Forall asset_ok (assets priced_defaults).
Proof. repeat constructor; discriminate. Defined.

Lemma allocateBudget_ok_witness :
  Forall asset_ok
    (assets (allocateBudget (mkPlanner (Some 1000) (Some 10) (Some 5))
                            sample_clock priced_defaults)).
Proof.
  apply (allocateBudget_ok (mkPlanner (Some 1000) (Some 10) (Some 5))
           sample_clock priced_defaults priced_defaults_ok).
Defined.

Lemma find_asset_other tk tk' (l l' : list Asset.t) :
  same_listing tk l l' -> tk' <> tk ->
  find_asset tk' l' = find_asset tk' l.
Proof.
  intros H N. unfold find_asset.
  induction H as [| x x' l l' (Ht & _ & _ & Hk) _ IH]; [reflexivity |].
  cbn [find]. rewrite Ht.
  destruct (String.eqb (Asset.ticker x) tk') eqn:E.
  - apply String.eqb_eq in E. rewrite Hk; [reflexivity |].
    rewrite E. exact N.
  - exact IH.
Qed.

Lemma same_listing_tickers tk (l l' : list Asset.t) :
  same_listing tk l l' -> map Asset.ticker l' = map Asset.ticker l.
Proof.
  induction 1 as [| x x' l l' (Ht & _) _ IH]; cbn [map]; [reflexivity |].
  rewrite Ht, IH. reflexivity.
Qed.

Lemma handleBuy_listing sys tk amount st :
  same_listing tk (assets st) (assets (handleBuy sys tk amount st)).
Proof.
  destruct (handleBuy_cases sys tk amount st) as [E | (a & _ & _ & _ & E)].
  - rewrite E. apply same_listing_refl.
  - cbv zeta in E. rewrite E. unfold addTransaction. cbn [assets].
    apply same_listing_update. intros x. auto.
Qed.

Lemma buy_each_in_turn seen sys_at (allocations : list (string * Q)) :
  NoDup (map fst allocations) ->
  forall i st,
    (forall tk, In tk (map fst allocations) ->
       find_asset tk seen = find_asset tk (assets st)) ->
    buy_each seen sys_at i allocations st
    = buy_in_turn sys_at i allocations st.
Proof.
  induction allocations as [| [tk amount] rest IH]; intros Hn i st Hagree;
    cbn [buy_each buy_in_turn]; [reflexivity |].
  cbn [map fst] in Hn, Hagree. inversion Hn as [| ? ? Hnot Hn']; subst.
  rewrite handleBuy_in_agree by (apply Hagree; left; reflexivity).
  apply IH; [exact Hn' |].
  intros tk' Hin. rewrite (Hagree tk' (or_intror Hin)). symmetry.
  apply (find_asset_other tk tk' _ _ (handleBuy_listing _ _ _ _)).
  intros ->. contradiction.
Qed.

Lemma unique_tickers_filter (f : Asset.t -> bool) (l : list Asset.t) :
  unique_tickers l -> unique_tickers (filter f l).
Proof.
  unfold unique_tickers.
  induction l as [| x l IH]; intros H; cbn [filter map] in *;
    [constructor |].
  inversion H as [| ? ? Hnot Hn]; subst.
  destruct (f x); [| apply IH; exact Hn].
  cbn [map]. constructor; [| apply IH; exact Hn].
  intros Hin. apply Hnot. apply in_map_iff in Hin.
  destruct Hin as (y & Ey & Hy). apply filter_In in Hy.
  rewrite <- Ey. apply in_map. tauto.
Qed.

Lemma allocations_tickers spendable l :
  map fst (allocations_of spendable l)
  = map Asset.ticker (filter (fun a => Qltb 0 (Asset.price a)) l).
Proof. unfold allocations_of. rewrite map_map. reflexivity. Qed.

(** With one asset per ticker the stale view does not matter: allocating
    the budget is making the planned buys one after the other, each on the
    state the one before left. *)
Theorem allocateBudget_in_turn (p : Planner) (sys_at : nat -> Sys)
    (st : State) :
  unique_tickers (assets st) ->
  allocateBudget p sys_at st
  = if Qleb (budget_read p) 0 then st
    else buy_in_turn sys_at 0
           (allocations_of (spendable_of p) (assets st)) st.
Proof.
  intros Hu. unfold allocateBudget, budget_read.
  destruct (Qleb (clamp0 (budget p)) 0); [reflexivity |].
  apply buy_each_in_turn; [| reflexivity].
  rewrite allocations_tickers. apply unique_tickers_filter. exact Hu.
Qed.

Lemma priced_defaults_unique : unique_tickers (assets priced_defaults).
Proof.
  unfold unique_tickers. cbn.
  repeat (constructor; [cbn; intuition discriminate |]). constructor.
Defined.

Lemma allocateBudget_in_turn_witness :
  allocateBudget (mkPlanner (Some 1000) (Some 10) (Some 5))
                 sample_clock priced_defaults
  = buy_in_turn sample_clock 0
      (allocations_of (spendable_of (mkPlanner (Some 1000) (Some 10) (Some 5)))
                      (assets priced_defaults))
      priced_defaults.
Proof.
  apply (allocateBudget_in_turn (mkPlanner (Some 1000) (Some 10) (Some 5))
           sample_clock priced_defaults priced_defaults_unique).
Defined.

Lemma unique_find (l : list Asset.t) (a : Asset.t) :
  unique_tickers l -> In a l -> find_asset (Asset.ticker a) l = Some a.
Proof.
  intros Hu Hin.
  destruct (find_asset (Asset.ticker a) l) as [a' |] eqn:F.
  - f_equal. symmetry.
    apply (unique_ticker_found (Asset.ticker a) l a' a Hu F Hin eq_refl).
  - exfalso. unfold find_asset in F.
    pose proof (find_none _ _ F a Hin) as N. cbn in N.
    rewrite String.eqb_refl in N. discriminate.
Qed.

(** With one asset per ticker an update changes one term of a sum over the
    assets. *)
Lemma sum_after_update (f : Asset.t -> Q) tk patch st a :
  unique_tickers (assets st) ->
  find_asset tk (assets st) = Some a ->
  sumQ (map f (assets (updateAsset tk patch st)))
  == sumQ (map f (assets st)) - f a + f (patch a).
Proof.
  unfold updateAsset, unique_tickers, find_asset. cbn [assets].
  induction (assets st) as [| x l IH]; intros Hn Hf; [discriminate |].
  cbn [map] in Hn. inversion Hn as [| ? ? Hnot Hn']; subst.
  cbn [find] in Hf. cbn [map]. rewrite !sumQ_cons.
  destruct (String.eqb (Asset.ticker x) tk) eqn:E.
  - injection Hf as <-. apply String.eqb_eq in E.
    assert (R : map (fun a0 => if String.eqb (Asset.ticker a0) tk
                               then patch a0 else a0) l = l).
    { rewrite <- (map_id l) at 2. apply map_ext_in. intros y Hy.
      destruct (String.eqb (Asset.ticker y) tk) eqn:Ey; [| reflexivity].
      exfalso. apply Hnot. apply String.eqb_eq in Ey.
      rewrite E, <- Ey. apply in_map. exact Hy. }
    rewrite R. lra.
  - rewrite (IH Hn' Hf). lra.
Qed.

Lemma market_value_bought (a : Asset.t) (amount inv : Q)
    (ls : list Lot.t) (fc : jsdate) :
  ~ Asset.price a == 0 ->
  market_value
    (patch_buy (Asset.units a + amount / Asset.price a) inv ls fc a)
  == market_value a + amount.
Proof.
  intros Hp. unfold market_value.
  cbn [patch_buy Asset.units Asset.price]. rewrite !orZero_eq.
  field. exact Hp.
Qed.

Lemma buy_in_turn_sums sys_at (allocations : list (string * Q)) :
  NoDup (map fst allocations) ->
  forall i st,
    unique_tickers (assets st) ->
    (forall tk amount, In (tk, amount) allocations ->
       0 <= amount
       /\ exists a, find_asset tk (assets st) = Some a /\ 0 < Asset.price a) ->
    let st' := buy_in_turn sys_at i allocations st in
    sumQ (map Asset.invested (assets st'))
    == sumQ (map Asset.invested (assets st)) + sumQ (map snd allocations)
    /\ sumQ (map market_value (assets st'))
       == sumQ (map market_value (assets st)) + sumQ (map snd allocations)
    /\ exists new,
         txn st' = new ++ txn st
         /\ Forall (fun t => Txn.kind t = "BUY"%string) new
         /\ sumQ (map Txn.amount new) == sumQ (map snd allocations).
Proof.
  induction allocations as [| [tk amount] rest IH]; intros Hn i st Hu Hal;
    cbv zeta; cbn [buy_in_turn map snd].
  - change (sumQ []) with 0. split; [lra |]. split; [lra |].
    exists []. splits; [reflexivity | constructor | reflexivity].
  - cbn [map fst] in Hn. inversion Hn as [| ? ? Hnot Hn']; subst.
    destruct (Hal tk amount (or_introl eq_refl)) as (Hamt & a & Hf & Hp).
    set (st1 := handleBuy (sys_at i) tk (Some amount) st).
    pose proof (handleBuy_listing (sys_at i) tk (Some amount) st) as L.
    fold st1 in L.
    assert (Hu1 : unique_tickers (assets st1)).
    { unfold unique_tickers. rewrite (same_listing_tickers _ _ _ L).
      exact Hu. }
    assert (Hal1 : forall tk' amount', In (tk', amount') rest ->
              0 <= amount'
              /\ exists a', find_asset tk' (assets st1) = Some a'
                            /\ 0 < Asset.price a').
    { intros tk' amount' Hin.
      destruct (Hal tk' amount' (or_intror Hin)) as (H0 & a' & Hf' & Hp').
      split; [exact H0 |]. exists a'. split; [| exact Hp'].
      rewrite (find_asset_other tk tk' _ _ L); [exact Hf' |].
      intros ->. apply Hnot. apply (in_map fst) in Hin. exact Hin. }
    destruct (IH Hn' (S i) st1 Hu1 Hal1) as (I1 & I2 & new & I3 & I4 & I5).
    cbv zeta in I1, I2, I3. rewrite !sumQ_cons.
    remember (buy_in_turn sys_at (S i) rest st1) as final eqn:Efinal.
    clear Efinal.
    destruct (Qlt_le_dec 0 amount) as [Hpos | Hzero].
    + (* the buy is recorded *)
      assert (E : st1
                  = addTransaction
                      (Txn.mk (randomUUID (sys_at i)) "BUY" tk amount
                              (amount / Asset.price a) (Asset.price a)
                              None None None None
                              (Str (toISOString (now_again (sys_at i)))))
                      (updateAsset tk
                         (patch_buy
                            (Asset.units a + amount / Asset.price a)
                            (Asset.invested a + amount)
                            (Asset.lots a
                             ++ [Lot.mk (amount / Asset.price a)
                                        (Asset.price a)
                                        (Str (toISOString (now (sys_at i))))])
                            (if truthy (Asset.firstContribution a)
                             then Asset.firstContribution a
                             else Str (toISOString (now (sys_at i)))))
                         st)).
      { unfold st1, handleBuy. rewrite Hf, (clamp0_pos amount Hpos).
        assert (E1 : falsyQ (Asset.price a) = false)
          by (apply falsyQ_nonzero; lra).
        assert (E2 : Qleb amount 0 = false) by (apply Qleb_gt; exact Hpos).
        rewrite E1, E2. reflexivity. }
      rewrite E in I1, I2, I3. unfold addTransaction in I1, I2, I3.
      cbn [assets txn] in I1, I2, I3.
      rewrite (sum_after_update Asset.invested tk _ st a Hu Hf) in I1.
      rewrite (sum_after_update market_value tk _ st a Hu Hf) in I2.
      cbn [patch_buy Asset.invested] in I1.
      rewrite market_value_bought in I2 by lra.
      split; [rewrite I1; lra |]. split.
      * rewrite I2. lra.
      * eexists (new ++ [_]). rewrite <- app_assoc. cbn [app].
        split; [exact I3 |]. split.
        -- apply Forall_app. split; [exact I4 |].
           constructor; [reflexivity | constructor].
        -- rewrite map_app, sumQ_app. cbn [map Txn.amount].
           rewrite sumQ_cons. change (sumQ []) with 0. rewrite I5. lra.
    + (* an amount of zero: nothing happens *)
      assert (E : st1 = st).
      { unfold st1, handleBuy. rewrite Hf.
        rewrite (clamp0_rejected (Some amount) Hzero), orb_true_r.
        reflexivity. }
      rewrite E in I1, I2, I3.
      split; [rewrite I1; lra |]. split; [rewrite I2; lra |].
      exists new. splits; [exact I3 | exact I4 | rewrite I5; lra].
Qed.

Lemma budget_shares_total (spendable : Q) (l : list Asset.t) :
  0 < priced_weight l ->
  sumQ (map snd (allocations_of spendable l)) == spendable
  /\ (0 <= spendable ->
      Forall (fun a => 0 <= Asset.targetWeight a) l ->
      Forall (fun x => 0 <= snd x) (allocations_of spendable l)).
Proof.
  intros Hw. unfold allocations_of, priced_weight in *.
  set (priced := filter (fun a => Qltb 0 (Asset.price a)) l) in *.
  assert (W : orOne (fold_left (fun s a => s + orZero (Asset.targetWeight a))
                               priced 0)
              == sumQ (map Asset.targetWeight priced)).
  { assert (E : fold_left (fun s a => s + orZero (Asset.targetWeight a))
                          priced 0
                == sumQ (map Asset.targetWeight priced)).
    { rewrite reduce_sum, Qplus_0_l. apply sumQ_map_ext.
      intros a. apply orZero_eq. }
    rewrite orOne_eq; [exact E | rewrite E; lra]. }
  split.
  - rewrite map_map. cbn [snd].
    rewrite (sumQ_map_ext _ (fun a => spendable
                                      / sumQ (map Asset.targetWeight priced)
                                      * Asset.targetWeight a)).
    + rewrite sumQ_scale. field. lra.
    + intros a. rewrite W. field. lra.
  - intros Hs Ht. apply Forall_forall. intros x Hx.
    apply in_map_iff in Hx. destruct Hx as (a & <- & Ha). cbn [snd].
    apply filter_In in Ha. destruct Ha as [Ha _].
    rewrite Forall_forall in Ht. pose proof (Ht a Ha) as T.
    rewrite W. apply Qmult_le_0_compat; [exact Hs |].
    apply Qle_shift_div_l; [exact Hw | lra].
Qed.

(** What allocating the budget spends.  With one asset per ticker,
    non-negative target weights and some target weight on a priced asset,
    a positive budget is spent in full once fees and buffer are taken off:
    the BUY entries added to the log, the rise of the total invested and
    the rise of the total market value each amount to [spendable].  Assets
    without a price get nothing and their weights are left out of the
    shares. *)
Theorem allocateBudget_spends (p : Planner) (sys_at : nat -> Sys)
    (st : State) :
  unique_tickers (assets st) ->
  Forall (fun a => 0 <= Asset.targetWeight a) (assets st) ->
  0 < budget_read p ->
  0 < priced_weight (assets st) ->
  let st' := allocateBudget p sys_at st in
  sumQ (map Asset.invested (assets st'))
  == sumQ (map Asset.invested (assets st)) + spendable_of p
  /\ sumQ (map market_value (assets st'))
     == sumQ (map market_value (assets st)) + spendable_of p
  /\ exists new,
       txn st' = new ++ txn st
       /\ Forall (fun t => Txn.kind t = "BUY"%string) new
       /\ sumQ (map Txn.amount new) == spendable_of p.
Proof.
  intros Hu Ht Hb Hw. cbv zeta.
  assert (Hn : NoDup (map fst (allocations_of (spendable_of p) (assets st)))).
  { rewrite allocations_tickers. apply unique_tickers_filter. exact Hu. }
  assert (E : allocateBudget p sys_at st
              = buy_in_turn sys_at 0
                  (allocations_of (spendable_of p) (assets st)) st).
  { unfold allocateBudget. unfold budget_read in Hb.
    apply Qleb_gt in Hb. rewrite Hb.
    apply buy_each_in_turn; [exact Hn | reflexivity]. }
  rewrite E.
  destruct (budget_shares_total (spendable_of p) (assets st) Hw) as [S N].
  assert (Hs : 0 <= spendable_of p)
    by (unfold spendable_of, Math_max; apply Q.le_max_l).
  specialize (N Hs Ht). rewrite Forall_forall in N.
  destruct (buy_in_turn_sums sys_at
              (allocations_of (spendable_of p) (assets st)) Hn 0%nat st Hu)
    as (I1 & I2 & new & I3 & I4 & I5).
  { intros tk amount Hin. split; [apply (N (tk, amount) Hin) |].
    unfold allocations_of in Hin. apply in_map_iff in Hin.
    destruct Hin as (a & Ea & Ha). injection Ea as <- _.
    apply filter_In in Ha. destruct Ha as [Ha Hp].
    exists a. split; [apply unique_find; assumption |].
    apply Qltb_lt. exact Hp. }
  rewrite S in I1, I2, I5.
  split; [exact I1 |]. split; [exact I2 |].
  exists new. splits; assumption.
Qed.

Lemma allocateBudget_spends_witness :
  let p := mkPlanner (Some 1000) (Some 10) (Some 5) in
  sumQ (map Asset.invested
            (assets (allocateBudget p sample_clock priced_defaults)))
  == sumQ (map Asset.invested (assets priced_defaults)) + spendable_of p.
Proof.
  apply (allocateBudget_spends (mkPlanner (Some 1000) (Some 10) (Some 5))
           sample_clock priced_defaults priced_defaults_unique).
  - repeat constructor; discriminate.
  - reflexivity.
  - reflexivity.
Defined.

(** The sample allocation: 1000 less 5 of fees and a 10% buffer leaves 895,
    shared 35 : 30 between the two priced assets. *)
Example allocateBudget_sample :
  map (fun t => (Txn.ticker t, Qred (Txn.amount t), Qred (Txn.units t)))
      (txn (allocateBudget (mkPlanner (Some 1000) (Some 10) (Some 5))
                           sample_clock priced_defaults))
  = [("A200"%string, 5370 # 13, 537 # 65);
     ("VGS"%string, 6265 # 13, 1253 # 260)].
Proof. vm_compute. reflexivity. Qed.

(** Applying the buys and previewing them share the budget alike only when
    every asset has a price: then the allocations are the planned amounts,
    asset by asset.  (Otherwise the preview counts the weights of the
    unpriced assets and the allocation does not.) *)
Theorem allocations_match_the_plan (p : Planner) (l : list Asset.t) :
  Forall (fun a => 0 < Asset.price a) l ->
  0 < spendable_of p ->
  Forall2 (fun row x =>
             Split.ticker row = fst x /\ Split.amount row == snd x)
          (plannedSplits p l) (allocations_of (spendable_of p) l).
Proof.
  intros Hp Hs. unfold plannedSplits, allocations_of.
  pose proof Hs as Hs'. apply Qleb_gt in Hs'. rewrite Hs'.
  assert (F : filter (fun a => Qltb 0 (Asset.price a)) l = l).
  { clear - Hp. induction Hp as [| a l Ha _ IH]; cbn [filter];
      [reflexivity |].
    apply Qltb_lt in Ha. rewrite Ha, IH. reflexivity. }
  rewrite F. unfold totalWeights_of.
  generalize (orOne (fold_left
                       (fun s a => s + orZero (Asset.targetWeight a)) l 0)).
  intros W. clear F Hp.
  induction l as [| a l IH]; cbn [map]; constructor; [| exact IH].
  cbn [Split.ticker Split.amount fst snd]. split; [reflexivity |].
  rewrite orZero_eq. reflexivity.
Qed.

Lemma allocations_match_the_plan_witness :
  let p := mkPlanner (Some 1000) (Some 0) (Some 0) in
  let l := [Asset.mk "A" "A" 0.5 25 1 0 [] Null;
            Asset.mk "B" "B" 0.5 75 1 0 [] Null] in
  Forall2 (fun row x =>
             Split.ticker row = fst x /\ Split.amount row == snd x)
          (plannedSplits p l) (allocations_of (spendable_of p) l).
Proof.
  apply allocations_match_the_plan.
  - repeat constructor.
  - reflexivity.
Defined.

(** ** More on the financial-year summary *)

Lemma in_fy_is_sell (fy : Z) (t : Txn.t) :
  in_fy fy t = true -> is_sell t = true.
Proof.
  unfold in_fy, is_sell. intros H.
  destruct (String.eqb (Txn.kind t) "SELL"); [reflexivity | discriminate].
Qed.

Lemma filter_in_fy_sells (fy : Z) (log : list Txn.t) :
  filter (in_fy fy) (filter is_sell log) = filter (in_fy fy) log.
Proof.
  induction log as [| t log IH]; cbn [filter]; [reflexivity |].
  destruct (is_sell t) eqn:S; cbn [filter].
  - rewrite IH. reflexivity.
  - destruct (in_fy fy t) eqn:I; [| exact IH].
    apply in_fy_is_sell in I. congruence.
Qed.

Lemma reduce_max0_nonneg {A : Type} (f : A -> Q) (l : list A) :
  0 <= fold_left (fun s x => s + Math_max 0 (f x)) l 0.
Proof.
  rewrite reduce_sum, Qplus_0_l. apply sumQ_nonneg.
  rewrite Forall_map. apply Forall_forall. intros x _.
  unfold Math_max. apply Q.le_max_l.
Qed.

(** The summary never nets losses and never counts a BUY: both gain
    figures are non-negative whatever the log holds, the summary of a log
    is the summary of its SELL entries alone, and recording a buy leaves
    the summary of every year as it was. *)
Theorem CGTSummaryFY_counts_gains_of_sells (log : list Txn.t) (fy : Z) :
  0 <= grossGain (CGTSummaryFY log fy)
  /\ 0 <= discountGain (CGTSummaryFY log fy)
  /\ (events (CGTSummaryFY log fy) <= List.length (filter is_sell log))%nat
  /\ CGTSummaryFY log fy = CGTSummaryFY (filter is_sell log) fy
  /\ (forall sys tk amount st,
        txn st = log ->
        CGTSummaryFY (txn (handleBuy sys tk amount st)) fy
        = CGTSummaryFY log fy).
Proof.
  split; [apply reduce_max0_nonneg |]. split; [apply reduce_max0_nonneg |].
  split; [| split].
  - unfold CGTSummaryFY. cbn [events].
    rewrite <- filter_in_fy_sells. apply filter_length_le.
  - unfold CGTSummaryFY. rewrite filter_in_fy_sells. reflexivity.
  - intros sys tk amount st <-.
    destruct (handleBuy_cases sys tk amount st) as [E | (a & _ & _ & _ & E)].
    + rewrite E. reflexivity.
    + cbv zeta in E. rewrite E. unfold addTransaction. cbn [txn].
      unfold CGTSummaryFY. cbn [filter]. unfold in_fy at 1 3 5.
      cbn [Txn.kind String.eqb Ascii.eqb Bool.eqb andb]. reflexivity.
Qed.

Lemma filter_perm {A : Type} (f : A -> bool) (l l' : list A) :
  Permutation l l' -> Permutation (filter f l) (filter f l').
Proof.
  induction 1 as [| x l l' _ IH | x y l | l l' l'' _ IH1 _ IH2];
    cbn [filter].
  - constructor.
  - destruct (f x); [constructor |]; exact IH.
  - destruct (f x), (f y); try reflexivity. apply perm_swap.
  - etransitivity; eassumption.
Qed.

(** The order of the log does not matter to the summary, and the summary
    of two logs put together is the sum of their summaries. *)
Theorem CGTSummaryFY_adds_up (log log' : list Txn.t) (fy : Z) :
  (events (CGTSummaryFY (log ++ log') fy)
   = (events (CGTSummaryFY log fy) + events (CGTSummaryFY log' fy))%nat
   /\ grossGain (CGTSummaryFY (log ++ log') fy)
      == grossGain (CGTSummaryFY log fy) + grossGain (CGTSummaryFY log' fy)
   /\ discountGain (CGTSummaryFY (log ++ log') fy)
      == discountGain (CGTSummaryFY log fy)
         + discountGain (CGTSummaryFY log' fy))
  /\ (Permutation log log' ->
      events (CGTSummaryFY log fy) = events (CGTSummaryFY log' fy)
      /\ grossGain (CGTSummaryFY log fy) == grossGain (CGTSummaryFY log' fy)
      /\ discountGain (CGTSummaryFY log fy)
         == discountGain (CGTSummaryFY log' fy)).
Proof.
  unfold CGTSummaryFY. cbn [events grossGain discountGain]. split.
  - rewrite filter_app, length_app, !reduce_sum, !map_app, !sumQ_app.
    split; [reflexivity |]. split; lra.
  - intros P. pose proof (filter_perm (in_fy fy) _ _ P) as F.
    split; [apply Permutation_length; exact F |].
    rewrite !reduce_sum.
    split; apply Qplus_inj_l, sumQ_perm, Permutation_map; exact F.
Qed.

Lemma CGTSummaryFY_adds_up_witness :
  let a := sell_on (Str "2024-01-15T00:00:00.000Z") 10 5 in
  let b := sell_on (Str "2024-02-15T00:00:00.000Z") 30 30 in
  grossGain (CGTSummaryFY [a; b] 2023) == grossGain (CGTSummaryFY [b; a] 2023).
Proof.
  apply (CGTSummaryFY_adds_up
           [sell_on (Str "2024-01-15T00:00:00.000Z") 10 5;
            sell_on (Str "2024-02-15T00:00:00.000Z") 30 30]
           [sell_on (Str "2024-02-15T00:00:00.000Z") 30 30;
            sell_on (Str "2024-01-15T00:00:00.000Z") 10 5] 2023).
  apply perm_swap.
Defined.

(** From one year to the next [DayFromYear] moves on by about a year. *)
Lemma DayFromYear_step (y : Z) :
  (364 <= DayFromYear (y + 1) - DayFromYear y <= 367)%Z.
Proof.
  unfold DayFromYear.
  replace (y + 1 - 1969)%Z with (y - 1969 + 1)%Z by lia.
  replace (y + 1 - 1901)%Z with (y - 1901 + 1)%Z by lia.
  replace (y + 1 - 1601)%Z with (y - 1601 + 1)%Z by lia.
  assert (0 <= (y - 1969 + 1) / 4 - (y - 1969) / 4 <= 1)%Z
    by (Z.to_euclidean_division_equations; lia).
  assert (0 <= (y - 1901 + 1) / 100 - (y - 1901) / 100 <= 1)%Z
    by (Z.to_euclidean_division_equations; lia).
  assert (0 <= (y - 1601 + 1) / 400 - (y - 1601) / 400 <= 1)%Z
    by (Z.to_euclidean_division_equations; lia).
  lia.
Qed.

Lemma daysBeforeMonth_june (y : Z) :
  daysBeforeMonth y 6 = (if isLeapYear y then 152 else 151)%Z.
Proof.
  unfold daysBeforeMonth. change (2 <? 6)%Z with true. cbn [andb].
  destruct (isLeapYear y); reflexivity.
Qed.

Lemma daysBeforeMonth_july (y : Z) :
  daysBeforeMonth y 7 = (if isLeapYear y then 182 else 181)%Z.
Proof.
  unfold daysBeforeMonth. change (2 <? 7)%Z with true. cbn [andb].
  destruct (isLeapYear y); reflexivity.
Qed.

(** The windows follow one another without gap or overlap. *)
Lemma windows_adjacent_any (fy : Z) : windows_adjacent fy = true.
Proof.
  unfold windows_adjacent, window_start, window_end, utc_ms, MakeDay, MakeTime.
  apply andb_true_iff. rewrite Z.leb_le, Z.eqb_eq.
  pose proof (DayFromYear_step fy) as S.
  rewrite !daysBeforeMonth_july, !daysBeforeMonth_june.
  unfold msPerDay.
  destruct (isLeapYear fy), (isLeapYear (fy + 1)); lia.
Qed.

Lemma window_adjacent (fy : Z) :
  four_digit_fy fy ->
  (window_start fy <= window_end fy
   /\ window_end fy + 1 = window_start (fy + 1))%Z.
Proof.
  intros _. pose proof (windows_adjacent_any fy) as R.
  unfold windows_adjacent in R. apply andb_true_iff in R.
  destruct R as [R1 R2]. apply Z.leb_le in R1. apply Z.eqb_eq in R2. auto.
Qed.

(** Later years have later windows. *)
Lemma window_later (n : nat) (fy : Z) :
  four_digit_fy fy ->
  four_digit_fy (fy + 1 + Z.of_nat n) ->
  (window_end fy < window_start (fy + 1 + Z.of_nat n))%Z.
Proof.
  intros H. induction n as [| n IH]; intros H'.
  - rewrite Z.add_0_r. destruct (window_adjacent fy H). lia.
  - assert (Hm : four_digit_fy (fy + 1 + Z.of_nat n))
      by (unfold four_digit_fy in *; lia).
    specialize (IH Hm). destruct (window_adjacent _ Hm) as [A1 A2].
    replace (fy + 1 + Z.of_nat (S n))%Z with (fy + 1 + Z.of_nat n + 1)%Z
      by lia.
    lia.
Qed.

Lemma windows_disjoint (fy fy' : Z) :
  four_digit_fy fy -> four_digit_fy fy' -> (fy < fy')%Z ->
  (window_end fy < window_start fy')%Z.
Proof.
  intros H H' L.
  replace fy' with (fy + 1 + Z.of_nat (Z.to_nat (fy' - fy - 1)))%Z by lia.
  apply window_later; [exact H |].
  replace (fy + 1 + Z.of_nat (Z.to_nat (fy' - fy - 1)))%Z with fy' by lia.
  exact H'.
Qed.

(** Every instant from the start of the first window on lies in a window
    before any given later year. *)
Lemma window_found (ms : Z) (n : nat) :
  (window_start 1000 <= ms)%Z ->
  (Z.of_nat n <= 8999)%Z ->
  (ms < window_start (1000 + Z.of_nat n))%Z ->
  exists fy, (1000 <= fy < 1000 + Z.of_nat n)%Z
             /\ (window_start fy <= ms <= window_end fy)%Z.
Proof.
  intros Hlo. induction n as [| n IH]; intros Hn Hms.
  - rewrite Z.add_0_r in Hms. lia.
  - assert (Hy : four_digit_fy (1000 + Z.of_nat n))
      by (unfold four_digit_fy; lia).
    destruct (window_adjacent _ Hy) as [A1 A2].
    replace (1000 + Z.of_nat (S n))%Z with (1000 + Z.of_nat n + 1)%Z in Hms
      by lia.
    destruct (Z_lt_le_dec ms (window_start (1000 + Z.of_nat n))) as [L | G].
    + destruct (IH ltac:(lia) L) as (fy & R & W).
      exists fy. split; [lia | exact W].
    + exists (1000 + Z.of_nat n)%Z. split; lia.
Qed.

Lemma sell_in_window_bounds (fy : Z) (t : Txn.t) :
  sell_in_window fy t = true <->
  Txn.kind t = "SELL"%string
  /\ exists ms, date_instant (Txn.date t) = Some ms
                /\ (window_start fy <= ms <= window_end fy)%Z.
Proof.
  unfold sell_in_window. rewrite andb_true_iff, String.eqb_eq.
  destruct (date_instant (Txn.date t)) as [ms |].
  - rewrite andb_true_iff, !Z.leb_le. split.
    + intros [K W]. split; [exact K |]. exists ms. auto.
    + intros [K (ms' & E & W)]. injection E as <-. auto.
  - split; [intros [_ F]; discriminate | intros [_ (ms & E & _)]].
    discriminate.
Qed.

(** The financial years from 1000 to 9998 partition the sales: a SELL whose
    date reads as an instant from 1 July 1000 to 30 June 9999 is counted in
    the summary of exactly one of them. *)
Theorem each_sale_in_one_year (t : Txn.t) (ms : Z) :
  Txn.kind t = "SELL"%string ->
  date_instant (Txn.date t) = Some ms ->
  (window_start 1000 <= ms <= window_end 9998)%Z ->
  exists fy,
    four_digit_fy fy /\ in_fy fy t = true
    /\ forall fy', four_digit_fy fy' -> in_fy fy' t = true -> fy' = fy.
Proof.
  intros Hk Hd [Hlo Hhi].
  assert (A : (window_end 9998 + 1 = window_start (9998 + 1))%Z)
    by (apply window_adjacent; unfold four_digit_fy; lia).
  destruct (window_found ms (Z.to_nat 8999) Hlo ltac:(lia)) as (fy & R & W).
  { replace (1000 + Z.of_nat (Z.to_nat 8999))%Z with (9998 + 1)%Z by lia.
    lia. }
  assert (Hfy : four_digit_fy fy) by (unfold four_digit_fy; lia).
  exists fy. split; [exact Hfy |]. split.
  - rewrite (in_fy_window fy t Hfy). apply sell_in_window_bounds.
    split; [exact Hk |]. exists ms. auto.
  - intros fy' Hfy' I. rewrite (in_fy_window fy' t Hfy') in I.
    apply sell_in_window_bounds in I. destruct I as (_ & ms' & E & W').
    rewrite Hd in E. injection E as <-.
    destruct (Z.lt_trichotomy fy fy') as [L | [E | G]]; [| auto |].
    + pose proof (windows_disjoint fy fy' Hfy Hfy' L). lia.
    + pose proof (windows_disjoint fy' fy Hfy' Hfy G). lia.
Qed.

Lemma each_sale_in_one_year_witness :
  exists fy,
    four_digit_fy fy
    /\ in_fy fy (sell_on (Str "2024-06-30T23:59:59.999Z") 200 100) = true
    /\ forall fy', four_digit_fy fy' ->
         in_fy fy' (sell_on (Str "2024-06-30T23:59:59.999Z") 200 100) = true ->
         fy' = fy.
Proof.
  apply (each_sale_in_one_year
           (sell_on (Str "2024-06-30T23:59:59.999Z") 200 100)
           1719791999999).
  - reflexivity.
  - reflexivity.
  - split; discriminate.
Defined.

(** ** Dates written and read back *)

Lemma digit_of_digit_char (d : Z) :
  (0 <= d <= 9)%Z -> digit_of (digit_char d) = Some d.
Proof.
  intros H.
  assert (C : (d = 0 \/ d = 1 \/ d = 2 \/ d = 3 \/ d = 4 \/ d = 5 \/ d = 6
               \/ d = 7 \/ d = 8 \/ d = 9)%Z) by lia.
  repeat (destruct C as [-> | C]; [reflexivity |]). subst d. reflexivity.
Qed.

(** Reading [w] digits off a number written with [w] digits. *)
Lemma digits_pad (w : nat) :
  forall (k : nat) (n acc : Z) (tail : string),
    (0 <= n < 10 ^ Z.of_nat w)%Z ->
    digits (w + k) acc (pad w n tail)
    = digits k (acc * 10 ^ Z.of_nat w + n)%Z tail.
Proof.
  induction w as [| w IH]; intros k n acc tail Hn.
  - cbn [pad Nat.add]. change (10 ^ Z.of_nat 0)%Z with 1%Z in *.
    f_equal. lia.
  - cbn [pad]. rewrite Nat.add_succ_comm.
    assert (P : (10 ^ Z.of_nat (S w) = 10 * 10 ^ Z.of_nat w)%Z).
    { rewrite Nat2Z.inj_succ, Z.pow_succ_r by lia. reflexivity. }
    rewrite P in Hn.
    rewrite IH by (split; [apply Z.div_pos; lia
                          | apply Z.div_lt_upper_bound; lia]).
    cbn [digits].
    rewrite digit_of_digit_char
      by (pose proof (Z.mod_pos_bound n 10 ltac:(lia)); lia).
    cbn [obind]. f_equal. rewrite P.
    pose proof (Z.div_mod n 10 ltac:(lia)). lia.
Qed.

Lemma digits_pad_exact (w : nat) (n : Z) (tail : string) :
  (0 <= n < 10 ^ Z.of_nat w)%Z ->
  digits w 0 (pad w n tail) = Some (n, tail).
Proof.
  intros H. rewrite <- (Nat.add_0_r w) at 1.
  rewrite digits_pad by exact H. cbn [digits]. repeat f_equal.
Qed.

Lemma count_up_In (n : nat) (from x : Z) :
  (from <= x < from + Z.of_nat n)%Z -> In x (count_up n from).
Proof.
  revert from. induction n as [| n IH]; intros from H; [lia |].
  cbn [count_up]. destruct (Z.eq_dec from x) as [E | N]; [left; exact E |].
  right. apply IH. lia.
Qed.

(** The calendar arithmetic, checked day by day from 1970 to 2099. *)
Lemma civil_round_trip_all :
  forallb civil_round_trip days_1970_2099 = true.
Proof. vm_cast_no_check (eq_refl true). Qed.

Lemma civil_of_day_correct (day : Z) :
  (0 <= day < day_2100)%Z ->
  exists y m d,
    civil_of_day day = (y, m, d)
    /\ (1970 <= y <= 2099 /\ 1 <= m <= 12 /\ 1 <= d <= daysInMonth y m)%Z
    /\ MakeDay y m d = day.
Proof.
  intros H. pose proof civil_round_trip_all as A.
  rewrite forallb_forall in A.
  assert (R : civil_round_trip day = true).
  { apply A. unfold days_1970_2099. apply count_up_In. lia. }
  unfold civil_round_trip in R.
  destruct (civil_of_day day) as [[y m] d]. exists y, m, d.
  rewrite !andb_true_iff, !Z.leb_le, Z.eqb_eq in R.
  split; [reflexivity |]. split; [lia | tauto].
Qed.

Lemma in_range_ok (lo x hi : Z) :
  (lo <= x <= hi)%Z -> in_range lo x hi = Some tt.
Proof.
  intros [H1 H2]. unfold in_range.
  apply Z.leb_le in H1. apply Z.leb_le in H2. rewrite H1, H2. reflexivity.
Qed.

(** The time of day splits into hours, minutes, seconds and milliseconds,
    and [MakeTime] puts it together again. *)
Lemma time_of_day_parts (tod : Z) :
  (0 <= tod < msPerDay)%Z ->
  (0 <= tod / 3600000 <= 23
   /\ 0 <= tod / 60000 mod 60 <= 59
   /\ 0 <= tod / 1000 mod 60 <= 59
   /\ 0 <= tod mod 1000 <= 999
   /\ MakeTime (tod / 3600000) (tod / 60000 mod 60) (tod / 1000 mod 60)
               (tod mod 1000) = tod)%Z.
Proof.
  unfold msPerDay, MakeTime. intros H.
  Z.to_euclidean_division_equations. lia.
Qed.

Lemma digit_char_not_sign (d : Z) :
  (0 <= d <= 9)%Z ->
  Ascii.eqb "+" (digit_char d) = false /\ Ascii.eqb "-" (digit_char d) = false.
Proof.
  intros H.
  assert (C : (d = 0 \/ d = 1 \/ d = 2 \/ d = 3 \/ d = 4 \/ d = 5 \/ d = 6
               \/ d = 7 \/ d = 8 \/ d = 9)%Z) by lia.
  repeat (destruct C as [-> | C]; [split; reflexivity |]).
  subst d. split; reflexivity.
Qed.

(** A year written with four digits is read as such. *)
Lemma parse_year_pad (y : Z) (tail : string) :
  (0 <= y <= 9999)%Z -> parse_year (pad 4 y tail) = Some (y, tail).
Proof.
  intros H.
  assert (E : exists c rest,
             pad 4 y tail = String (digit_char c) rest /\ (0 <= c <= 9)%Z).
  { cbn [pad]. eexists _, _. split; [reflexivity |].
    pose proof (Z.mod_pos_bound (y / 10 / 10 / 10) 10 ltac:(lia)). lia. }
  destruct E as (c & rest & E & Hc).
  destruct (digit_char_not_sign c Hc) as [Plus Minus].
  unfold parse_year. rewrite E. cbn [expect]. rewrite Plus, Minus.
  rewrite <- E.
  apply digits_pad_exact. change (10 ^ Z.of_nat 4)%Z with 10000%Z. lia.
Qed.

Lemma parse_date_written (y m d : Z) (tail : string) :
  (0 <= y <= 9999)%Z -> (1 <= m <= 12)%Z -> (1 <= d <= daysInMonth y m)%Z ->
  (d <= 31)%Z ->
  parse_date (pad 4 y (String "-" (pad 2 m (String "-" (pad 2 d tail)))))
  = Some (y, m, d, tail).
Proof.
  intros Hy Hm Hd Hd31. unfold parse_date.
  rewrite parse_year_pad by exact Hy.
  cbn [obind expect Ascii.eqb Bool.eqb].
  rewrite digits_pad_exact by (change (10 ^ Z.of_nat 2)%Z with 100%Z; lia).
  cbn [obind]. rewrite (in_range_ok 1 m 12) by lia.
  cbn [obind expect Ascii.eqb Bool.eqb].
  rewrite digits_pad_exact by (change (10 ^ Z.of_nat 2)%Z with 100%Z; lia).
  cbn [obind]. rewrite (in_range_ok 1 d (daysInMonth y m)) by lia.
  reflexivity.
Qed.

Lemma parse_time_written (h mi sec ms : Z) (tail : string) :
  (0 <= h <= 23)%Z -> (0 <= mi <= 59)%Z -> (0 <= sec <= 59)%Z ->
  (0 <= ms <= 999)%Z ->
  parse_time (pad 2 h (String ":" (pad 2 mi (String ":" (pad 2 sec
                (String "." (pad 3 ms tail)))))))
  = Some (MakeTime h mi sec ms, tail).
Proof.
  intros Hh Hmi Hs Hms. unfold parse_time, parse_seconds.
  rewrite digits_pad_exact by (change (10 ^ Z.of_nat 2)%Z with 100%Z; lia).
  cbn [obind expect Ascii.eqb Bool.eqb].
  rewrite digits_pad_exact by (change (10 ^ Z.of_nat 2)%Z with 100%Z; lia).
  cbn [obind]. rewrite (in_range_ok 0 mi 59) by lia.
  cbn [obind expect Ascii.eqb Bool.eqb].
  rewrite digits_pad_exact by (change (10 ^ Z.of_nat 2)%Z with 100%Z; lia).
  cbn [obind]. rewrite (in_range_ok 0 sec 59) by lia.
  cbn [obind expect Ascii.eqb Bool.eqb].
  rewrite digits_pad_exact by (change (10 ^ Z.of_nat 3)%Z with 1000%Z; lia).
  cbn [obind].
  assert (N : (h =? 24)%Z = false) by (apply Z.eqb_neq; lia).
  rewrite N, (in_range_ok 0 h 23) by lia.
  reflexivity.
Qed.

(** What [toISOString] writes, [Date.parse] reads back as the same
    instant, in every zone, for every instant from 1970 to 2099. *)
Lemma Date_parse_in_toISOString (zone : Z -> Z) (t : Z) :
  (0 <= t < ms_2100)%Z -> Date_parse_in zone (toISOString t) = Some t.
Proof.
  intros Ht. unfold ms_2100 in Ht.
  assert (Hday : (0 <= t / msPerDay < day_2100)%Z).
  { unfold msPerDay in *. split; [apply Z.div_pos; lia |].
    apply Z.div_lt_upper_bound; lia. }
  assert (Htod : (0 <= t mod msPerDay < msPerDay)%Z)
    by (apply Z.mod_pos_bound; reflexivity).
  destruct (civil_of_day_correct _ Hday) as (y & m & d & Ec & (Hy & Hm & Hd) & Em).
  destruct (time_of_day_parts _ Htod) as (Hh & Hmi & Hs & Hms & Et).
  assert (Hd31 : (d <= 31)%Z).
  { assert (daysInMonth y m <= 31)%Z; [| lia].
    unfold daysInMonth.
    destruct (m =? 2)%Z; [destruct (isLeapYear y); lia |].
    destruct ((m =? 4) || (m =? 6) || (m =? 9) || (m =? 11))%Z; lia. }
  unfold toISOString. rewrite Ec. unfold year_string.
  assert (Yr : ((0 <=? y) && (y <=? 9999))%Z = true)
    by (apply andb_true_iff; split; apply Z.leb_le; lia).
  rewrite Yr. unfold Date_parse_in.
  rewrite parse_date_written by lia.
  cbn [obind expect Ascii.eqb Bool.eqb].
  rewrite parse_time_written by lia.
  cbn [obind parse_offset expect Ascii.eqb Bool.eqb].
  rewrite Em, Et.
  replace (t / msPerDay * msPerDay + t mod msPerDay - 0)%Z with t
    by (pose proof (Z.div_mod t msPerDay ltac:(discriminate)); lia).
  unfold TimeClip.
  assert (C : (Z.abs t <=? 8640000000000000)%Z = true)
    by (apply Z.leb_le; unfold msPerDay, day_2100 in *; lia).
  rewrite C. reflexivity.
Qed.

Lemma Date_parse_toISOString (t : Z) :
  (0 <= t < ms_2100)%Z -> Date_parse (toISOString t) = Some t.
Proof. apply Date_parse_in_toISOString. Qed.

(** A buy that passes the guards, spelled out. *)
Lemma handleBuy_accepted sys tk q st a :
  find_asset tk (assets st) = Some a ->
  ~ Asset.price a == 0 ->
  0 < q ->
  handleBuy sys tk (Some q) st
  = addTransaction
      (Txn.mk (randomUUID sys) "BUY" tk q (q / Asset.price a) (Asset.price a)
              None None None None (Str (toISOString (now_again sys))))
      (updateAsset tk
         (patch_buy (Asset.units a + q / Asset.price a)
                    (Asset.invested a + q)
                    (Asset.lots a
                     ++ [Lot.mk (q / Asset.price a) (Asset.price a)
                                (Str (toISOString (now sys)))])
                    (if truthy (Asset.firstContribution a)
                     then Asset.firstContribution a
                     else Str (toISOString (now sys))))
         st).
Proof.
  intros Hf Hp Hq. unfold handleBuy. rewrite Hf, (clamp0_pos q Hq).
  apply falsyQ_nonzero in Hp. apply Qleb_gt in Hq. rewrite Hp, Hq.
  reflexivity.
Qed.

Lemma toISOString_truthy (t : Z) :
  (0 <= t < ms_2100)%Z -> truthy (Str (toISOString t)) = true.
Proof.
  intros H. cbn [truthy].
  destruct (String.eqb (toISOString t) "") eqn:E; [| reflexivity].
  apply String.eqb_eq in E. pose proof (Date_parse_toISOString t H) as P.
  rewrite E in P. discriminate P.
Qed.

(** Selling from a single lot that covers the sale consumes that lot
    alone, for the quantity sold. *)
Lemma consume_single_lot (lot : Lot.t) (sold : Q) :
  0 < sold ->
  sold <= Lot.qty lot ->
  exists take,
    Fifo.consumed (consumeLotsFIFO [lot] sold) = [Lot.with_qty lot take]
    /\ take == sold.
Proof.
  intros Hs Hc. exists (Math_min sold (Lot.qty lot)). split.
  - unfold consumeLotsFIFO, consume_loop. cbn [fold_left].
    unfold consume_step. fifo_simpl.
    assert (E1 : Qleb sold 0 = false) by (apply Qleb_gt; exact Hs).
    assert (E2 : Qltb 0 (Math_min sold (Lot.qty lot)) = true).
    { apply Qltb_lt. unfold Math_min. rewrite Q.min_l by exact Hc. exact Hs. }
    rewrite E1, E2. reflexivity.
  - unfold Math_min. apply Q.min_l. exact Hc.
Qed.

(** Buy, reprice, sell.  An asset without lots is bought, its price is
    changed, and part (or all) of what was bought is sold: the SELL entry
    carries the gain [sold * (new price - buy price)], and its discounted
    gain is half of the non-negative gain when the clock of the sale reads
    at least one 365.25-day year after the clock of the buy, the whole of
    it otherwise: the date written into the lot by the buy is read back by
    the sale as the instant of the buy. *)
Theorem buy_then_sell_discount sys0 sys1 tk q p' q' st a :
  find_asset tk (assets st) = Some a ->
  Asset.lots a = [] ->
  0 < Asset.price a ->
  0 < q -> 0 < p' -> 0 < q' ->
  q' / p' <= q / Asset.price a ->
  (0 <= now sys0 < ms_2100)%Z ->
  let st1 := handleBuy sys0 tk (Some q) st in
  let st2 := handleManualPrice tk (Some p') st1 in
  let st3 := handleSell sys1 tk (Some q') st2 in
  let sold := q' / p' in
  let gain := sold * (p' - Asset.price a) in
  exists t g dg,
    txn st3 = t :: txn st1
    /\ Txn.kind t = "SELL"%string
    /\ Txn.gain t = Some g /\ g == gain
    /\ Txn.discountGain t = Some dg
    /\ dg == (if (msPerYear <=? now sys1 - now sys0)%Z
              then Qmax 0 gain / 2 else Qmax 0 gain).
Proof.
  intros Hf Hl Hp Hq Hp' Hq' Hc Ht. cbv zeta.
  assert (Hp0 : ~ Asset.price a == 0) by lra.
  rewrite (handleBuy_accepted sys0 tk q st a Hf Hp0 Hq). rewrite Hl.
  cbn [app].
  set (lot := Lot.mk (q / Asset.price a) (Asset.price a)
                     (Str (toISOString (now sys0)))).
  set (buy := Txn.mk _ _ _ _ _ _ _ _ _ _ _).
  set (patch := patch_buy _ _ _ _).
  unfold handleManualPrice. rewrite (clamp0_pos p' Hp').
  set (st2 := updateAsset tk (patch_price p')
                (addTransaction buy (updateAsset tk patch st))).
  assert (F2 : find_asset tk (assets st2) = Some (patch_price p' (patch a))).
  { unfold st2. apply find_asset_update; [reflexivity |].
    unfold addTransaction. cbn [assets].
    apply find_asset_update; [reflexivity | exact Hf]. }
  set (a2 := patch_price p' (patch a)) in *.
  assert (L2 : Asset.lots a2 = [lot]) by reflexivity.
  assert (P2 : Asset.price a2 = p') by reflexivity.
  assert (Hsold : 0 < q' / p') by (apply Qdiv_pos; assumption).
  destruct (consume_single_lot lot (q' / p') Hsold Hc) as (take & C & Et).
  assert (Hu : Fifo.unfilled
                 (consumeLotsFIFO (Asset.lots a2) (q' / Asset.price a2))
               <= 1e-9).
  { rewrite L2, P2.
    rewrite (unfilled_is_the_excess [lot] (q' / p'));
      [| repeat constructor; cbn [Lot.qty lot];
         apply Qlt_le_weak, Qdiv_pos; assumption
       | lra].
    unfold total_qty. cbn [map sumQ fold_right Lot.qty lot].
    rewrite tolerance_value. apply Q.max_lub; [lra |].
    cbn [Lot.qty lot] in Hc. lra. }
  rewrite (handleSell_accepted sys1 tk q' st2 a2 F2
             ltac:(rewrite P2; exact Hp') Hq' Hu).
  cbv zeta. rewrite L2, P2, C.
  unfold addTransaction. cbn [txn st2 updateAsset].
  eexists _, _, _. split; [reflexivity |].
  cbn [Txn.kind Txn.gain Txn.discountGain].
  split; [reflexivity |]. split; [reflexivity |]. split; [| split].
  - unfold cost_base. cbn [fold_left Lot.with_qty Lot.qty Lot.price lot].
    rewrite Et. field. lra.
  - reflexivity.
  - rewrite discounted_of_sum. cbn [map]. rewrite sumQ_cons.
    change (sumQ []) with 0. rewrite Qplus_0_r.
    unfold spec_discount, held_at_least_a_year, lot_gain.
    cbn [Lot.with_qty Lot.qty Lot.price Lot.date lot Date_getTime].
    rewrite (Date_parse_toISOString _ Ht).
    assert (G : Qmax 0 (take * (p' - Asset.price a))
                == Qmax 0 (q' / p' * (p' - Asset.price a)))
      by (apply Q.max_compat; [reflexivity | rewrite Et; reflexivity]).
    destruct (msPerYear <=? now sys1 - now sys0)%Z; rewrite G; reflexivity.
Qed.

Lemma buy_then_sell_discount_witness :
  let st1 := handleBuy sample_sys "VGS" (Some 1000) priced_defaults in
  let st2 := handleManualPrice "VGS" (Some 150) st1 in
  let st3 := handleSell sample_sys_later "VGS" (Some 600) st2 in
  exists t g dg,
    txn st3 = t :: txn st1
    /\ Txn.kind t = "SELL"%string
    /\ Txn.gain t = Some g /\ g == 600 / 150 * (150 - 100)
    /\ Txn.discountGain t = Some dg
    /\ dg == Qmax 0 (600 / 150 * (150 - 100)) / 2.
Proof.
  apply (buy_then_sell_discount sample_sys sample_sys_later "VGS" 1000 150 600
           priced_defaults
           (Asset.mk "VGS" "VGS – Intl Shares" 0.35 (clamp0 (Some 100)) 0 0 []
                     Null));
    try reflexivity.
  - discriminate.
  - split; [discriminate | reflexivity].
Defined.

(** At the instant of its first buy, and at any reading of the clock up to
    it, an asset's CAGR is 0: the buy sets the first-contribution date to
    its own instant, and no time has elapsed. *)
Theorem cagr_is_zero_at_first_buy (Math_pow : Q -> Q -> Q) sys tk q st a :
  find_asset tk (assets st) = Some a ->
  truthy (Asset.firstContribution a) = false ->
  0 <= Asset.invested a ->
  ~ Asset.price a == 0 ->
  0 < q ->
  (0 <= now sys < ms_2100)%Z ->
  exists a',
    find_asset tk (assets (handleBuy sys tk (Some q) st)) = Some a'
    /\ Date_getTime (Asset.firstContribution a') = Some (now sys)
    /\ forall today, (today <= now sys)%Z ->
         getCAGR Math_pow today a' = Some 0.
Proof.
  intros Hf Hfc Hinv Hp Hq Ht.
  rewrite (handleBuy_accepted sys tk q st a Hf Hp Hq).
  unfold addTransaction. cbn [assets].
  eexists. split; [apply find_asset_update; [reflexivity | exact Hf] |].
  cbn [patch_buy Asset.firstContribution]. rewrite Hfc.
  cbn [Date_getTime]. split; [apply Date_parse_toISOString; exact Ht |].
  intros today Hle. unfold getCAGR.
  cbn [patch_buy Asset.firstContribution Asset.invested Asset.units
       Asset.price].
  rewrite (toISOString_truthy _ Ht). cbn [negb orb Date_getTime].
  assert (E : Qleb (Asset.invested a + q) 0 = false)
    by (apply Qleb_gt; lra).
  rewrite E, (Date_parse_toISOString _ Ht).
  destruct (yearsBetween_elapsed (now sys) today) as (y & Hy & Ey).
  rewrite Hy.
  assert (Y : Qleb y 0 = true).
  { apply Qleb_le. rewrite Ey. apply years_elapsed_sign. lia. }
  rewrite Y. reflexivity.
Qed.

Lemma cagr_is_zero_at_first_buy_witness :
  exists a',
    find_asset "VGS"
      (assets (handleBuy sample_sys "VGS" (Some 1000) priced_defaults))
    = Some a'
    /\ Date_getTime (Asset.firstContribution a') = Some (now sample_sys)
    /\ forall today, (today <= now sample_sys)%Z ->
         getCAGR (fun x _ => x) today a' = Some 0.
Proof.
  apply (cagr_is_zero_at_first_buy (fun x _ => x) sample_sys "VGS" 1000
           priced_defaults
           (Asset.mk "VGS" "VGS – Intl Shares" 0.35 (clamp0 (Some 100)) 0 0 []
                     Null));
    try reflexivity.
  - discriminate.
  - discriminate.
  - split; [discriminate | reflexivity].
Defined.

(** ** More on backups *)

Section BackupProperties.
Variable JSON_parse : string -> json + string.
Variable JSON_stringify : json -> string.
Variable null_property_message : string.

(** An import replaces, it never merges: whether it succeeds and what it
    reports depend on the file alone; when it succeeds the store it leaves
    does not depend on the store it found; when it fails the store is the
    one it found.  So importing the same file a second time changes
    nothing more. *)
Theorem import_replaces (text : string) (st st' : Store) :
  let out := onImportFile JSON_parse null_property_message text st in
  let out' := onImportFile JSON_parse null_property_message text st' in
  alerted out = alerted out'
  /\ (alerted out = None -> store out = store out')
  /\ (alerted out <> None -> store out = st)
  /\ onImportFile JSON_parse null_property_message text (store out) = out.
Proof.
  cbv zeta. unfold onImportFile, import_failed.
  destruct (JSON_parse text) as [data | message];
    [| cbn [alerted store]; splits; auto; discriminate].
  destruct (property null_property_message data "assets") as [a | message];
    [| cbn [alerted store]; splits; auto; discriminate].
  destruct (js_falsy a || negb (Array_isArray a));
    [cbn [alerted store]; splits; auto; discriminate |].
  destruct (property null_property_message data "transactions")
    as [t | message];
    cbn [alerted store]; splits; auto; try discriminate.
  intros N. contradiction.
Qed.

(** A backup restores what it saved.  Provided [JSON.parse] reads back
    what [JSON.stringify] wrote for the snapshot, importing the exported
    text puts the saved assets and transactions in place of whatever the
    store holds, and reports nothing. *)
Theorem backup_round_trip (saved current : Store) :
  JSON_parse (JSON_stringify (snapshot saved)) = inl (snapshot saved) ->
  onImportFile JSON_parse null_property_message
               (exportJSON JSON_stringify saved) current
  = mkImported saved None.
Proof.
  intros H. unfold onImportFile, exportJSON. rewrite H.
  destruct saved as [a t]. reflexivity.
Qed.
End BackupProperties.

Lemma backup_round_trip_witness :
  onImportFile (fun _ => inl (snapshot sample_store)) "null has no properties"
               (exportJSON (fun _ => "{}"%string) sample_store)
               (mkStore [] [])
  = mkImported sample_store None.
Proof.
  apply (backup_round_trip (fun _ => inl (snapshot sample_store))
           (fun _ => "{}"%string) "null has no properties"
           sample_store (mkStore [] [])).
  reflexivity.
Defined.

(** ** The year the CGT panel opens on *)

Lemma july_first_opens_all :
  forallb july_first_opens years_1971_2099 = true.
Proof. vm_cast_no_check (eq_refl true). Qed.

Ltac month_values :=
  repeat match goal with
  | |- context [nth ?n ?l ?d] =>
      let v := eval vm_compute in (nth n l d) in change (nth n l d) with v
  | |- context [(?a <? ?b)%Z] =>
      let v := eval vm_compute in (a <? b)%Z in change (a <? b)%Z with v
  | H : context [(?a =? ?b)%Z] |- _ =>
      let v := eval vm_compute in (a =? b)%Z in
      change (a =? b)%Z with v in H
  end;
  cbn [andb orb] in *.

(** A day of the first half of a year comes before 1 July, a day of the
    second half does not, and no day is later than the 366th. *)
Lemma day_of_year_halves (y m d : Z) :
  (1 <= m <= 12)%Z -> (1 <= d <= daysInMonth y m)%Z ->
  (0 <= daysBeforeMonth y m
   /\ (m <= 6 -> daysBeforeMonth y m + (d - 1) < daysBeforeMonth y 7)
   /\ (7 <= m -> daysBeforeMonth y 7 <= daysBeforeMonth y m + (d - 1) <= 365))%Z.
Proof.
  intros Hm Hd. rewrite daysBeforeMonth_july.
  unfold daysBeforeMonth, daysInMonth in *.
  remember (isLeapYear y) as leap eqn:L. clear L.
  assert (C : (m = 1 \/ m = 2 \/ m = 3 \/ m = 4 \/ m = 5 \/ m = 6 \/ m = 7
               \/ m = 8 \/ m = 9 \/ m = 10 \/ m = 11 \/ m = 12)%Z) by lia.
  destruct leap;
    repeat (destruct C as [-> | C]; [month_values; lia |]);
    subst m; month_values; lia.
Qed.

Lemma opening_year_window (now : Z) :
  (0 <= now < ms_2100)%Z ->
  let fy := initial_fyYear 0 now in
  four_digit_fy fy /\ (window_start fy <= now <= window_end fy)%Z.
Proof.
  intros H fy. subst fy. unfold initial_fyYear. rewrite Z.add_0_r.
  unfold ms_2100 in H.
  assert (Hday : (0 <= now / msPerDay < day_2100)%Z).
  { unfold msPerDay in *. split; [apply Z.div_pos; lia |].
    apply Z.div_lt_upper_bound; lia. }
  destruct (civil_of_day_correct _ Hday)
    as (y & m & d & Ec & (Hy & Hm & Hd) & Em).
  pose proof (Z.div_mod now msPerDay ltac:(discriminate)) as D.
  pose proof (Z.mod_pos_bound now msPerDay ltac:(reflexivity)) as M.
  destruct (day_of_year_halves y m d Hm Hd) as (Pos & First & Second).
  unfold fy_of_day. rewrite Ec. unfold MakeDay in Em.
  unfold four_digit_fy, window_start, window_end, utc_ms, MakeDay, MakeTime.
  destruct (6 <=? m - 1)%Z eqn:Half.
  - apply Z.leb_le in Half.
    pose proof (DayFromYear_step y) as S.
    rewrite daysBeforeMonth_june.
    assert (J : (151 <= (if isLeapYear (y + 1) then 152 else 151))%Z)
      by (destruct (isLeapYear (y + 1)); lia).
    specialize (Second ltac:(lia)).
    unfold msPerDay in *. lia.
  - apply Z.leb_gt in Half.
    pose proof (DayFromYear_step (y - 1)) as S.
    replace (y - 1 + 1)%Z with y in * by lia.
    specialize (First ltac:(lia)).
    rewrite daysBeforeMonth_july in First.
    rewrite daysBeforeMonth_june, daysBeforeMonth_july.
    assert (J : ((if isLeapYear (y - 1) then 182 else 181) <= 182)%Z)
      by (destruct (isLeapYear (y - 1)); lia).
    destruct (isLeapYear y); unfold msPerDay in *; lia.
Qed.

(** Where local time is UTC, the year the CGT panel opens on is the
    financial year of the present instant: a sale made now (1970 to 2099),
    dated as [handleSell] dates it, is counted in that year's summary. *)
Theorem opening_year_counts_a_sale_now (now : Z) (t : Txn.t) :
  (0 <= now < ms_2100)%Z ->
  Txn.kind t = "SELL"%string ->
  Txn.date t = Str (toISOString now) ->
  in_fy (initial_fyYear 0 now) t = true.
Proof.
  intros H K D. destruct (opening_year_window now H) as [F [W1 W2]].
  rewrite in_fy_window by exact F.
  unfold sell_in_window. rewrite K, D. cbn [String.eqb date_instant].
  rewrite Date_parse_toISOString by exact H.
  apply Z.leb_le in W1. apply Z.leb_le in W2.
  rewrite W1, W2. reflexivity.
Qed.

Lemma opening_year_counts_a_sale_now_witness :
  in_fy (initial_fyYear 0 sample_june_30)
        (sell_on (Str (toISOString sample_june_30)) 1 1) = true.
Proof.
  apply (opening_year_counts_a_sale_now sample_june_30
           (sell_on (Str (toISOString sample_june_30)) 1 1)).
  - split; [discriminate | reflexivity].
  - reflexivity.
  - reflexivity.
Defined.

(** East of UTC the opening year runs ahead of the windows.  With local
    time ahead of UTC by [LocalTZA] (at most a day), during the last
    [LocalTZA] milliseconds before 1 July, 00:00 UTC the local date is
    already 1 July: the panel opens on the new financial year, while a
    sale made at that instant falls outside that year's window and is
    counted in the year before. *)
Theorem opening_year_runs_ahead_east_of_utc (LocalTZA fy now : Z) (t : Txn.t) :
  (1971 <= fy <= 2099)%Z ->
  (0 < LocalTZA <= msPerDay)%Z ->
  (window_start fy - LocalTZA <= now < window_start fy)%Z ->
  Txn.kind t = "SELL"%string ->
  Txn.date t = Str (toISOString now) ->
  initial_fyYear LocalTZA now = fy
  /\ in_fy fy t = false
  /\ in_fy (fy - 1) t = true.
Proof.
  intros Hfy Htz Hnow K D.
  pose proof july_first_opens_all as A. rewrite forallb_forall in A.
  assert (R : july_first_opens fy = true).
  { apply A. unfold years_1971_2099. apply count_up_In. lia. }
  unfold july_first_opens in R.
  rewrite !andb_true_iff, !Z.eqb_eq, Z.leb_le in R.
  destruct R as [[R1 R2] R3].
  assert (F : four_digit_fy fy) by (unfold four_digit_fy; lia).
  assert (F1 : four_digit_fy (fy - 1)) by (unfold four_digit_fy; lia).
  destruct (window_adjacent (fy - 1) F1) as [_ Adj].
  replace (fy - 1 + 1)%Z with fy in Adj by lia.
  assert (Lo : (0 <= window_start (fy - 1))%Z).
  { destruct (Z.eq_dec fy 1971) as [-> | N]; [discriminate |].
    pose proof (window_later (Z.to_nat (fy - 1972)) 1970) as L.
    replace (1970 + 1 + Z.of_nat (Z.to_nat (fy - 1972)))%Z
      with (fy - 1)%Z in L by lia.
    assert (S0 : (window_end 1970 < window_start (fy - 1))%Z)
      by (apply L; unfold four_digit_fy; lia).
    assert (E0 : (0 <= window_end 1970)%Z) by discriminate.
    lia. }
  assert (Hi : (window_start fy < ms_2100)%Z).
  { destruct (Z.eq_dec fy 2099) as [-> | N]; [reflexivity |].
    pose proof (window_later (Z.to_nat (2099 - fy - 1)) fy) as L.
    replace (fy + 1 + Z.of_nat (Z.to_nat (2099 - fy - 1)))%Z with 2099%Z
      in L by lia.
    assert (S0 : (window_end fy < window_start 2099)%Z)
      by (apply L; unfold four_digit_fy; lia).
    destruct (window_adjacent fy F) as [B1 _].
    assert (E9 : (window_start 2099 < ms_2100)%Z) by reflexivity.
    lia. }
  assert (T : (0 <= now < ms_2100)%Z) by lia.
  split; [| split].
  - unfold initial_fyYear.
    replace ((now + LocalTZA) / msPerDay)%Z with (MakeDay fy 7 1);
      [exact R1 |].
    apply (Z.div_unique _ _ _ (now + LocalTZA - window_start fy)).
    + left. lia.
    + rewrite R2. lia.
  - rewrite in_fy_window by exact F.
    unfold sell_in_window. rewrite K, D. cbn [String.eqb date_instant].
    rewrite Date_parse_toISOString by exact T.
    assert (W : (window_start fy <=? now)%Z = false) by (apply Z.leb_gt; lia).
    rewrite W. reflexivity.
  - rewrite in_fy_window by exact F1.
    unfold sell_in_window. rewrite K, D. cbn [String.eqb date_instant].
    rewrite Date_parse_toISOString by exact T.
    assert (W1 : (window_start (fy - 1) <=? now)%Z = true)
      by (apply Z.leb_le; lia).
    assert (W2 : (now <=? window_end (fy - 1))%Z = true)
      by (apply Z.leb_le; lia).
    rewrite W1, W2. reflexivity.
Qed.

Lemma opening_year_runs_ahead_east_of_utc_witness :
  initial_fyYear ten_hours_east sample_june_30 = 2024%Z
  /\ in_fy 2024 (sell_on (Str (toISOString sample_june_30)) 1 1) = false
  /\ in_fy (2024 - 1) (sell_on (Str (toISOString sample_june_30)) 1 1) = true.
Proof.
  apply (opening_year_runs_ahead_east_of_utc ten_hours_east 2024
           sample_june_30 (sell_on (Str (toISOString sample_june_30)) 1 1)).
  - lia.
  - split; [reflexivity | discriminate].
  - split; [discriminate | reflexivity].
  - reflexivity.
  - reflexivity.
Defined.

(** ** Loading the stored copy *)

Section StoredCopyProperties.
Variable JSON_parse : string -> json + string.
Variable JSON_stringify : json -> string.
Variable null_property_message : string.

(** What the persistence effect wrote is what the next start loads.
    Provided [JSON.parse] reads back what [JSON.stringify] wrote for the
    snapshot (a text that is not empty), the initializers give the saved
    assets and the saved transactions. *)
Theorem stored_copy_is_loaded (saved : Store) :
  JSON_parse (JSON_stringify (snapshot saved)) = inl (snapshot saved) ->
  JSON_stringify (snapshot saved) <> ""%string ->
  load_assets JSON_parse null_property_message
              (Some (JSON_stringify (snapshot saved)))
  = FromStorage (Some (JArr (s_assets saved)))
  /\ load_txn JSON_parse null_property_message
              (Some (JSON_stringify (snapshot saved)))
  = JArr (s_txn saved).
Proof.
  intros H N. apply String.eqb_neq in N.
  unfold load_assets, load_txn. rewrite N, H. split; reflexivity.
Qed.

(** The start-up load checks less than the import.  A stored text that
    the import would turn down as a backup without assets (it parses, to
    something other than [null], and holds no array under [assets]) is
    still taken at start-up: the assets become whatever is there, not an
    array, instead of the defaults. *)
Theorem load_takes_what_import_rejects (text : string) (data : json)
    (current : Store) :
  text <> ""%string ->
  JSON_parse text = inl data ->
  data <> JNull ->
  Array_isArray (match data with JObj f => get_field "assets" f | _ => None end)
  = false ->
  alerted (onImportFile JSON_parse null_property_message text current)
  = Some "Import failed: Invalid backup – assets missing"%string
  /\ store (onImportFile JSON_parse null_property_message text current)
     = current
  /\ exists v, load_assets JSON_parse null_property_message (Some text)
               = FromStorage v
               /\ Array_isArray v = false.
Proof.
  intros N P D A. apply String.eqb_neq in N.
  unfold onImportFile, load_assets. rewrite N, P.
  destruct data as [| b | q | s | items | fields]; try contradiction;
    cbn [property] in *.
  all: try (cbn [js_falsy orb import_failed alerted store];
            splits; try reflexivity; eexists; split; reflexivity).
  - rewrite A. rewrite Bool.orb_true_r. cbn [import_failed alerted store].
    splits; try reflexivity. eexists. split; [reflexivity | exact A].
Qed.
End StoredCopyProperties.

Lemma stored_copy_is_loaded_witness :
  load_assets (fun _ => inl (snapshot sample_store)) "null has no properties"
              (Some "{}"%string)
  = FromStorage (Some (JArr (s_assets sample_store)))
  /\ load_txn (fun _ => inl (snapshot sample_store)) "null has no properties"
              (Some "{}"%string)
  = JArr (s_txn sample_store).
Proof.
  apply (stored_copy_is_loaded (fun _ => inl (snapshot sample_store))
           (fun _ => "{}"%string) "null has no properties" sample_store).
  - reflexivity.
  - discriminate.
Defined.

Lemma load_takes_what_import_rejects_witness :
  alerted (onImportFile (fun _ => inl (JObj [])) "null has no properties"
                        "{}" sample_store)
  = Some "Import failed: Invalid backup – assets missing"%string
  /\ store (onImportFile (fun _ => inl (JObj [])) "null has no properties"
                         "{}" sample_store)
     = sample_store
  /\ exists v, load_assets (fun _ => inl (JObj [])) "null has no properties"
                           (Some "{}"%string)
               = FromStorage v
               /\ Array_isArray v = false.
Proof.
  apply (load_takes_what_import_rejects (fun _ => inl (JObj []))
           "null has no properties" "{}" (JObj []) sample_store).
  - discriminate.
  - reflexivity.
  - discriminate.
  - reflexivity.
Defined.
